(** * ARINC 653 scheduler (xen/common/sched_arinc653.c): model and properties

    A shallow embedding of the scheduler core: the timetable, the
    install/read operations, VCPU insertion, the provider selector, the
    dispatcher and the per-domain adjust hook, followed by the properties
    checked against the textual specification. *)

From Stdlib Require Import ZArith Lia.
From stdpp Require Import base list.
Local Open Scope Z_scope.

(** ** Machine integers

    [s_time_t] is a signed 64-bit count of nanoseconds; [unsigned int] is
    32 bits wide.  Values are carried as [Z]; arithmetic on [s_time_t]
    wraps as two's complement does. *)

Definition INT64_MAX : Z := 2 ^ 63 - 1.
Definition INT64_MIN : Z := - 2 ^ 63.
Definition UINT32_MAX : Z := 2 ^ 32 - 1.

Definition wrap_s64 (z : Z) : Z := (z + 2 ^ 63) mod 2 ^ 64 - 2 ^ 63.
Definition wrap_u16 (z : Z) : Z := z mod 2 ^ 16.

Definition in_s64 (z : Z) : Prop := INT64_MIN <= z <= INT64_MAX.

(** Modelled from the spec: [MILLISECS] is a macro of the host's time
    header; times are in nanoseconds, so a millisecond is 10^6. *)
Definition MILLISECS (ms : Z) : Z := ms * 1000000.

(** [DEFAULT_TIMESLICE]: the default time slice of domain 0. *)
Definition DEFAULT_TIMESLICE : Z := MILLISECS 10.

(** The error numbers of the host's errno header. *)
Definition EINVAL : Z := 22.
Definition EFAULT : Z := 14.

(** ** Domain handles *)

(** Modelled from the spec: [xen_domain_handle_t] is declared in the
    public headers; a handle is an array of 16 bytes. *)
Definition xen_domain_handle_t := list Z.
Definition HANDLE_BYTES : nat := 16.

Definition zero_handle : xen_domain_handle_t := replicate HANDLE_BYTES 0.

Fixpoint memcmp (a b : list Z) (n : nat) : Z :=
  match n with
  | O => 0
  | S n' =>
      match a, b with
      | x :: a', y :: b' => if x =? y then memcmp a' b' n' else x - y
      | _, _ => 0
      end
  end.

Definition dom_handle_cmp (h1 h2 : xen_domain_handle_t) : Z :=
  memcmp h1 h2 HANDLE_BYTES.

Definition wf_handle (h : xen_domain_handle_t) : Prop :=
  length h = HANDLE_BYTES.

(** ** The host: what the scheduler reads through [struct vcpu] and
    [struct domain] pointers

    Pointers are identifiers; a nullable pointer is an [option].  The
    records they point to live in the host, so that two references to one
    VCPU or domain observe the same fields. *)

Definition vcpu_ptr := nat.
Definition domain_ptr := nat.
Definition avcpu_ptr := nat.

(** Per-domain scheduler data ([a653sched_domain_t]); [parent] is a
    16-bit [domid_t]. *)
Record a653sched_domain_t := mk_sdom {
  parent : Z;
  primary : bool;
  healthy : bool
}.

Record host := mk_host {
  (* struct vcpu *)
  vcpu_domain : vcpu_ptr -> domain_ptr;
  vcpu_vcpu_id : vcpu_ptr -> Z;
  vcpu_processor : vcpu_ptr -> Z;
  vcpu_sched_priv : vcpu_ptr -> option avcpu_ptr;
  vcpu_runnable : vcpu_ptr -> bool;
  is_idle_vcpu : vcpu_ptr -> bool;
  (* struct domain *)
  domain_domain_id : domain_ptr -> Z;
  domain_handle : domain_ptr -> xen_domain_handle_t;
  domain_sched_priv : domain_ptr -> option a653sched_domain_t;
  (* arinc653_vcpu_t *)
  avcpu_vc : avcpu_ptr -> vcpu_ptr;
  avcpu_awake : avcpu_ptr -> bool;
  (* per-CPU data *)
  idle_vcpu : Z -> vcpu_ptr;
  smp_processor_id : Z
}.

(** [AVCPU(vc)], [DOM_PRIV(d)] and [IDLETASK(cpu)]. *)
Definition AVCPU (H : host) (vc : vcpu_ptr) : option avcpu_ptr :=
  vcpu_sched_priv H vc.

Definition DOM_PRIV (H : host) (d : option domain_ptr)
  : option a653sched_domain_t :=
  match d with
  | Some d' => domain_sched_priv H d'
  | None => None
  end.

Definition IDLETASK (H : host) (cpu : Z) : vcpu_ptr := idle_vcpu H cpu.

(** ** Scheduler data *)

Record sched_providers_t := mk_provider {
  dom_handle : xen_domain_handle_t;
  vcpu_id : Z;
  vc : option vcpu_ptr
}.

Record sched_entry_t := mk_entry {
  service_id : Z;
  runtime : Z;
  num_providers : Z;
  providers : list sched_providers_t
}.

Record a653sched_priv_t := mk_priv {
  schedule : list sched_entry_t;
  num_schedule_entries : Z;
  major_frame : Z;
  next_major_frame : Z;
  vcpu_list : list avcpu_ptr
}.

(** The control payload of the global adjust operation
    ([struct xen_sysctl_arinc653_schedule]), declared in the public
    sysctl header. *)
Module Sysctl.
(** Modelled from the spec: a service provider of the control protocol,
    [{dom_handle[16 bytes], vcpu_id: i32}]. *)
Record provider := mk_provider {
  dom_handle : xen_domain_handle_t;
  vcpu_id : Z
}.
(** Modelled from the spec: a schedule entry of the control protocol,
    [service_id: i32], [runtime: i64] nanoseconds, [num_providers: u32]
    and the [service_providers] array. *)
Record entry := mk_entry {
  service_id : Z;
  runtime : Z;
  num_providers : Z;
  service_providers : list provider
}.
(** Modelled from the spec: the schedule record of the control protocol,
    [major_frame: i64] nanoseconds, [num_sched_entries: u32] and the
    [sched_entries] array. *)
Record schedule := mk_schedule {
  major_frame : Z;
  num_sched_entries : Z;
  sched_entries : list entry
}.
End Sysctl.

(** ** Loops over the leading slots of an array

    [for ( i = 0; i < n; i++ ) a[i] = f(a[i]);] and its two-array form
    [for ( i = 0; i < n; i++ ) dst[i] = f(dst[i], src[i]);].  Slots at or
    past [n] keep what they held. *)

Fixpoint for_first {A} (n : nat) (f : A -> A) (l : list A) : list A :=
  match n, l with
  | S n', x :: l' => f x :: for_first n' f l'
  | _, _ => l
  end.

Fixpoint for_first2 {A B} (n : nat) (f : A -> B -> A)
    (dst : list A) (src : list B) : list A :=
  match n, dst, src with
  | S n', d :: dst', s :: src' => f d s :: for_first2 n' f dst' src'
  | _, _, _ => dst
  end.

(** ** Helper functions of the scheduler *)

(** [find_vcpu]: the first record of the registry list whose VCPU has
    the given handle and VCPU number. *)
Fixpoint find_vcpu_in (H : host) (l : list avcpu_ptr)
    (handle : xen_domain_handle_t) (id : Z) : option vcpu_ptr :=
  match l with
  | [] => None
  | avcpu :: rest =>
      let v := avcpu_vc H avcpu in
      if (dom_handle_cmp (domain_handle H (vcpu_domain H v)) handle =? 0)
         && (id =? vcpu_vcpu_id H v)
      then Some v
      else find_vcpu_in H rest handle id
  end.

Definition find_vcpu (H : host) (prv : a653sched_priv_t)
    (handle : xen_domain_handle_t) (id : Z) : option vcpu_ptr :=
  find_vcpu_in H (vcpu_list prv) handle id.

Definition resolve_provider (H : host) (prv : a653sched_priv_t)
    (p : sched_providers_t) : sched_providers_t :=
  mk_provider (dom_handle p) (vcpu_id p)
              (find_vcpu H prv (dom_handle p) (vcpu_id p)).

Definition resolve_entry (H : host) (prv : a653sched_priv_t)
    (e : sched_entry_t) : sched_entry_t :=
  mk_entry (service_id e) (runtime e) (num_providers e)
           (for_first (Z.to_nat (num_providers e)) (resolve_provider H prv)
                      (providers e)).

Definition update_schedule_vcpus (H : host) (prv : a653sched_priv_t)
  : a653sched_priv_t :=
  mk_priv (for_first (Z.to_nat (num_schedule_entries prv))
                     (resolve_entry H prv) (schedule prv))
          (num_schedule_entries prv) (major_frame prv)
          (next_major_frame prv) (vcpu_list prv).

(** ** Results of operations that can stop the hypervisor

    [BUG_ON] and [ASSERT] halt the machine; following a null pointer or
    reading past the end of the [schedule] array has no defined result. *)

Inductive fault :=
| BUG_ON_null_task            (* BUG_ON(new_task == NULL) *)
| BUG_ON_missed_major_frame   (* BUG_ON(now >= sched_priv->next_major_frame) *)
| BUG_ON_nonpositive_time     (* BUG_ON(ret.time <= 0) *)
| ASSERT_idle_vcpu            (* ASSERT(!is_idle_vcpu(vc)) *)
| null_dereference
| out_of_bounds (index : nat).

Inductive outcome (A : Type) :=
| Done (a : A)
| Fault (f : fault).
Arguments Done {A} a.
Arguments Fault {A} f.

Section Scheduler.

(** The two array bounds are constants of the public sysctl header. *)
Variable ARINC653_MAX_SERVICES_PER_SCHEDULE : Z.
Variable ARINC653_MAX_DOMAINS_PER_SERVICE : Z.

(** *** [a653sched_init]: [xzalloc] gives an all-zero instance. *)

Definition zero_provider : sched_providers_t :=
  mk_provider zero_handle 0 None.

Definition zero_entry : sched_entry_t :=
  mk_entry 0 0 0
    (replicate (Z.to_nat ARINC653_MAX_DOMAINS_PER_SERVICE) zero_provider).

Definition a653sched_init : a653sched_priv_t :=
  mk_priv (replicate (Z.to_nat ARINC653_MAX_SERVICES_PER_SCHEDULE) zero_entry)
          0 0 0 [].

(** *** [a653sched_alloc_domdata] *)
Definition a653sched_alloc_domdata (dom_id : Z) : a653sched_domain_t :=
  mk_sdom dom_id true true.

(** *** [arinc653_sched_set] *)

Definition bad_num_providers (e : Sysctl.entry) : bool :=
  (Sysctl.num_providers e <? 1)
  || (Sysctl.num_providers e >? ARINC653_MAX_DOMAINS_PER_SERVICE).

(** The run-time loop: [None] is [goto fail], otherwise the accumulated
    [total_runtime]. *)
Fixpoint total_runtime_loop (es : list Sysctl.entry) (total_runtime : Z)
  : option Z :=
  match es with
  | [] => Some total_runtime
  | e :: es' =>
      if Sysctl.runtime e <=? 0 then None
      else total_runtime_loop es' (wrap_s64 (total_runtime + Sysctl.runtime e))
  end.

Definition copy_provider (d : sched_providers_t) (s : Sysctl.provider)
  : sched_providers_t :=
  mk_provider (Sysctl.dom_handle s) (Sysctl.vcpu_id s) (vc d).

Definition copy_entry (d : sched_entry_t) (s : Sysctl.entry) : sched_entry_t :=
  mk_entry (Sysctl.service_id s) (Sysctl.runtime s) (Sysctl.num_providers s)
    (for_first2 (Z.to_nat (Sysctl.num_providers s)) copy_provider
                (providers d) (Sysctl.service_providers s)).

(** [NOW] is the value of the clock read by [NOW()]. *)
Definition arinc653_sched_set (H : host) (prv : a653sched_priv_t)
    (sched : Sysctl.schedule) (NOW : Z) : Z * a653sched_priv_t :=
  let n := Z.to_nat (Sysctl.num_sched_entries sched) in
  if (Sysctl.major_frame sched <=? 0)
     || (Sysctl.num_sched_entries sched <? 1)
     || (Sysctl.num_sched_entries sched >? ARINC653_MAX_SERVICES_PER_SCHEDULE)
  then (- EINVAL, prv)
  else if existsb bad_num_providers (take n (Sysctl.sched_entries sched))
  then (- EINVAL, prv)
  else
    match total_runtime_loop (take n (Sysctl.sched_entries sched)) 0 with
    | None => (- EINVAL, prv)
    | Some total_runtime =>
        if total_runtime >? Sysctl.major_frame sched then (- EINVAL, prv)
        else
          let copied :=
            mk_priv (for_first2 n copy_entry (schedule prv)
                                (Sysctl.sched_entries sched))
                    (Sysctl.num_sched_entries sched)
                    (Sysctl.major_frame sched)
                    (next_major_frame prv) (vcpu_list prv) in
          let resolved := update_schedule_vcpus H copied in
          (0, mk_priv (schedule resolved) (num_schedule_entries resolved)
                      (major_frame resolved) NOW (vcpu_list resolved))
    end.

(** *** [arinc653_sched_get]

    [buf] is the caller's structure as it stands before the call; the
    function writes the fields it assigns and leaves the others. *)

Definition read_provider (d : Sysctl.provider) (s : sched_providers_t)
  : Sysctl.provider :=
  Sysctl.mk_provider (dom_handle s) (vcpu_id s).

Definition read_entry (d : Sysctl.entry) (s : sched_entry_t) : Sysctl.entry :=
  Sysctl.mk_entry (Sysctl.service_id d) (runtime s) (Sysctl.num_providers d)
    (for_first2 (Z.to_nat (num_providers s)) read_provider
                (Sysctl.service_providers d) (providers s)).

Definition arinc653_sched_get (prv : a653sched_priv_t) (buf : Sysctl.schedule)
  : Z * Sysctl.schedule :=
  (0, Sysctl.mk_schedule (major_frame prv) (num_schedule_entries prv)
        (for_first2 (Z.to_nat (num_schedule_entries prv)) read_entry
                    (Sysctl.sched_entries buf) (schedule prv))).

(** *** [a653sched_insert_vcpu] *)

Definition dom0_entry (H : host) (v : vcpu_ptr) (e : sched_entry_t)
  : sched_entry_t :=
  mk_entry (service_id e) DEFAULT_TIMESLICE 1
    (alter (fun p => mk_provider (<[0%nat := 0]> (dom_handle p))
                                 (vcpu_vcpu_id H v) (Some v))
           0%nat (providers e)).

Definition a653sched_insert_vcpu (H : host) (prv : a653sched_priv_t)
    (v : vcpu_ptr) : outcome a653sched_priv_t :=
  if is_idle_vcpu H v then Fault ASSERT_idle_vcpu
  else
    let prv1 :=
      if domain_domain_id H (vcpu_domain H v) =? 0 then
        let entry := num_schedule_entries prv in
        if entry <? ARINC653_MAX_SERVICES_PER_SCHEDULE then
          mk_priv (alter (dom0_entry H v) (Z.to_nat entry) (schedule prv))
                  (num_schedule_entries prv + 1)
                  (wrap_s64 (major_frame prv + DEFAULT_TIMESLICE))
                  (next_major_frame prv) (vcpu_list prv)
        else prv
      else prv in
    match vcpu_sched_priv H v with
    | None => Fault null_dereference
    | Some svc =>
        Done (update_schedule_vcpus H
                (mk_priv (schedule prv1) (num_schedule_entries prv1)
                         (major_frame prv1) (next_major_frame prv1)
                         (svc :: vcpu_list prv1)))
    end.

(** *** [a653sched_remove_vcpu] *)
Definition a653sched_remove_vcpu (H : host) (prv : a653sched_priv_t)
    (v : vcpu_ptr) : outcome a653sched_priv_t :=
  if is_idle_vcpu H v then Fault ASSERT_idle_vcpu
  else
    match vcpu_sched_priv H v with
    | None => Fault null_dereference
    | Some svc =>
        Done (update_schedule_vcpus H
                (mk_priv (schedule prv) (num_schedule_entries prv)
                         (major_frame prv) (next_major_frame prv)
                         (filter (fun a => a <> svc) (vcpu_list prv))))
    end.

(** *** [providers_candidate]

    The loop visits [start[0]] ... [start[num_providers - 1]] in order and
    stops at the first provider that passes the three tests. *)

Fixpoint providers_scan (H : host) (ps : list sched_providers_t)
  : option sched_providers_t :=
  match ps with
  | [] => None
  | p :: rest =>
      match vc p with
      | None => providers_scan H rest
      | Some v =>
          match DOM_PRIV H (Some (vcpu_domain H v)) with
          | None => providers_scan H rest
          | Some dom =>
              if negb (healthy dom) then providers_scan H rest
              else Some p
          end
      end
  end.

Definition providers_candidate (H : host) (e : sched_entry_t)
  : option sched_providers_t :=
  providers_scan H (take (Z.to_nat (num_providers e)) (providers e)).

(** *** [a653sched_do_schedule]

    The three [static] locals of the function persist from one call to
    the next.  [entry] is a pointer into the [schedule] array, kept as
    the index it points at; it starts out null. *)

Record dispatch_statics := mk_statics {
  sched_index : Z;
  next_switch_time : Z;
  entry : option nat
}.

Definition statics_init : dispatch_statics := mk_statics 0 0 None.

Record task_slice := mk_task_slice {
  task : option vcpu_ptr;
  time : Z;
  migrated : bool
}.

Definition set_next_major_frame (prv : a653sched_priv_t) (t : Z)
  : a653sched_priv_t :=
  mk_priv (schedule prv) (num_schedule_entries prv) (major_frame prv) t
          (vcpu_list prv).

(** The [while] loop of the minor-frame branch.  Each turn raises
    [sched_index] by one, so [num_schedule_entries - sched_index] turns
    are all it can take; [fuel] is started at that number. *)
Fixpoint advance_loop (fuel : nat) (prv : a653sched_priv_t) (now : Z)
    (st : dispatch_statics) : outcome dispatch_statics :=
  if (now >=? next_switch_time st)
     && (sched_index st <? num_schedule_entries prv)
  then
    match fuel with
    | O => Done st
    | S fuel' =>
        let idx := sched_index st + 1 in
        match schedule prv !! Z.to_nat idx with
        | None => Fault (out_of_bounds (Z.to_nat idx))
        | Some e =>
            advance_loop fuel' prv now
              (mk_statics idx (wrap_s64 (next_switch_time st + runtime e))
                          (Some (Z.to_nat idx)))
        end
    end
  else Done st.

(** Lines 672-704: the three-way branch that moves the frame state and
    picks [current_provider]. *)
Definition do_schedule_select (H : host) (prv : a653sched_priv_t)
    (st : dispatch_statics) (now : Z)
  : outcome (a653sched_priv_t * dispatch_statics * option sched_providers_t) :=
  if num_schedule_entries prv <? 1 then
    Done (set_next_major_frame prv (wrap_s64 (now + DEFAULT_TIMESLICE)),
          st, None)
  else if now >=? next_major_frame prv then
    match schedule prv !! 0%nat with
    | None => Fault (out_of_bounds 0)
    | Some e =>
        let start_time := next_major_frame prv in
        Done (set_next_major_frame prv
                (wrap_s64 (start_time + major_frame prv)),
              mk_statics 0 (wrap_s64 (start_time + runtime e)) (Some 0%nat),
              providers_candidate H e)
    end
  else
    match advance_loop
            (Z.to_nat (num_schedule_entries prv - sched_index st))
            prv now st with
    | Fault f => Fault f
    | Done st' =>
        match entry st' with
        | None => Fault null_dereference
        | Some i =>
            match schedule prv !! i with
            | None => Fault (out_of_bounds i)
            | Some e => Done (prv, st', providers_candidate H e)
            end
        end
    end.

Definition can_run (H : host) (new_task : option vcpu_ptr) : bool :=
  match new_task with
  | None => false
  | Some v =>
      match AVCPU H v with
      | None => false
      | Some a => avcpu_awake H a && vcpu_runnable H v
      end
  end.

(** Lines 706-755: idle slack, the runnability filter, the two checks
    under the lock, the tasklet and affinity overrides and the slice. *)
Definition do_schedule_finish (H : host) (prv : a653sched_priv_t)
    (st : dispatch_statics) (current_provider : option sched_providers_t)
    (now : Z) (tasklet_work_scheduled : bool)
  : outcome (task_slice * a653sched_priv_t * dispatch_statics) :=
  let cpu := smp_processor_id H in
  let new_task :=
    match current_provider with
    | Some p => vc p
    | None => None
    end in
  let slack := sched_index st >=? num_schedule_entries prv in
  let st1 :=
    if slack
    then mk_statics (sched_index st) (next_major_frame prv) (entry st)
    else st in
  let new_task := if slack then Some (IDLETASK H cpu) else new_task in
  let new_task :=
    if can_run H new_task then new_task else Some (IDLETASK H cpu) in
  match new_task with
  | None => Fault BUG_ON_null_task
  | Some t =>
      if now >=? next_major_frame prv then Fault BUG_ON_missed_major_frame
      else
        let t := if tasklet_work_scheduled then IDLETASK H cpu else t in
        let t :=
          if negb (is_idle_vcpu H t) && negb (vcpu_processor H t =? cpu)
          then IDLETASK H cpu else t in
        let ret_time := wrap_s64 (next_switch_time st1 - now) in
        if ret_time <=? 0 then Fault BUG_ON_nonpositive_time
        else Done (mk_task_slice (Some t) ret_time false, prv, st1)
  end.

Definition a653sched_do_schedule (H : host) (prv : a653sched_priv_t)
    (st : dispatch_statics) (now : Z) (tasklet_work_scheduled : bool)
  : outcome (task_slice * a653sched_priv_t * dispatch_statics) :=
  match do_schedule_select H prv st now with
  | Fault f => Fault f
  | Done (prv', st', current_provider) =>
      do_schedule_finish H prv' st' current_provider now
                         tasklet_work_scheduled
  end.

End Scheduler.

(** ** The adjust hooks *)

(** Modelled from the spec: the sub-command of a scheduler operation,
    PUTINFO or GETINFO; the two constants are defined in the public
    headers, and every other value of the [cmd] word is [SCHEDOP_other]. *)
Inductive schedop :=
| SCHEDOP_putinfo
| SCHEDOP_getinfo
| SCHEDOP_other (cmd : Z).

(** The per-domain payload, declared in the public domctl header. *)
Module Domctl.
(** Modelled from the spec: [struct xen_domctl_sched_arinc653], with
    fields [parent] (i32) and [healthy] (bool). *)
Record sched_arinc653 := mk_arinc653 {
  parent : Z;
  healthy : bool
}.
(** Modelled from the spec: the part of [struct xen_domctl_scheduler_op]
    that the hook reads, the command and the ARINC 653 payload. *)
Record scheduler_op := mk_op {
  cmd : schedop;
  arinc653 : sched_arinc653
}.
End Domctl.

Definition set_domain_sched_priv (H : host) (d : domain_ptr)
    (sdom : a653sched_domain_t) : host :=
  mk_host (vcpu_domain H) (vcpu_vcpu_id H) (vcpu_processor H)
          (vcpu_sched_priv H) (vcpu_runnable H) (is_idle_vcpu H)
          (domain_domain_id H) (domain_handle H)
          (fun d' => if Nat.eqb d' d then Some sdom
                     else domain_sched_priv H d')
          (avcpu_vc H) (avcpu_awake H) (idle_vcpu H) (smp_processor_id H).

(** [a653sched_adjust_domain]: the return code, the host after the
    update of the domain record, and the operation structure handed
    back. *)
Definition a653sched_adjust_domain (H : host) (d : domain_ptr)
    (op : Domctl.scheduler_op)
  : outcome (Z * host * Domctl.scheduler_op) :=
  match Domctl.cmd op with
  | SCHEDOP_putinfo =>
      match DOM_PRIV H (Some d) with
      | None => Fault null_dereference
      | Some sdom =>
          let req := Domctl.arinc653 op in
          let sdom1 :=
            if negb (Domctl.parent req =? -1) then
              let p := wrap_u16 (Domctl.parent req) in
              mk_sdom p (p =? domain_domain_id H d) (healthy sdom)
            else sdom in
          let sdom2 :=
            mk_sdom (parent sdom1) (primary sdom1) (Domctl.healthy req) in
          Done (0, set_domain_sched_priv H d sdom2, op)
      end
  | SCHEDOP_getinfo =>
      match DOM_PRIV H (Some d) with
      | None => Fault null_dereference
      | Some sdom =>
          Done (0, H,
                Domctl.mk_op (Domctl.cmd op)
                  (Domctl.mk_arinc653 (parent sdom) (healthy sdom)))
      end
  | SCHEDOP_other _ => Done (0, H, op)
  end.

Section GlobalAdjust.

Variable ARINC653_MAX_SERVICES_PER_SCHEDULE : Z.
Variable ARINC653_MAX_DOMAINS_PER_SERVICE : Z.

(** [memset(&local_sched, -1, sizeof(local_sched))]: every byte 0xff. *)
Definition all_ones_schedule : Sysctl.schedule :=
  Sysctl.mk_schedule (-1) UINT32_MAX
    (replicate (Z.to_nat ARINC653_MAX_SERVICES_PER_SCHEDULE)
       (Sysctl.mk_entry (-1) (-1) UINT32_MAX
          (replicate (Z.to_nat ARINC653_MAX_DOMAINS_PER_SERVICE)
             (Sysctl.mk_provider (replicate HANDLE_BYTES 255) (-1))))).

(** [a653sched_adjust_global].  [from_guest] is what [copy_from_guest]
    delivers ([None] when it faults) and [to_guest_ok] tells whether
    [copy_to_guest] succeeds; the third component of the result is the
    structure written to the caller, if any. *)
Definition a653sched_adjust_global (H : host) (prv : a653sched_priv_t)
    (cmd : schedop) (from_guest : option Sysctl.schedule)
    (to_guest_ok : bool) (NOW : Z)
  : Z * a653sched_priv_t * option Sysctl.schedule :=
  match cmd with
  | SCHEDOP_putinfo =>
      match from_guest with
      | None => (- EFAULT, prv, None)
      | Some local_sched =>
          let '(rc, prv') :=
            arinc653_sched_set ARINC653_MAX_SERVICES_PER_SCHEDULE
              ARINC653_MAX_DOMAINS_PER_SERVICE H prv local_sched NOW in
          (rc, prv', None)
      end
  | SCHEDOP_getinfo =>
      let '(rc, local_sched) := arinc653_sched_get prv all_ones_schedule in
      if negb (rc =? 0) then (rc, prv, None)
      else if to_guest_ok then (rc, prv, Some local_sched)
      else (- EFAULT, prv, None)
  | SCHEDOP_other _ => (- EINVAL, prv, None)
  end.

End GlobalAdjust.

(** ** Words of the specification, for comparison with the code *)

(** The three conditions of the provider selector, as the specification
    lists them: the resolved VCPU reference is non-null, the VCPU's domain
    has an attached domain record, and that record's [healthy] flag is
    true. *)
Definition provider_qualifies (H : host) (p : sched_providers_t) : bool :=
  match vc p with
  | None => false
  | Some v =>
      match domain_sched_priv H (vcpu_domain H v) with
      | None => false
      | Some dom => healthy dom
      end
  end.

(** Well-formed arrays: the [schedule] array has its declared number of
    slots and every slot its declared number of provider slots. *)
Definition wf_priv (max_services max_domains : Z) (prv : a653sched_priv_t)
  : bool :=
  Nat.eqb (length (schedule prv)) (Z.to_nat max_services)
  && forallb (fun e => Nat.eqb (length (providers e)) (Z.to_nat max_domains))
             (schedule prv).

Definition wf_sysctl (max_services max_domains : Z) (s : Sysctl.schedule)
  : bool :=
  Nat.eqb (length (Sysctl.sched_entries s)) (Z.to_nat max_services)
  && forallb (fun e => Nat.eqb (length (Sysctl.service_providers e))
                               (Z.to_nat max_domains))
             (Sysctl.sched_entries s).

(** The time at which the last valid entry of the timetable ends, seen
    from the dispatcher's saved state: the pending switch time plus the
    runtimes of the entries that follow the current one. *)
Fixpoint sum_runtimes (es : list sched_entry_t) : Z :=
  match es with
  | [] => 0
  | e :: rest => runtime e + sum_runtimes rest
  end.

Definition last_switch_time (prv : a653sched_priv_t) (st : dispatch_statics)
  : Z :=
  next_switch_time st
  + sum_runtimes
      (take (Z.to_nat (num_schedule_entries prv - 1 - sched_index st))
            (drop (Z.to_nat (sched_index st + 1)) (schedule prv))).

(** Invariant I2 on the stored timetable: every valid entry has a
    positive runtime. *)
Definition positive_runtimes (prv : a653sched_priv_t) : bool :=
  forallb (fun e => 0 <? runtime e)
          (take (Z.to_nat (num_schedule_entries prv)) (schedule prv)).

(** The validation rules of the timetable install, as the specification
    lists them: [major_frame > 0]; [1 <= num_entries <= MAX_ENTRIES]; for
    each entry [runtime > 0] and [1 <= num_providers <= MAX_PROVIDERS];
    and the sum of the runtimes, as a number, at most [major_frame]. *)
Fixpoint sysctl_sum_runtimes (es : list Sysctl.entry) : Z :=
  match es with
  | [] => 0
  | e :: rest => Sysctl.runtime e + sysctl_sum_runtimes rest
  end.

Definition valid_entry (max_domains : Z) (e : Sysctl.entry) : bool :=
  (0 <? Sysctl.runtime e)
  && (1 <=? Sysctl.num_providers e)
  && (Sysctl.num_providers e <=? max_domains).

Definition valid_schedule (max_services max_domains : Z)
    (s : Sysctl.schedule) : bool :=
  let es := take (Z.to_nat (Sysctl.num_sched_entries s))
                 (Sysctl.sched_entries s) in
  (0 <? Sysctl.major_frame s)
  && (1 <=? Sysctl.num_sched_entries s)
  && (Sysctl.num_sched_entries s <=? max_services)
  && forallb (valid_entry max_domains) es
  && (sysctl_sum_runtimes es <=? Sysctl.major_frame s).

(** ** A small system used to run the model

    One physical CPU.  VCPU 0 is its idle VCPU; VCPU 1 and VCPU 2 are
    VCPU number 0 of the guest domains D1 and D2; VCPU 3 and VCPU 4 are
    VCPU numbers 0 and 1 of domain 0.  Domain pointers 0, 1, 2 and 3 are
    domain 0, D1, D2 and the idle domain.  The arrays are given 64 entry
    slots and 4 provider slots. *)

Definition demo_max_services : Z := 64.
Definition demo_max_domains : Z := 4.

Definition handle_D1 : xen_domain_handle_t := replicate HANDLE_BYTES 17.
Definition handle_D2 : xen_domain_handle_t := replicate HANDLE_BYTES 34.

Definition demo_host : host :=
  mk_host
    (fun v => match v with
              | 0 => 3 | 1 => 1 | 2 => 2 | _ => 0
              end)%nat
    (fun v => match v with 4%nat => 1 | _ => 0 end)
    (fun _ => 0)
    (fun v => Some v)
    (fun _ => true)
    (fun v => Nat.eqb v 0)
    (fun d => match d with
              | 0%nat => 0 | 1%nat => 1 | 2%nat => 2 | _ => 32767
              end)
    (fun d => match d with
              | 1%nat => handle_D1 | 2%nat => handle_D2 | _ => zero_handle
              end)
    (fun d => match d with
              | 0%nat => Some (a653sched_alloc_domdata 0)
              | 1%nat => Some (a653sched_alloc_domdata 1)
              | 2%nat => Some (a653sched_alloc_domdata 2)
              | _ => None
              end)
    (fun a => a)
    (fun a => negb (Nat.eqb a 0))
    (fun _ => 0%nat)
    0.

Definition unused_sysctl_provider : Sysctl.provider :=
  Sysctl.mk_provider zero_handle 0.

Definition unused_sysctl_entry : Sysctl.entry :=
  Sysctl.mk_entry 0 0 0
    (replicate (Z.to_nat demo_max_domains) unused_sysctl_provider).

Definition one_provider_entry (sid rt : Z) (h : xen_domain_handle_t)
  : Sysctl.entry :=
  Sysctl.mk_entry sid rt 1
    (Sysctl.mk_provider h 0 :: replicate 3 unused_sysctl_provider).

(** Scenario 1 of the specification: a 30 ms major frame with 10 ms for
    D1 and 10 ms for D2 (service ids 7 and 8). *)
Definition schedule_S1 : Sysctl.schedule :=
  Sysctl.mk_schedule (MILLISECS 30) 2
    (one_provider_entry 7 (MILLISECS 10) handle_D1
     :: one_provider_entry 8 (MILLISECS 10) handle_D2
     :: replicate 62 unused_sysctl_entry).

(** A single 10 ms entry for D1 in a 10 ms major frame. *)
Definition schedule_D1_only : Sysctl.schedule :=
  Sysctl.mk_schedule (MILLISECS 10) 1
    (one_provider_entry 7 (MILLISECS 10) handle_D1
     :: replicate 63 unused_sysctl_entry).

(** Four entries of 2^62 ns each in a major frame of 1 ns. *)
Definition schedule_huge_runtimes : Sysctl.schedule :=
  Sysctl.mk_schedule 1 4
    (replicate 4 (one_provider_entry 7 (2 ^ 62) handle_D1)
     ++ replicate 60 unused_sysctl_entry).

Definition demo_init : a653sched_priv_t :=
  a653sched_init demo_max_services demo_max_domains.

Definition demo_set (prv : a653sched_priv_t) (s : Sysctl.schedule) (t : Z)
  : Z * a653sched_priv_t :=
  arinc653_sched_set demo_max_services demo_max_domains demo_host prv s t.

(** The guests' VCPUs registered, then S1 installed at time 0. *)
Definition demo_with_guests : a653sched_priv_t :=
  match a653sched_insert_vcpu demo_max_services demo_host demo_init 1%nat with
  | Done p1 =>
      match a653sched_insert_vcpu demo_max_services demo_host p1 2%nat with
      | Done p2 => p2
      | Fault _ => p1
      end
  | Fault _ => demo_init
  end.

Definition demo_S1_installed : a653sched_priv_t :=
  snd (demo_set demo_with_guests schedule_S1 0).

(** S1 installed at time 0, replaced at 40 ms by the one-entry schedule:
    slot 1 of the array still holds the old entry for D2. *)
Definition demo_D1_only_installed : a653sched_priv_t :=
  snd (demo_set demo_S1_installed schedule_D1_only (MILLISECS 40)).

Definition demo_insert (prv : a653sched_priv_t) (v : vcpu_ptr)
  : outcome a653sched_priv_t :=
  a653sched_insert_vcpu demo_max_services demo_host prv v.

(** S1 in the middle of its first major frame: the frame ends at 30 ms
    and the dispatcher is in entry 1, which ends at 20 ms. *)
Definition demo_in_frame : a653sched_priv_t :=
  set_next_major_frame demo_S1_installed (MILLISECS 30).

Definition demo_in_entry_1 : dispatch_statics :=
  mk_statics 1 (MILLISECS 20) (Some 1%nat).

(** The same two entries in an array of exactly two slots. *)
Definition schedule_S1_full : Sysctl.schedule :=
  Sysctl.mk_schedule (MILLISECS 30) 2
    [one_provider_entry 7 (MILLISECS 10) handle_D1;
     one_provider_entry 8 (MILLISECS 10) handle_D2].

Definition demo_full_in_frame : a653sched_priv_t :=
  set_next_major_frame
    (snd (arinc653_sched_set 2 demo_max_domains demo_host
            (a653sched_init 2 demo_max_domains) schedule_S1_full 0))
    (MILLISECS 30).

(** The tasks returned by successive dispatcher calls at the given times
    (in milliseconds), each call starting from the state the previous one
    left; the trace ends at the first call that does not return. *)
Fixpoint dispatch_trace (H : host) (prv : a653sched_priv_t)
    (st : dispatch_statics) (times_ms : list Z)
  : list (outcome (option vcpu_ptr * Z)) :=
  match times_ms with
  | [] => []
  | t :: rest =>
      match a653sched_do_schedule H prv st (MILLISECS t) false with
      | Done (r, prv', st') =>
          Done (task r, time r) :: dispatch_trace H prv' st' rest
      | Fault f => [Fault f]
      end
  end.

(** The small system after D2 has been marked unhealthy. *)
Definition demo_host_D2_unhealthy : host :=
  set_domain_sched_priv demo_host 2%nat (mk_sdom 2 true false).

(** ** Words for the properties of the registry and of the timetable *)

(** The test [find_vcpu] makes on a registry record: the handle of the
    record's VCPU's domain compares equal to [handle] and the VCPU number
    is [id]. *)
Definition registry_match (H : host) (a : avcpu_ptr)
    (handle : xen_domain_handle_t) (id : Z) : bool :=
  (dom_handle_cmp (domain_handle H (vcpu_domain H (avcpu_vc H a))) handle =? 0)
  && (id =? vcpu_vcpu_id H (avcpu_vc H a)).

(** Every reference held in a valid provider slot is up to date: a
    non-null reference is the VCPU of a registry record that matches the
    slot's handle and VCPU number, and a null reference means that no
    registry record matches. *)
Definition references_live (H : host) (prv : a653sched_priv_t) : Prop :=
  forall (i j : nat) e p,
    (i < Z.to_nat (num_schedule_entries prv))%nat ->
    schedule prv !! i = Some e ->
    (j < Z.to_nat (num_providers e))%nat ->
    providers e !! j = Some p ->
    match vc p with
    | Some v =>
        exists (k : nat) a,
          vcpu_list prv !! k = Some a /\ avcpu_vc H a = v /\
          registry_match H a (dom_handle p) (vcpu_id p) = true
    | None =>
        forall (k : nat) a,
          vcpu_list prv !! k = Some a ->
          registry_match H a (dom_handle p) (vcpu_id p) = false
    end.




(** S1 installed on the small system before any guest VCPU has been
    registered, and the same instance after D1's VCPU has joined. *)
Definition demo_S1_no_guests : a653sched_priv_t :=
  snd (demo_set demo_init schedule_S1 0).

Definition demo_S1_D1_joined : a653sched_priv_t :=
  match demo_insert demo_S1_no_guests 1%nat with
  | Done p => p
  | Fault _ => demo_S1_no_guests
  end.

Definition demo_joined_entry_0 : sched_entry_t :=
  default (mk_entry 0 0 0 []) (schedule demo_S1_D1_joined !! 0%nat).

Definition demo_joined_provider_0 : sched_providers_t :=
  default (mk_provider [] 0 None) (providers demo_joined_entry_0 !! 0%nat).

(** ** The instances the operations can produce *)

(** Invariant I2 on a stored entry: positive runtime and a provider
    count between 1 and the number of provider slots. *)
Definition stored_entry_ok (max_domains : Z) (e : sched_entry_t) : bool :=
  (0 <? runtime e)
  && (1 <=? num_providers e)
  && (num_providers e <=? max_domains).

(** The arrays have their declared sizes, the entry count is within the
    array, and every valid entry satisfies I2. *)
Definition timetable_inv (max_services max_domains : Z)
    (prv : a653sched_priv_t) : bool :=
  wf_priv max_services max_domains prv
  && (0 <=? num_schedule_entries prv)
  && (num_schedule_entries prv <=? max_services)
  && forallb (stored_entry_ok max_domains)
             (take (Z.to_nat (num_schedule_entries prv)) (schedule prv)).

(** The instances reached from [a653sched_init] by schedule installs
    (of well-formed control structures, accepted or not), VCPU insertions
    and removals and dispatcher calls, with any host state, clock value
    and saved dispatcher state at each step. *)
Inductive reachable (max_services max_domains : Z)
  : a653sched_priv_t -> Prop :=
| reach_init :
    reachable max_services max_domains
              (a653sched_init max_services max_domains)
| reach_set (H : host) prv s t :
    reachable max_services max_domains prv ->
    wf_sysctl max_services max_domains s = true ->
    reachable max_services max_domains
              (snd (arinc653_sched_set max_services max_domains H prv s t))
| reach_insert (H : host) prv v prv' :
    reachable max_services max_domains prv ->
    a653sched_insert_vcpu max_services H prv v = Done prv' ->
    reachable max_services max_domains prv'
| reach_remove (H : host) prv v prv' :
    reachable max_services max_domains prv ->
    a653sched_remove_vcpu H prv v = Done prv' ->
    reachable max_services max_domains prv'
| reach_do_schedule (H : host) prv st now tasklet r prv' st' :
    reachable max_services max_domains prv ->
    a653sched_do_schedule H prv st now tasklet = Done (r, prv', st') ->
    reachable max_services max_domains prv'.

(** The end of the window of the entry [k] places after the current one,
    seen from the dispatcher's saved state: the pending switch time plus
    the runtimes of the [k] entries that follow the current entry. *)
Definition window_end (prv : a653sched_priv_t) (st : dispatch_statics)
    (k : nat) : Z :=
  next_switch_time st
  + sum_runtimes
      (take k (drop (Z.to_nat (sched_index st + 1)) (schedule prv))).

(** ** Domain records: creation and destruction *)

Definition ENOMEM : Z := 12.

Definition clear_domain_sched_priv (H : host) (d : domain_ptr) : host :=
  mk_host (vcpu_domain H) (vcpu_vcpu_id H) (vcpu_processor H)
          (vcpu_sched_priv H) (vcpu_runnable H) (is_idle_vcpu H)
          (domain_domain_id H) (domain_handle H)
          (fun d' => if Nat.eqb d' d then None else domain_sched_priv H d')
          (avcpu_vc H) (avcpu_awake H) (idle_vcpu H) (smp_processor_id H).

(** [a653sched_init_domain]: [alloc_ok] tells whether [xzalloc] in
    [a653sched_alloc_domdata] delivers memory.  The result is the return
    code and the host with the record attached to the domain. *)
Definition a653sched_init_domain (H : host) (d : domain_ptr)
    (alloc_ok : bool) : Z * host :=
  if alloc_ok
  then (0, set_domain_sched_priv H d
             (a653sched_alloc_domdata (domain_domain_id H d)))
  else (- ENOMEM, H).

(** [a653sched_destroy_domain]: the record is freed and the domain's
    pointer to it set to null. *)
Definition a653sched_destroy_domain (H : host) (d : domain_ptr) : host :=
  clear_domain_sched_priv H d.

(** A provider whose resolved VCPU belongs to domain [d]. *)
Definition provider_in_domain (H : host) (d : domain_ptr)
    (p : sched_providers_t) : bool :=
  match vc p with
  | Some v => Nat.eqb (vcpu_domain H v) d
  | None => false
  end.

(** The valid providers of an entry that do not belong to domain [d],
    in declared order. *)
Definition providers_outside (H : host) (d : domain_ptr) (e : sched_entry_t)
  : list sched_providers_t :=
  List.filter (fun p => negb (provider_in_domain H d p))
              (take (Z.to_nat (num_providers e)) (providers e)).

(** ** Sleep, wake and the choice of a CPU *)

Definition set_avcpu_awake (H : host) (a : avcpu_ptr) (b : bool) : host :=
  mk_host (vcpu_domain H) (vcpu_vcpu_id H) (vcpu_processor H)
          (vcpu_sched_priv H) (vcpu_runnable H) (is_idle_vcpu H)
          (domain_domain_id H) (domain_handle H) (domain_sched_priv H)
          (avcpu_vc H)
          (fun a' => if Nat.eqb a' a then b else avcpu_awake H a')
          (idle_vcpu H) (smp_processor_id H).

(** [a653sched_vcpu_sleep].  [curr] gives, for each CPU, the VCPU the
    host records as running there ([per_cpu(schedule_data, cpu).curr]).
    The result is the host after the call and the CPU on which
    [SCHEDULE_SOFTIRQ] is raised, if any. *)
Definition a653sched_vcpu_sleep (H : host) (curr : Z -> option vcpu_ptr)
    (v : vcpu_ptr) : host * option Z :=
  let H1 :=
    match AVCPU H v with
    | Some a => set_avcpu_awake H a false
    | None => H
    end in
  (H1,
   match curr (vcpu_processor H v) with
   | Some c => if Nat.eqb c v then Some (vcpu_processor H v) else None
   | None => None
   end).

(** [a653sched_vcpu_wake]: the soft interrupt is raised in every case. *)
Definition a653sched_vcpu_wake (H : host) (v : vcpu_ptr) : host * option Z :=
  let H1 :=
    match AVCPU H v with
    | Some a => set_avcpu_awake H a true
    | None => H
    end in
  (H1, Some (vcpu_processor H v)).

Section PickCpu.

(** The CPU masks of the host and the two operations on them that
    [a653sched_pick_cpu] uses; [online] stands for
    [cpupool_domain_cpumask(vc->domain)]. *)
Variable cpumask : Type.
Variable cpumask_first : cpumask -> Z.
Variable cpumask_test_cpu : Z -> cpumask -> bool.
Variable nr_cpu_ids : Z.

Definition a653sched_pick_cpu (H : host) (online : cpumask) (v : vcpu_ptr)
  : Z :=
  let cpu := cpumask_first online in
  if cpumask_test_cpu (vcpu_processor H v) online || (cpu >=? nr_cpu_ids)
  then vcpu_processor H v
  else cpu.

End PickCpu.

(** The two entries of S1 in a major frame of 15 ms, too short for
    them. *)
Definition schedule_S1_short_frame : Sysctl.schedule :=
  Sysctl.mk_schedule (MILLISECS 15) 2 (Sysctl.sched_entries schedule_S1).

(** * Properties *)

(** Closed facts about the small system are settled by evaluation. *)
Ltac by_evaluation :=
  first [ reflexivity
        | vm_compute; first [ reflexivity | discriminate
                            | intro; discriminate ] ].

(** ** Arithmetic and array-loop facts *)

Lemma wrap_s64_id (z : Z) : in_s64 z -> wrap_s64 z = z.
Proof.
  unfold in_s64, INT64_MIN, INT64_MAX, wrap_s64. intros Hz.
  rewrite Z.mod_small; lia.
Qed.

Lemma wrap_s64_range (z : Z) : in_s64 (wrap_s64 z).
Proof.
  unfold in_s64, INT64_MIN, INT64_MAX, wrap_s64.
  pose proof (Z.mod_pos_bound (z + 2 ^ 63) (2 ^ 64) ltac:(lia)). lia.
Qed.

Lemma geb_true (a b : Z) : b <= a -> (a >=? b) = true.
Proof. intros. rewrite Z.geb_leb. apply Z.leb_le. lia. Qed.

Lemma geb_false (a b : Z) : a < b -> (a >=? b) = false.
Proof. intros. rewrite Z.geb_leb. apply Z.leb_gt. lia. Qed.

Lemma gtb_true (a b : Z) : b < a -> (a >? b) = true.
Proof. intros. rewrite Z.gtb_ltb. apply Z.ltb_lt. lia. Qed.

Lemma gtb_false (a b : Z) : a <= b -> (a >? b) = false.
Proof. intros. rewrite Z.gtb_ltb. apply Z.ltb_ge. lia. Qed.

Lemma for_first_length {A} (n : nat) (f : A -> A) (l : list A) :
  length (for_first n f l) = length l.
Proof.
  revert l. induction n as [|n IH]; intros [|x l]; simpl; auto.
Qed.

Lemma for_first_lookup_lt {A} (n : nat) (f : A -> A) (l : list A) i x :
  (i < n)%nat -> l !! i = Some x -> for_first n f l !! i = Some (f x).
Proof.
  revert l i. induction n as [|n IH]; intros [|y l] [|i] Hi Hl;
    simpl in *; try lia; try discriminate.
  - congruence.
  - apply IH; [lia | exact Hl].
Qed.

Lemma for_first_lookup_ge {A} (n : nat) (f : A -> A) (l : list A) i :
  (n <= i)%nat -> for_first n f l !! i = l !! i.
Proof.
  revert l i. induction n as [|n IH]; intros [|y l] [|i] Hi;
    simpl in *; try lia; auto.
  apply IH. lia.
Qed.

Lemma for_first2_length {A B} (n : nat) (f : A -> B -> A) dst src :
  length (for_first2 n f dst src) = length dst.
Proof.
  revert dst src. induction n as [|n IH]; intros [|d dst] [|s src];
    simpl; auto.
Qed.

Lemma for_first2_lookup_lt {A B} (n : nat) (f : A -> B -> A) dst src i d s :
  (i < n)%nat -> dst !! i = Some d -> src !! i = Some s ->
  for_first2 n f dst src !! i = Some (f d s).
Proof.
  revert dst src i.
  induction n as [|n IH]; intros [|d' dst] [|s' src] [|i] Hi Hd Hs;
    simpl in *; try lia; try discriminate.
  - congruence.
  - apply IH; [lia | exact Hd | exact Hs].
Qed.

Lemma for_first2_lookup_ge {A B} (n : nat) (f : A -> B -> A) dst src i :
  (n <= i)%nat -> for_first2 n f dst src !! i = dst !! i.
Proof.
  revert dst src i.
  induction n as [|n IH]; intros [|d' dst] [|s' src] [|i] Hi;
    simpl in *; try lia; auto.
  apply IH. lia.
Qed.

(** Whatever the counts, slot [i] of the destination either keeps its
    value or receives [f] of the two values at [i]. *)
Lemma for_first2_lookup_inv {A B} (n : nat) (f : A -> B -> A) dst src i x :
  for_first2 n f dst src !! i = Some x ->
  exists d, dst !! i = Some d /\ (x = d \/ exists s, src !! i = Some s /\ x = f d s).
Proof.
  revert dst src i.
  induction n as [|n IH]; intros [|d' dst] [|s' src] [|i] Hx;
    simpl in *; try discriminate; eauto.
  injection Hx as <-. eauto 6.
Qed.

(** ** Handles *)

Lemma memcmp_zero_iff (n : nat) (a b : list Z) :
  length a = n -> length b = n -> (memcmp a b n = 0 <-> a = b).
Proof.
  revert a b. induction n as [|n IH]; intros [|x a] [|y b] Ha Hb;
    simpl in *; try discriminate.
  - tauto.
  - destruct (Z.eqb_spec x y) as [->|Hne].
    + rewrite IH by lia. split; congruence.
    + split; [lia | congruence].
Qed.

(** X21. Two 16-byte handles compare equal exactly when they are the
    same bytes. *)
Lemma dom_handle_cmp_zero_iff (h1 h2 : xen_domain_handle_t) :
  wf_handle h1 -> wf_handle h2 -> (dom_handle_cmp h1 h2 = 0 <-> h1 = h2).
Proof. apply memcmp_zero_iff. Qed.

(** ** The provider selector *)

(** The test made on each provider by the loop of [providers_candidate]
    is the conjunction of the three conditions. *)
Lemma providers_scan_step (H : host) p rest :
  providers_scan H (p :: rest) =
  if provider_qualifies H p then Some p else providers_scan H rest.
Proof.
  unfold provider_qualifies. simpl.
  destruct (vc p) as [v|]; [|reflexivity].
  destruct (domain_sched_priv H (vcpu_domain H v)) as [dom|]; [|reflexivity].
  destruct (healthy dom); reflexivity.
Qed.

Lemma providers_scan_first (H : host) (ps : list sched_providers_t) :
  match providers_scan H ps with
  | Some p =>
      exists i : nat,
        ps !! i = Some p /\ provider_qualifies H p = true /\
        forall (j : nat) q, (j < i)%nat -> ps !! j = Some q ->
                            provider_qualifies H q = false
  | None =>
      forall (j : nat) q, ps !! j = Some q -> provider_qualifies H q = false
  end.
Proof.
  induction ps as [|p rest IH].
  - simpl. intros j q Hq. destruct j; discriminate.
  - rewrite providers_scan_step.
    destruct (provider_qualifies H p) eqn:Hp.
    + exists 0%nat. repeat split; auto. intros j q Hj. lia.
    + destruct (providers_scan H rest) as [p'|].
      * destruct IH as (i & Hi & Hq & Hbefore).
        exists (S i). repeat split; auto.
        intros [|j] q Hj Hlook; simpl in Hlook.
        -- congruence.
        -- apply (Hbefore j); [lia | exact Hlook].
      * intros [|j] q Hlook; simpl in Hlook.
        -- congruence.
        -- apply (IH j). exact Hlook.
Qed.

(** C6. The provider selector returns the first provider, in declared
    order among the [num_providers] valid slots of the entry, whose
    resolved VCPU reference is non-null, whose VCPU's domain has an
    attached domain record and whose domain record is healthy; it returns
    null exactly when no valid slot of the entry meets the three
    conditions. *)
Theorem providers_candidate_first_qualified (H : host) (e : sched_entry_t) :
  match providers_candidate H e with
  | Some p =>
      exists i : nat,
        (i < Z.to_nat (num_providers e))%nat /\
        providers e !! i = Some p /\
        provider_qualifies H p = true /\
        forall (j : nat) q, (j < i)%nat -> providers e !! j = Some q ->
                            provider_qualifies H q = false
  | None =>
      forall (j : nat) q,
        (j < Z.to_nat (num_providers e))%nat ->
        providers e !! j = Some q -> provider_qualifies H q = false
  end.
Proof.
  unfold providers_candidate.
  pose proof (providers_scan_first H
                (take (Z.to_nat (num_providers e)) (providers e))) as Hscan.
  destruct (providers_scan H _) as [p|].
  - destruct Hscan as (i & Hi & Hq & Hbefore).
    apply lookup_take_Some in Hi as [Hi Hlt].
    exists i. repeat split; auto.
    intros j q Hj Hlook. apply (Hbefore j); [exact Hj|].
    apply lookup_take_Some. split; [exact Hlook | lia].
  - intros j q Hj Hlook. apply (Hscan j).
    apply lookup_take_Some. split; [exact Hlook | exact Hj].
Qed.

(** ** The dispatcher on an empty timetable *)

(** When the slack test [sched_index >= num_schedule_entries] holds, the
    closing part of the dispatcher hands out the idle VCPU until the next
    major frame. *)
Lemma do_schedule_finish_slack (H : host) prv st cand now tasklet :
  num_schedule_entries prv <= sched_index st ->
  0 <= now -> now < next_major_frame prv ->
  next_major_frame prv <= INT64_MAX ->
  do_schedule_finish H prv st cand now tasklet =
  Done (mk_task_slice (Some (IDLETASK H (smp_processor_id H)))
                      (next_major_frame prv - now) false,
        prv,
        mk_statics (sched_index st) (next_major_frame prv) (entry st)).
Proof.
  intros Hslack Hnow Hlt Hmax. unfold do_schedule_finish.
  assert (Hs : (sched_index st >=? num_schedule_entries prv) = true)
    by (apply geb_true; lia).
  rewrite Hs. cbn zeta.
  set (idle := IDLETASK H (smp_processor_id H)).
  assert (Hnew : (if can_run H (Some idle) then Some idle else Some idle)
                 = Some idle) by (destruct (can_run H (Some idle)); reflexivity).
  rewrite Hnew.
  assert (Hb : (now >=? next_major_frame prv) = false)
    by (apply geb_false; lia).
  rewrite Hb.
  assert (Ht : (if tasklet then idle else idle) = idle)
    by (destruct tasklet; reflexivity).
  rewrite Ht.
  assert (Hm : (if negb (is_idle_vcpu H idle)
                   && negb (vcpu_processor H idle =? smp_processor_id H)
                then idle else idle) = idle)
    by (destruct (negb (is_idle_vcpu H idle) && _); reflexivity).
  rewrite Hm. simpl next_switch_time.
  rewrite wrap_s64_id by (unfold in_s64, INT64_MIN, INT64_MAX in *; lia).
  assert (Hpos : (next_major_frame prv - now <=? 0) = false)
    by (apply Z.leb_gt; lia).
  rewrite Hpos. reflexivity.
Qed.

(** C8. On an empty timetable ([num_schedule_entries < 1]) the
    dispatcher sets [next_major_frame] to [now + DEFAULT_TIMESLICE] and
    returns the idle VCPU of the current CPU with a time slice of
    [DEFAULT_TIMESLICE].  [now] is a clock value whose sum with the
    default slice is representable, and [sched_index] is unsigned. *)
Theorem do_schedule_empty_timetable (H : host) prv st now tasklet :
  num_schedule_entries prv < 1 ->
  0 <= sched_index st ->
  0 <= now -> now + DEFAULT_TIMESLICE <= INT64_MAX ->
  a653sched_do_schedule H prv st now tasklet =
  Done (mk_task_slice (Some (IDLETASK H (smp_processor_id H)))
                      DEFAULT_TIMESLICE false,
        set_next_major_frame prv (now + DEFAULT_TIMESLICE),
        mk_statics (sched_index st) (now + DEFAULT_TIMESLICE) (entry st)).
Proof.
  intros Hempty Hidx Hnow Hmax.
  unfold a653sched_do_schedule, do_schedule_select.
  assert (He : (num_schedule_entries prv <? 1) = true) by (apply Z.ltb_lt; lia).
  rewrite He.
  assert (Hdef : 0 < DEFAULT_TIMESLICE) by (unfold DEFAULT_TIMESLICE, MILLISECS; lia).
  rewrite wrap_s64_id by (unfold in_s64, INT64_MIN, INT64_MAX in *; lia).
  rewrite do_schedule_finish_slack; simpl; try lia.
  f_equal. f_equal. f_equal. f_equal. lia.
Qed.

(** ** Installing a timetable *)

(** A call that fails hands back the instance it was given. *)
Lemma sched_set_fail_unchanged max_s max_d (H : host) prv s t :
  fst (arinc653_sched_set max_s max_d H prv s t) <> 0 ->
  snd (arinc653_sched_set max_s max_d H prv s t) = prv.
Proof.
  unfold arinc653_sched_set.
  repeat match goal with
         | |- context [if ?c then _ else _] => destruct c
         | |- context [match ?c with Some _ => _ | None => _ end] => destruct c
         end; simpl; intros Hrc; try reflexivity.
  contradiction.
Qed.

Lemma sched_set_return_codes max_s max_d (H : host) prv s t :
  fst (arinc653_sched_set max_s max_d H prv s t) = 0 \/
  fst (arinc653_sched_set max_s max_d H prv s t) = - EINVAL.
Proof.
  unfold arinc653_sched_set.
  repeat match goal with
         | |- context [if ?c then _ else _] => destruct c
         | |- context [match ?c with Some _ => _ | None => _ end] => destruct c
         end; simpl; auto.
Qed.

(** What a successful call has checked and what it leaves behind. *)
Lemma sched_set_success max_s max_d (H : host) prv s t prv' :
  arinc653_sched_set max_s max_d H prv s t = (0, prv') ->
  let n := Z.to_nat (Sysctl.num_sched_entries s) in
  0 < Sysctl.major_frame s /\
  1 <= Sysctl.num_sched_entries s <= max_s /\
  existsb (bad_num_providers max_d) (take n (Sysctl.sched_entries s)) = false /\
  (exists total,
      total_runtime_loop (take n (Sysctl.sched_entries s)) 0 = Some total /\
      total <= Sysctl.major_frame s) /\
  prv' = mk_priv (for_first n (resolve_entry H prv)
                    (for_first2 n copy_entry (schedule prv)
                                (Sysctl.sched_entries s)))
                 (Sysctl.num_sched_entries s) (Sysctl.major_frame s) t
                 (vcpu_list prv).
Proof.
  intros Hset n. unfold arinc653_sched_set in Hset.
  destruct ((Sysctl.major_frame s <=? 0) || _ || _) eqn:Hhead;
    [discriminate|].
  apply orb_false_elim in Hhead as [Hhead Hmax].
  apply orb_false_elim in Hhead as [Hmf Hmin].
  apply Z.leb_gt in Hmf. apply Z.ltb_ge in Hmin.
  rewrite Z.gtb_ltb in Hmax. apply Z.ltb_ge in Hmax.
  fold n in Hset.
  destruct (existsb _ _) eqn:Hbad; [discriminate|].
  destruct (total_runtime_loop _ 0) as [total|] eqn:Htotal; [|discriminate].
  destruct (total >? Sysctl.major_frame s) eqn:Hcmp; [discriminate|].
  rewrite Z.gtb_ltb in Hcmp. apply Z.ltb_ge in Hcmp.
  injection Hset as <-.
  repeat split; try lia; eauto.
Qed.

Lemma wf_priv_slot max_s max_d prv (i : nat) :
  wf_priv max_s max_d prv = true -> (i < Z.to_nat max_s)%nat ->
  exists d, schedule prv !! i = Some d /\
            length (providers d) = Z.to_nat max_d.
Proof.
  unfold wf_priv. intros Hwf Hi.
  apply andb_true_iff in Hwf as [Hlen Hall].
  apply Nat.eqb_eq in Hlen.
  destruct (lookup_lt_is_Some_2 (schedule prv) i) as [d Hd]; [lia|].
  exists d. split; [exact Hd|].
  rewrite forallb_forall in Hall.
  apply Nat.eqb_eq, Hall.
  apply list_elem_of_In, list_elem_of_lookup. eauto.
Qed.

Lemma wf_sysctl_slot max_s max_d s (i : nat) :
  wf_sysctl max_s max_d s = true -> (i < Z.to_nat max_s)%nat ->
  exists e, Sysctl.sched_entries s !! i = Some e /\
            length (Sysctl.service_providers e) = Z.to_nat max_d.
Proof.
  unfold wf_sysctl. intros Hwf Hi.
  apply andb_true_iff in Hwf as [Hlen Hall].
  apply Nat.eqb_eq in Hlen.
  destruct (lookup_lt_is_Some_2 (Sysctl.sched_entries s) i) as [e He]; [lia|].
  exists e. split; [exact He|].
  rewrite forallb_forall in Hall.
  apply Nat.eqb_eq, Hall.
  apply list_elem_of_In, list_elem_of_lookup. eauto.
Qed.

Lemma existsb_take_false {A} (f : A -> bool) (l : list A) (n i : nat) x :
  existsb f (take n l) = false -> (i < n)%nat -> l !! i = Some x ->
  f x = false.
Proof.
  intros Hex Hi Hx.
  destruct (f x) eqn:Hf; [|reflexivity].
  assert (Hin : existsb f (take n l) = true).
  { apply existsb_exists. exists x. split; [|exact Hf].
    apply list_elem_of_In, list_elem_of_lookup. exists i.
    apply lookup_take_Some. auto. }
  congruence.
Qed.

Lemma runnable_or_idle (H : host) (nt : option vcpu_ptr) (idle : vcpu_ptr) :
  exists v, (if can_run H nt then nt else Some idle) = Some v.
Proof.
  destruct nt as [v|]; simpl; [|eauto].
  destruct (AVCPU H v); [|eauto].
  destruct (avcpu_awake H a && vcpu_runnable H v); eauto.
Qed.

Lemma total_runtime_loop_positive (es : list Sysctl.entry) (acc total : Z)
    (i : nat) e :
  total_runtime_loop es acc = Some total -> es !! i = Some e ->
  0 < Sysctl.runtime e.
Proof.
  revert acc i. induction es as [|x es IH]; intros acc i Hloop He.
  - destruct i; discriminate.
  - simpl in Hloop.
    destruct (Sysctl.runtime x <=? 0) eqn:Hle; [discriminate|].
    apply Z.leb_gt in Hle.
    destruct i as [|i]; simpl in He.
    + injection He as <-. exact Hle.
    + apply (IH _ i Hloop He).
Qed.

(** Inside an entry, before the frame ends and before the pending switch
    time, the closing part of the dispatcher returns and leaves the frame
    state as it is. *)
Lemma do_schedule_finish_in_entry (H : host) prv st cand now tasklet :
  sched_index st < num_schedule_entries prv ->
  now < next_major_frame prv ->
  0 < next_switch_time st - now <= INT64_MAX ->
  exists r,
    do_schedule_finish H prv st cand now tasklet = Done (r, prv, st) /\
    time r = next_switch_time st - now /\
    migrated r = false /\
    exists v, task r = Some v.
Proof.
  intros Hidx Hframe Hslice. unfold do_schedule_finish.
  rewrite (geb_false (sched_index st) (num_schedule_entries prv)) by lia.
  match goal with
  | |- context [if can_run H ?nt then _ else Some ?i] =>
      destruct (runnable_or_idle H nt i) as [v ->]
  end.
  rewrite (geb_false now (next_major_frame prv)) by lia.
  rewrite wrap_s64_id by (unfold in_s64, INT64_MIN, INT64_MAX in *; lia).
  assert (Hpos : (next_switch_time st - now <=? 0) = false)
    by (apply Z.leb_gt; lia).
  rewrite Hpos. eexists. split; [reflexivity|]. simpl. eauto.
Qed.

(** C3. Immediate takeover.  Let [arinc653_sched_set] accept the
    schedule [s] at clock value [t].  Slot 0 of the installed timetable
    carries entry 0 of [s] (service id, runtime, provider count and each
    provider's handle and VCPU number, with the reference resolved against
    the registry), and the first dispatcher call at any [now > t],
    whatever the dispatcher's saved state, takes the major-frame-boundary
    branch: [sched_index] and the cached entry go to slot 0, the provider
    is selected from that entry, and [next_major_frame] becomes
    [t + major_frame] of [s], counted from the install time and not from
    [now].  When [now] still lies inside the first entry's window the call
    returns with that state and the rest of the window as its slice. *)
Theorem immediate_takeover max_s max_d (H : host) prv s t prv' st now
    tasklet :
  wf_priv max_s max_d prv = true ->
  wf_sysctl max_s max_d s = true ->
  arinc653_sched_set max_s max_d H prv s t = (0, prv') ->
  0 <= t -> t + Sysctl.major_frame s <= INT64_MAX ->
  t < now ->
  exists s0 e0,
    Sysctl.sched_entries s !! 0%nat = Some s0 /\
    schedule prv' !! 0%nat = Some e0 /\
    service_id e0 = Sysctl.service_id s0 /\
    runtime e0 = Sysctl.runtime s0 /\
    num_providers e0 = Sysctl.num_providers s0 /\
    (forall (j : nat) sp,
        (j < Z.to_nat (Sysctl.num_providers s0))%nat ->
        Sysctl.service_providers s0 !! j = Some sp ->
        providers e0 !! j =
        Some (mk_provider (Sysctl.dom_handle sp) (Sysctl.vcpu_id sp)
                (find_vcpu H prv' (Sysctl.dom_handle sp)
                           (Sysctl.vcpu_id sp)))) /\
    do_schedule_select H prv' st now =
    Done (set_next_major_frame prv' (t + Sysctl.major_frame s),
          mk_statics 0 (wrap_s64 (t + Sysctl.runtime s0)) (Some 0%nat),
          providers_candidate H e0) /\
    (now < t + Sysctl.runtime s0 <= INT64_MAX ->
     now < t + Sysctl.major_frame s ->
     exists r,
       a653sched_do_schedule H prv' st now tasklet =
       Done (r, set_next_major_frame prv' (t + Sysctl.major_frame s),
             mk_statics 0 (t + Sysctl.runtime s0) (Some 0%nat)) /\
       time r = t + Sysctl.runtime s0 - now /\
       migrated r = false /\
       exists v, task r = Some v).
Proof.
  intros Hwfp Hwfs Hset Ht Hmax Hnow.
  apply sched_set_success in Hset as (Hmf & Hn & Hbad & _ & ->).
  set (n := Z.to_nat (Sysctl.num_sched_entries s)) in *.
  assert (Hn0 : (0 < n)%nat) by (subst n; lia).
  assert (Hns : (0 < Z.to_nat max_s)%nat) by lia.
  destruct (wf_priv_slot _ _ _ 0%nat Hwfp Hns) as (d0 & Hd0 & Hd0len).
  destruct (wf_sysctl_slot _ _ _ 0%nat Hwfs Hns) as (s0 & Hs0 & Hs0len).
  pose proof (existsb_take_false _ _ _ _ _ Hbad Hn0 Hs0) as Hnp.
  unfold bad_num_providers in Hnp.
  apply orb_false_elim in Hnp as [Hnp1 Hnp2].
  apply Z.ltb_ge in Hnp1. rewrite Z.gtb_ltb in Hnp2. apply Z.ltb_ge in Hnp2.
  set (e0 := resolve_entry H prv (copy_entry d0 s0)).
  assert (He0 : for_first n (resolve_entry H prv)
                  (for_first2 n copy_entry (schedule prv)
                              (Sysctl.sched_entries s)) !! 0%nat = Some e0).
  { apply for_first_lookup_lt; [exact Hn0|].
    apply for_first2_lookup_lt; assumption. }
  set (prv' := mk_priv _ _ _ _ _).
  assert (Hsel :
    do_schedule_select H prv' st now =
    Done (set_next_major_frame prv' (t + Sysctl.major_frame s),
          mk_statics 0 (wrap_s64 (t + Sysctl.runtime s0)) (Some 0%nat),
          providers_candidate H e0)).
  { unfold do_schedule_select. subst prv'. simpl.
    assert (Hne : (Sysctl.num_sched_entries s <? 1) = false)
      by (apply Z.ltb_ge; lia).
    rewrite Hne, (geb_true now t) by lia.
    rewrite He0.
    rewrite wrap_s64_id by (unfold in_s64, INT64_MIN, INT64_MAX in *; lia).
    reflexivity. }
  exists s0, e0.
  split; [exact Hs0|]. split; [exact He0|].
  split; [reflexivity|]. split; [reflexivity|]. split; [reflexivity|].
  split; [|split; [exact Hsel|]].
  - intros j sp Hj Hsp. subst e0. simpl.
    destruct (lookup_lt_is_Some_2 (providers d0) j) as [pd Hpd]; [lia|].
    rewrite (for_first_lookup_lt _ _ _ j (copy_provider pd sp)).
    + reflexivity.
    + exact Hj.
    + apply for_first2_lookup_lt; assumption.
  - intros Hwin Hframe.
    unfold a653sched_do_schedule. rewrite Hsel.
    rewrite (wrap_s64_id (t + Sysctl.runtime s0))
      by (unfold in_s64, INT64_MIN, INT64_MAX in *; lia).
    apply do_schedule_finish_in_entry; simpl; lia.
Qed.

(** ** The minor-frame loop running off the end of the timetable *)

Lemma positive_runtimes_slot prv (k : nat) e :
  positive_runtimes prv = true ->
  (k < Z.to_nat (num_schedule_entries prv))%nat ->
  schedule prv !! k = Some e -> 0 < runtime e.
Proof.
  unfold positive_runtimes. intros Hpos Hk He.
  rewrite forallb_forall in Hpos.
  apply Z.ltb_lt, Hpos.
  apply list_elem_of_In, list_elem_of_lookup. exists k.
  apply lookup_take_Some. auto.
Qed.

Lemma sum_runtimes_nonneg (es : list sched_entry_t) :
  Forall (fun e => 0 < runtime e) es -> 0 <= sum_runtimes es.
Proof.
  induction 1; simpl; lia.
Qed.

Lemma advance_loop_runs_off (prv : a653sched_priv_t) (now : Z) (m : nat) :
  forall st : dispatch_statics,
    0 <= sched_index st ->
    sched_index st + 1 + Z.of_nat m = num_schedule_entries prv ->
    num_schedule_entries prv <= Z.of_nat (length (schedule prv)) ->
    positive_runtimes prv = true ->
    INT64_MIN <= next_switch_time st -> now <= INT64_MAX ->
    next_switch_time st
    + sum_runtimes (take m (drop (Z.to_nat (sched_index st + 1))
                                 (schedule prv))) <= now ->
    advance_loop (S m) prv now st =
    match schedule prv !! Z.to_nat (num_schedule_entries prv) with
    | Some e =>
        Done (mk_statics (num_schedule_entries prv)
                (wrap_s64
                   (next_switch_time st
                    + sum_runtimes
                        (take m (drop (Z.to_nat (sched_index st + 1))
                                      (schedule prv)))
                    + runtime e))
                (Some (Z.to_nat (num_schedule_entries prv))))
    | None => Fault (out_of_bounds (Z.to_nat (num_schedule_entries prv)))
    end.
Proof.
  induction m as [|m IH]; intros st Hidx Hn Hlen Hpos Hmin Hmax Hlast.
  - (* the current entry is the last valid one *)
    simpl take in *. simpl sum_runtimes in *.
    cbn [advance_loop].
    rewrite (geb_true now (next_switch_time st)) by lia.
    assert (Hlt : (sched_index st <? num_schedule_entries prv) = true)
      by (apply Z.ltb_lt; lia).
    rewrite Hlt. simpl andb. cbv zeta.
    replace (sched_index st + 1) with (num_schedule_entries prv) by lia.
    destruct (schedule prv !! Z.to_nat (num_schedule_entries prv)) as [e|];
      [|reflexivity].
    simpl.
    rewrite Z.ltb_irrefl, andb_false_r, Z.add_0_r. reflexivity.
  - (* at least one more valid entry follows *)
    set (i := Z.to_nat (sched_index st + 1)) in *.
    assert (Hi : (i < length (schedule prv))%nat) by (subst i; lia).
    destruct (lookup_lt_is_Some_2 _ _ Hi) as [e' He'].
    assert (He'pos : 0 < runtime e').
    { apply (positive_runtimes_slot prv i e' Hpos); [subst i; lia | exact He']. }
    rewrite (drop_S _ _ _ He') in Hlast |- *.
    simpl take in Hlast |- *. simpl sum_runtimes in Hlast |- *.
    assert (Hrest : 0 <= sum_runtimes (take m (drop (S i) (schedule prv)))).
    { apply sum_runtimes_nonneg, Forall_forall. intros e Hin.
      apply list_elem_of_lookup in Hin as [k Hk].
      apply lookup_take_Some in Hk as [Hk Hkm].
      rewrite lookup_drop in Hk.
      apply (positive_runtimes_slot prv (S i + k) e Hpos); [subst i; lia|].
      exact Hk. }
    change (advance_loop (S (S m)) prv now st) with
      (if (now >=? next_switch_time st)
          && (sched_index st <? num_schedule_entries prv)
       then
         match schedule prv !! Z.to_nat (sched_index st + 1) with
         | None => Fault (out_of_bounds (Z.to_nat (sched_index st + 1)))
         | Some e =>
             advance_loop (S m) prv now
               (mk_statics (sched_index st + 1)
                  (wrap_s64 (next_switch_time st + runtime e))
                  (Some (Z.to_nat (sched_index st + 1))))
         end
       else Done st).
    rewrite (geb_true now (next_switch_time st)) by lia.
    assert (Hlt : (sched_index st <? num_schedule_entries prv) = true)
      by (apply Z.ltb_lt; lia).
    rewrite Hlt. simpl andb. cbv iota.
    fold i. rewrite He'.
    rewrite wrap_s64_id by (unfold in_s64, INT64_MIN, INT64_MAX in *; lia).
    rewrite IH; simpl sched_index; simpl next_switch_time; try lia;
      try assumption.
    + replace (Z.to_nat (sched_index st + 1 + 1)) with (S i) by (subst i; lia).
      destruct (schedule prv !! Z.to_nat (num_schedule_entries prv));
        [|reflexivity].
      do 3 f_equal. lia.
    + replace (Z.to_nat (sched_index st + 1 + 1)) with (S i) by (subst i; lia).
      lia.
Qed.

(** C10. In the minor-frame branch, once [now] has reached the end of
    the last valid entry, the loop leaves [sched_index] equal to
    [num_schedule_entries] and the cached entry pointing at slot
    [num_schedule_entries], one past the last valid entry.  When the
    array has such a slot, its stale [runtime] is added to
    [next_switch_time] and the provider selector is run on its stale
    [num_providers] and [providers]; the candidate is then dropped, the
    idle VCPU is returned and [next_switch_time] is set to
    [next_major_frame].  When [num_schedule_entries] equals the array
    length, the slot read lies outside the array. *)
Theorem minor_frame_advance_past_last_entry
    (H : host) prv st now tasklet :
  0 <= sched_index st < num_schedule_entries prv ->
  num_schedule_entries prv <= Z.of_nat (length (schedule prv)) ->
  positive_runtimes prv = true ->
  INT64_MIN <= next_switch_time st ->
  0 <= now -> now < next_major_frame prv ->
  next_major_frame prv <= INT64_MAX ->
  last_switch_time prv st <= now ->
  let n := num_schedule_entries prv in
  match schedule prv !! Z.to_nat n with
  | Some e =>
      do_schedule_select H prv st now =
      Done (prv,
            mk_statics n (wrap_s64 (last_switch_time prv st + runtime e))
                       (Some (Z.to_nat n)),
            providers_candidate H e) /\
      a653sched_do_schedule H prv st now tasklet =
      Done (mk_task_slice (Some (IDLETASK H (smp_processor_id H)))
                          (next_major_frame prv - now) false,
            prv,
            mk_statics n (next_major_frame prv) (Some (Z.to_nat n)))
  | None =>
      Z.to_nat n = length (schedule prv) /\
      do_schedule_select H prv st now = Fault (out_of_bounds (Z.to_nat n)) /\
      a653sched_do_schedule H prv st now tasklet =
      Fault (out_of_bounds (Z.to_nat n))
  end.
Proof.
  intros Hidx Hlen Hpos Hmin Hnow Hlt Hmax Hlast n. subst n.
  unfold last_switch_time in *.
  set (m := Z.to_nat (num_schedule_entries prv - 1 - sched_index st)) in *.
  assert (Hsel :
    do_schedule_select H prv st now =
    match advance_loop (S m) prv now st with
    | Fault f => Fault f
    | Done st' =>
        match entry st' with
        | None => Fault null_dereference
        | Some i =>
            match schedule prv !! i with
            | None => Fault (out_of_bounds i)
            | Some e => Done (prv, st', providers_candidate H e)
            end
        end
    end).
  { unfold do_schedule_select.
    assert (Hne : (num_schedule_entries prv <? 1) = false)
      by (apply Z.ltb_ge; lia).
    rewrite Hne, (geb_false now (next_major_frame prv)) by lia.
    replace (Z.to_nat (num_schedule_entries prv - sched_index st))
      with (S m) by (subst m; lia).
    reflexivity. }
  rewrite (advance_loop_runs_off prv now m st) in Hsel;
    try assumption; try lia; try (subst m; lia).
  unfold a653sched_do_schedule. rewrite Hsel.
  destruct (schedule prv !! Z.to_nat (num_schedule_entries prv))
    as [e|] eqn:He.
  - cbn [entry]. rewrite He. split; [reflexivity|].
    rewrite do_schedule_finish_slack; cbn [sched_index]; try lia.
    reflexivity.
  - apply lookup_ge_None in He.
    repeat split; try reflexivity. lia.
Qed.

(** ** Validation of a candidate timetable *)

Lemma total_runtime_loop_rejects (es : list Sysctl.entry) (acc : Z) :
  forallb (fun e => 0 <? Sysctl.runtime e) es = false ->
  total_runtime_loop es acc = None.
Proof.
  revert acc. induction es as [|e es IH]; intros acc Hall; simpl in *.
  - discriminate.
  - destruct (Sysctl.runtime e <=? 0) eqn:Hle; [reflexivity|].
    apply Z.leb_gt in Hle.
    assert (Hpos : (0 <? Sysctl.runtime e) = true) by (apply Z.ltb_lt; lia).
    rewrite Hpos in Hall. simpl in Hall. apply IH. exact Hall.
Qed.

Lemma total_runtime_loop_exact (es : list Sysctl.entry) (acc : Z) :
  forallb (fun e => 0 <? Sysctl.runtime e) es = true ->
  0 <= acc -> acc + sysctl_sum_runtimes es <= INT64_MAX ->
  total_runtime_loop es acc = Some (acc + sysctl_sum_runtimes es).
Proof.
  revert acc. induction es as [|e es IH]; intros acc Hall Hacc Hmax;
    simpl in *.
  - f_equal. lia.
  - apply andb_true_iff in Hall as [He Hall]. apply Z.ltb_lt in He.
    assert (Hrest : 0 <= sysctl_sum_runtimes es).
    { clear -Hall. induction es as [|x xs IHx]; simpl in *; [lia|].
      apply andb_true_iff in Hall as [Hx Hall]. apply Z.ltb_lt in Hx.
      specialize (IHx Hall). lia. }
    assert (Hle : (Sysctl.runtime e <=? 0) = false) by (apply Z.leb_gt; lia).
    rewrite Hle.
    rewrite wrap_s64_id by (unfold in_s64, INT64_MIN, INT64_MAX in *; lia).
    rewrite IH; try assumption; try lia. f_equal. lia.
Qed.

Lemma forallb_valid_entry_split max_d (es : list Sysctl.entry) :
  forallb (valid_entry max_d) es =
  negb (existsb (bad_num_providers max_d) es)
  && forallb (fun e => 0 <? Sysctl.runtime e) es.
Proof.
  induction es as [|e es IH]; simpl; [reflexivity|].
  rewrite IH. unfold valid_entry, bad_num_providers.
  rewrite Z.gtb_ltb.
  destruct (0 <? Sysctl.runtime e);
    destruct (Z.leb_spec 1 (Sysctl.num_providers e));
    destruct (Z.ltb_spec (Sysctl.num_providers e) 1);
    destruct (Z.leb_spec (Sysctl.num_providers e) max_d);
    destruct (Z.ltb_spec max_d (Sysctl.num_providers e));
    simpl; try lia; try reflexivity;
    destruct (existsb _ es); simpl; reflexivity.
Qed.

(** As long as the runtimes of the candidate add up to a representable
    number, [arinc653_sched_set] fails with [-EINVAL] exactly on the
    candidates that break a validation rule, and accepts the others. *)
Lemma sched_set_validates max_s max_d (H : host) prv s t :
  sysctl_sum_runtimes
    (take (Z.to_nat (Sysctl.num_sched_entries s)) (Sysctl.sched_entries s))
  <= INT64_MAX ->
  fst (arinc653_sched_set max_s max_d H prv s t) =
  if valid_schedule max_s max_d s then 0 else - EINVAL.
Proof.
  intros Hsum. unfold arinc653_sched_set, valid_schedule.
  set (es := take (Z.to_nat (Sysctl.num_sched_entries s))
                  (Sysctl.sched_entries s)) in *.
  rewrite forallb_valid_entry_split, Z.gtb_ltb.
  destruct (Z.leb_spec (Sysctl.major_frame s) 0);
    destruct (Z.ltb_spec 0 (Sysctl.major_frame s)); try lia;
    simpl; [reflexivity|].
  destruct (Z.ltb_spec (Sysctl.num_sched_entries s) 1);
    destruct (Z.leb_spec 1 (Sysctl.num_sched_entries s)); try lia;
    simpl; [reflexivity|].
  destruct (Z.ltb_spec max_s (Sysctl.num_sched_entries s));
    destruct (Z.leb_spec (Sysctl.num_sched_entries s) max_s); try lia;
    simpl; [reflexivity|].
  destruct (existsb (bad_num_providers max_d) es); simpl; [reflexivity|].
  destruct (forallb (fun e => 0 <? Sysctl.runtime e) es) eqn:Hpos.
  - rewrite total_runtime_loop_exact by (assumption || lia).
    rewrite Z.add_0_l, Z.gtb_ltb.
    destruct (Z.ltb_spec (Sysctl.major_frame s) (sysctl_sum_runtimes es));
      destruct (Z.leb_spec (sysctl_sum_runtimes es) (Sysctl.major_frame s));
      try lia; reflexivity.
  - rewrite total_runtime_loop_rejects by assumption. reflexivity.
Qed.

(** Whatever the array bounds (at least four entries, at least one
    provider), the instance and the rest of the candidate's array, four
    entries of 2^62 ns in a major frame of 1 ns are accepted. *)
Lemma sched_set_accepts_wrapped_sum max_s max_d (H : host) prv rest t :
  4 <= max_s -> 1 <= max_d ->
  fst (arinc653_sched_set max_s max_d H prv
         (Sysctl.mk_schedule 1 4
            (replicate 4 (one_provider_entry 7 (2 ^ 62) handle_D1) ++ rest))
         t) = 0.
Proof.
  intros Hs Hd. unfold arinc653_sched_set.
  cbn [Sysctl.major_frame Sysctl.num_sched_entries Sysctl.sched_entries].
  rewrite (gtb_false 4 max_s) by lia.
  change (Z.to_nat 4) with 4%nat.
  change (take 4 (replicate 4 (one_provider_entry 7 (2 ^ 62) handle_D1)
                  ++ rest))
    with (replicate 4 (one_provider_entry 7 (2 ^ 62) handle_D1)).
  assert (Hok : bad_num_providers max_d
                  (one_provider_entry 7 (2 ^ 62) handle_D1) = false).
  { unfold bad_num_providers, one_provider_entry.
    cbn [Sysctl.num_providers]. rewrite (gtb_false 1 max_d) by lia.
    reflexivity. }
  cbn [replicate existsb]. rewrite Hok.
  reflexivity.
Qed.

(** C2. [arinc653_sched_set] accepts a candidate that breaks the rule
    on the sum of the runtimes: with a major frame of 1 ns and four
    entries of 2^62 ns each (4 x 2^62 = 2^64 ns in all), the 64-bit
    accumulator [total_runtime] wraps to 0, the comparison with
    [major_frame] passes, the call returns 0 and the timetable is
    replaced. *)
Theorem sched_set_accepts_overlong_schedule :
  valid_schedule demo_max_services demo_max_domains schedule_huge_runtimes
  = false /\
  sysctl_sum_runtimes
    (take 4 (Sysctl.sched_entries schedule_huge_runtimes)) = 2 ^ 64 /\
  Sysctl.major_frame schedule_huge_runtimes = 1 /\
  fst (demo_set demo_with_guests schedule_huge_runtimes 0) = 0 /\
  num_schedule_entries
    (snd (demo_set demo_with_guests schedule_huge_runtimes 0)) = 4 /\
  major_frame (snd (demo_set demo_with_guests schedule_huge_runtimes 0)) = 1.
Proof.
  repeat split; vm_compute; reflexivity.
Qed.

(** ** Reading the timetable back *)

(** [arinc653_sched_get] assigns neither [service_id] nor
    [num_providers]: in every entry of its output both fields are the
    ones the caller's buffer held before the call. *)
Lemma sched_get_keeps_caller_fields prv buf (i : nat) e :
  Sysctl.sched_entries (snd (arinc653_sched_get prv buf)) !! i = Some e ->
  exists b,
    Sysctl.sched_entries buf !! i = Some b /\
    Sysctl.service_id e = Sysctl.service_id b /\
    Sysctl.num_providers e = Sysctl.num_providers b.
Proof.
  simpl. intros He.
  apply for_first2_lookup_inv in He as (b & Hb & [-> | (src & _ & ->)]);
    exists b; auto.
Qed.

(** What does come back: the entry count, the major frame and, for each
    valid entry, the runtime and the handle and VCPU number of each of its
    providers. *)
Lemma sched_get_after_set max_s max_d (H : host) prv s t prv' buf :
  wf_priv max_s max_d prv = true ->
  wf_sysctl max_s max_d s = true ->
  wf_sysctl max_s max_d buf = true ->
  arinc653_sched_set max_s max_d H prv s t = (0, prv') ->
  let out := snd (arinc653_sched_get prv' buf) in
  fst (arinc653_sched_get prv' buf) = 0 /\
  Sysctl.num_sched_entries out = Sysctl.num_sched_entries s /\
  Sysctl.major_frame out = Sysctl.major_frame s /\
  forall (i : nat) si,
    (i < Z.to_nat (Sysctl.num_sched_entries s))%nat ->
    Sysctl.sched_entries s !! i = Some si ->
    exists oi,
      Sysctl.sched_entries out !! i = Some oi /\
      Sysctl.runtime oi = Sysctl.runtime si /\
      forall (j : nat),
        (j < Z.to_nat (Sysctl.num_providers si))%nat ->
        Sysctl.service_providers oi !! j = Sysctl.service_providers si !! j.
Proof.
  intros Hwfp Hwfs Hwfb Hset out.
  apply sched_set_success in Hset as (Hmf & Hn & Hbad & _ & ->).
  subst out. simpl.
  repeat split; try reflexivity.
  intros i si Hi Hsi.
  set (n := Z.to_nat (Sysctl.num_sched_entries s)) in *.
  assert (His : (i < Z.to_nat max_s)%nat) by (subst n; lia).
  destruct (wf_priv_slot _ _ _ i Hwfp His) as (d & Hd & Hdlen).
  destruct (wf_sysctl_slot _ _ _ i Hwfb His) as (b & Hb & Hblen).
  destruct (wf_sysctl_slot _ _ _ i Hwfs His) as (si' & Hsi' & Hsilen).
  assert (si' = si) by congruence. subst si'.
  pose proof (existsb_take_false _ _ _ _ _ Hbad Hi Hsi) as Hnp.
  unfold bad_num_providers in Hnp.
  apply orb_false_elim in Hnp as [Hnp1 Hnp2].
  apply Z.ltb_ge in Hnp1. rewrite Z.gtb_ltb in Hnp2. apply Z.ltb_ge in Hnp2.
  set (e := resolve_entry H prv (copy_entry d si)).
  exists (read_entry b e). split.
  - apply for_first2_lookup_lt; [exact Hi | exact Hb |].
    apply for_first_lookup_lt; [exact Hi|].
    apply for_first2_lookup_lt; assumption.
  - split; [reflexivity|].
    intros j Hj. simpl.
    destruct (lookup_lt_is_Some_2 (providers d) j) as [pd Hpd]; [lia|].
    destruct (lookup_lt_is_Some_2 (Sysctl.service_providers b) j)
      as [pb Hpb]; [lia|].
    destruct (lookup_lt_is_Some_2 (Sysctl.service_providers si) j)
      as [ps Hps]; [lia|].
    rewrite Hps.
    rewrite (for_first2_lookup_lt _ _ _ _ j pb
               (resolve_provider H prv (copy_provider pd ps))).
    + unfold read_provider. simpl. destruct ps; reflexivity.
    + exact Hj.
    + exact Hpb.
    + apply for_first_lookup_lt; [exact Hj|].
      apply for_first2_lookup_lt; assumption.
Qed.

(** C1. Reading back an installed schedule does not return it whole.
    S1 is valid and is installed; the read through the global adjust
    operation then reports entry 0 with [service_id = -1] and
    [num_providers = 4294967295], the bytes the output buffer was filled
    with, where S1 has [service_id = 7] and [num_providers = 1]. *)
Theorem sched_get_drops_service_id_and_num_providers :
  valid_schedule demo_max_services demo_max_domains schedule_S1 = true /\
  fst (demo_set demo_with_guests schedule_S1 0) = 0 /\
  exists out,
    a653sched_adjust_global demo_max_services demo_max_domains demo_host
      demo_S1_installed SCHEDOP_getinfo None true 0
    = (0, demo_S1_installed, Some out) /\
    Sysctl.service_id <$> Sysctl.sched_entries schedule_S1 !! 0%nat
    = Some 7 /\
    Sysctl.service_id <$> Sysctl.sched_entries out !! 0%nat = Some (-1) /\
    Sysctl.num_providers <$> Sysctl.sched_entries schedule_S1 !! 0%nat
    = Some 1 /\
    Sysctl.num_providers <$> Sysctl.sched_entries out !! 0%nat
    = Some 4294967295.
Proof.
  split; [vm_compute; reflexivity|].
  split; [vm_compute; reflexivity|].
  eexists. split; [vm_compute; reflexivity|].
  repeat split; vm_compute; reflexivity.
Qed.

(** ** The dispatcher's checks *)

(** Whenever the dispatcher does return, the slice is positive, the task
    is non-null, [migrated] is false and [now] lies before the next major
    frame. *)
Lemma do_schedule_result_sound (H : host) prv st now tasklet r prv' st' :
  a653sched_do_schedule H prv st now tasklet = Done (r, prv', st') ->
  0 < time r /\ (exists v, task r = Some v) /\ migrated r = false /\
  now < next_major_frame prv'.
Proof.
  unfold a653sched_do_schedule.
  destruct (do_schedule_select H prv st now) as [[[prv1 st1] cand]|f];
    [|discriminate].
  unfold do_schedule_finish.
  match goal with
  | |- context [if can_run H ?nt then _ else Some ?i] =>
      destruct (runnable_or_idle H nt i) as [v ->]
  end.
  destruct (now >=? next_major_frame prv1) eqn:Hmiss; [discriminate|].
  rewrite Z.geb_leb in Hmiss. apply Z.leb_gt in Hmiss.
  match goal with
  | |- context [if ?t <=? 0 then _ else _] => destruct (Z.leb_spec t 0)
  end; [discriminate|].
  intros Hdone. injection Hdone as <- <- <-. simpl.
  repeat split; eauto.
Qed.

(** A call that reaches a major-frame boundary after the first entry's
    window has already gone by stops at one of the two [BUG_ON] checks. *)
Lemma do_schedule_late_start_faults (H : host) prv st now tasklet e0 :
  1 <= num_schedule_entries prv ->
  schedule prv !! 0%nat = Some e0 ->
  0 <= next_major_frame prv -> 0 < runtime e0 ->
  next_major_frame prv + runtime e0 <= now -> now <= INT64_MAX ->
  a653sched_do_schedule H prv st now tasklet = Fault BUG_ON_missed_major_frame
  \/ a653sched_do_schedule H prv st now tasklet
     = Fault BUG_ON_nonpositive_time.
Proof.
  intros Hn He0 Hnmf Hrt Hlate Hmax.
  unfold a653sched_do_schedule, do_schedule_select.
  assert (Hne : (num_schedule_entries prv <? 1) = false)
    by (apply Z.ltb_ge; lia).
  rewrite Hne, (geb_true now (next_major_frame prv)), He0 by lia.
  unfold do_schedule_finish, set_next_major_frame.
  cbn [sched_index next_switch_time num_schedule_entries next_major_frame].
  rewrite (geb_false 0 (num_schedule_entries prv)) by lia.
  match goal with
  | |- context [if can_run H ?nt then _ else Some ?i] =>
      destruct (runnable_or_idle H nt i) as [v ->]
  end.
  destruct (now >=? wrap_s64 _); [left; reflexivity|].
  right. cbn [next_switch_time].
  rewrite (wrap_s64_id (next_major_frame prv + runtime e0))
    by (unfold in_s64, INT64_MIN, INT64_MAX in *; lia).
  rewrite (wrap_s64_id (next_major_frame prv + runtime e0 - now))
    by (unfold in_s64, INT64_MIN, INT64_MAX in *; lia).
  assert (Hle : (next_major_frame prv + runtime e0 - now <=? 0) = true)
    by (apply Z.leb_le; lia).
  rewrite Hle. reflexivity.
Qed.

(** A call that arrives a whole major frame or more after the pending
    boundary stops at [BUG_ON(now >= sched_priv->next_major_frame)]: the
    new frame end is computed from the old one, not from [now]. *)
Lemma do_schedule_missed_frame_bug (H : host) prv st now tasklet e0 :
  1 <= num_schedule_entries prv ->
  schedule prv !! 0%nat = Some e0 ->
  0 <= next_major_frame prv -> 0 < major_frame prv ->
  next_major_frame prv + major_frame prv <= now -> now <= INT64_MAX ->
  a653sched_do_schedule H prv st now tasklet
  = Fault BUG_ON_missed_major_frame.
Proof.
  intros Hn He0 Hnmf Hmf Hlate Hmax.
  unfold a653sched_do_schedule, do_schedule_select.
  assert (Hne : (num_schedule_entries prv <? 1) = false)
    by (apply Z.ltb_ge; lia).
  rewrite Hne, (geb_true now (next_major_frame prv)), He0 by lia.
  unfold do_schedule_finish, set_next_major_frame.
  cbn [sched_index next_switch_time num_schedule_entries next_major_frame].
  match goal with
  | |- context [if can_run H ?nt then _ else Some ?i] =>
      destruct (runnable_or_idle H nt i) as [v ->]
  end.
  rewrite wrap_s64_id by (unfold in_s64, INT64_MIN, INT64_MAX in *; lia).
  rewrite geb_true by lia. reflexivity.
Qed.

(** C4. The dispatcher can fail.  With S1 installed at time 0 (30 ms
    major frame, first entry 10 ms), a first call at [now] = 12 ms starts
    the frame at the stored time 0, so that the first switch time, 10 ms,
    is already past: the slice is -2 ms and the call stops at
    [BUG_ON(ret.time <= 0)] instead of returning a task. *)
Theorem do_schedule_fails_when_late :
  fst (demo_set demo_with_guests schedule_S1 0) = 0 /\
  next_major_frame demo_S1_installed = 0 /\
  a653sched_do_schedule demo_host demo_S1_installed statics_init
    (MILLISECS 12) false
  = Fault BUG_ON_nonpositive_time.
Proof.
  repeat split; vm_compute; reflexivity.
Qed.

(** A second way for a call not to return: the cached [entry] pointer
    is null until a boundary call has set it.  A call on the empty
    timetable at time 0 sets [next_major_frame] to 10 ms; VCPU 3 of
    domain 0 then joins, which creates entry 0; the call at 4 ms takes the
    minor-frame branch, skips the loop and hands the null pointer to
    [providers_candidate]. *)
Lemma do_schedule_null_entry_after_first_insert :
  exists r prv1 st1 prv2,
    a653sched_do_schedule demo_host demo_init statics_init 0 false
    = Done (r, prv1, st1) /\
    entry st1 = None /\
    demo_insert prv1 3%nat = Done prv2 /\
    num_schedule_entries prv2 = 1 /\
    a653sched_do_schedule demo_host prv2 st1 (MILLISECS 4) false
    = Fault null_dereference.
Proof.
  do 4 eexists.
  split; [vm_compute; reflexivity|].
  split; [reflexivity|].
  split; [vm_compute; reflexivity|].
  split; vm_compute; reflexivity.
Qed.

(** C5. The check [now < next_major_frame] fails for a late call.  With
    S1 installed at time 0 ([next_major_frame] = 0, major frame 30 ms), a
    call at [now] = 35 ms, more than one major frame after the pending
    boundary, moves [next_major_frame] to 30 ms and stops at
    [BUG_ON(now >= sched_priv->next_major_frame)]. *)
Theorem do_schedule_misses_major_frame :
  num_schedule_entries demo_S1_installed = 2 /\
  next_major_frame demo_S1_installed = 0 /\
  major_frame demo_S1_installed = MILLISECS 30 /\
  (exists prv' st' cand,
      do_schedule_select demo_host demo_S1_installed statics_init
        (MILLISECS 35)
      = Done (prv', st', cand) /\
      next_major_frame prv' = MILLISECS 30) /\
  a653sched_do_schedule demo_host demo_S1_installed statics_init
    (MILLISECS 35) false
  = Fault BUG_ON_missed_major_frame.
Proof.
  split; [vm_compute; reflexivity|].
  split; [vm_compute; reflexivity|].
  split; [vm_compute; reflexivity|].
  split; [|vm_compute; reflexivity].
  do 3 eexists. split; vm_compute; reflexivity.
Qed.

(** ** Inserting a VCPU of domain 0 *)

(** The entry written for a VCPU of domain 0 that finds a free slot: the
    runtime and provider count are set, the major frame grows by the
    default slice, and the provider keeps the slot's old handle with its
    first byte cleared; its reference is what the registry lookup finds
    for that handle. *)
Lemma insert_dom0_vcpu_entry max_s (H : host) prv v svc e p :
  is_idle_vcpu H v = false ->
  domain_domain_id H (vcpu_domain H v) = 0 ->
  vcpu_sched_priv H v = Some svc ->
  0 <= num_schedule_entries prv < max_s ->
  schedule prv !! Z.to_nat (num_schedule_entries prv) = Some e ->
  providers e !! 0%nat = Some p ->
  exists prv' e',
    a653sched_insert_vcpu max_s H prv v = Done prv' /\
    num_schedule_entries prv' = num_schedule_entries prv + 1 /\
    major_frame prv' = wrap_s64 (major_frame prv + DEFAULT_TIMESLICE) /\
    next_major_frame prv' = next_major_frame prv /\
    vcpu_list prv' = svc :: vcpu_list prv /\
    schedule prv' !! Z.to_nat (num_schedule_entries prv) = Some e' /\
    service_id e' = service_id e /\
    runtime e' = DEFAULT_TIMESLICE /\
    num_providers e' = 1 /\
    providers e' !! 0%nat =
    Some (mk_provider (<[0%nat := 0]> (dom_handle p)) (vcpu_vcpu_id H v)
            (find_vcpu_in H (svc :: vcpu_list prv)
                          (<[0%nat := 0]> (dom_handle p))
                          (vcpu_vcpu_id H v))).
Proof.
  intros Hidle Hdom Hsvc Hn He Hp.
  unfold a653sched_insert_vcpu.
  rewrite Hidle, Hdom, Hsvc. simpl (0 =? 0).
  assert (Hfree : (num_schedule_entries prv <? max_s) = true)
    by (apply Z.ltb_lt; lia).
  rewrite Hfree. cbn iota.
  eexists.
  exists (resolve_entry H (mk_priv [] 0 0 0 (svc :: vcpu_list prv))
                        (dom0_entry H v e)).
  split; [reflexivity|].
  unfold update_schedule_vcpus.
  cbn [schedule num_schedule_entries major_frame next_major_frame vcpu_list].
  do 4 (split; [reflexivity|]).
  split.
  { rewrite (for_first_lookup_lt _ _ _ _ (dom0_entry H v e)).
    - reflexivity.
    - lia.
    - rewrite list_lookup_alter_eq, He. reflexivity. }
  do 3 (split; [reflexivity|]).
  unfold resolve_entry, dom0_entry. cbn [providers num_providers].
  rewrite (for_first_lookup_lt _ _ _ 0%nat
             (mk_provider (<[0%nat := 0]> (dom_handle p))
                          (vcpu_vcpu_id H v) (Some v))).
  - reflexivity.
  - lia.
  - rewrite list_lookup_alter_eq, Hp. reflexivity.
Qed.

(** Scenario 4 of the specification: two VCPUs of domain 0 joining a
    freshly initialised instance give two 10 ms entries with the all-zero
    handle, resolved to the two VCPUs, and a 20 ms major frame. *)
Lemma two_dom0_vcpus_on_fresh_instance :
  exists p1 p2 e0 e1,
    demo_insert demo_init 3%nat = Done p1 /\
    demo_insert p1 4%nat = Done p2 /\
    num_schedule_entries p2 = 2 /\
    major_frame p2 = MILLISECS 20 /\
    schedule p2 !! 0%nat = Some e0 /\
    schedule p2 !! 1%nat = Some e1 /\
    runtime e0 = MILLISECS 10 /\ runtime e1 = MILLISECS 10 /\
    num_providers e0 = 1 /\ num_providers e1 = 1 /\
    providers e0 !! 0%nat = Some (mk_provider zero_handle 0 (Some 3%nat)) /\
    providers e1 !! 0%nat = Some (mk_provider zero_handle 1 (Some 4%nat)).
Proof.
  do 4 eexists.
  split; [vm_compute; reflexivity|].
  split; [vm_compute; reflexivity|].
  repeat split; vm_compute; reflexivity.
Qed.

(** C7. The entry appended for a VCPU of domain 0 need not carry the
    all-zero handle nor the inserted VCPU as its reference.  S1 is
    installed and then replaced by a one-entry schedule, which leaves the
    old entry for D2 in slot 1.  VCPU 3 of domain 0 (whose handle is all
    zero) is then inserted: the new entry 1 has runtime 10 ms and one
    provider, and the major frame grows from 10 ms to 20 ms, but only
    byte 0 of the handle is cleared, the other fifteen bytes are those of
    D2's handle, and the reference resolves to null. *)
Theorem insert_dom0_vcpu_keeps_stale_handle :
  fst (demo_set demo_with_guests schedule_S1 0) = 0 /\
  fst (demo_set demo_S1_installed schedule_D1_only (MILLISECS 40)) = 0 /\
  num_schedule_entries demo_D1_only_installed = 1 /\
  domain_domain_id demo_host (vcpu_domain demo_host 3%nat) = 0 /\
  domain_handle demo_host (vcpu_domain demo_host 3%nat) = zero_handle /\
  exists prv' e1,
    demo_insert demo_D1_only_installed 3%nat = Done prv' /\
    num_schedule_entries prv' = 2 /\
    major_frame prv' = MILLISECS 20 /\
    schedule prv' !! 1%nat = Some e1 /\
    runtime e1 = DEFAULT_TIMESLICE /\
    num_providers e1 = 1 /\
    providers e1 !! 0%nat =
    Some (mk_provider (0 :: replicate 15 34) 0 None) /\
    (0 :: replicate 15 34) <> zero_handle.
Proof.
  split; [vm_compute; reflexivity|].
  split; [vm_compute; reflexivity|].
  split; [vm_compute; reflexivity|].
  split; [vm_compute; reflexivity|].
  split; [vm_compute; reflexivity|].
  do 2 eexists.
  split; [vm_compute; reflexivity|].
  repeat split; try (vm_compute; reflexivity).
  vm_compute. discriminate.
Qed.

(** ** The per-domain adjust operation *)

(** C9. For a command other than PUTINFO and GETINFO the per-domain
    adjust operation returns 0, which is success and not [-EINVAL], and
    changes neither the host nor the operation structure. *)
Theorem adjust_domain_unknown_command_succeeds
    (H : host) (d : domain_ptr) (c : Z) (payload : Domctl.sched_arinc653) :
  a653sched_adjust_domain H d (Domctl.mk_op (SCHEDOP_other c) payload)
  = Done (0, H, Domctl.mk_op (SCHEDOP_other c) payload)
  /\ 0 <> - EINVAL.
Proof.
  split; [reflexivity | discriminate].
Qed.

(** The global adjust operation, for comparison, answers an unknown
    command with [-EINVAL]. *)
Lemma adjust_global_unknown_command_invalid
    max_s max_d (H : host) prv (c : Z) from_guest to_guest_ok t :
  a653sched_adjust_global max_s max_d H prv (SCHEDOP_other c)
                          from_guest to_guest_ok t
  = (- EINVAL, prv, None).
Proof. reflexivity. Qed.

(** ** The theorems at work on the small system *)

Lemma do_schedule_empty_timetable_witness :
  num_schedule_entries demo_init < 1 /\
  0 <= sched_index statics_init /\
  0 <= MILLISECS 5 /\
  MILLISECS 5 + DEFAULT_TIMESLICE <= INT64_MAX /\
  a653sched_do_schedule demo_host demo_init statics_init (MILLISECS 5) true =
  Done (mk_task_slice (Some 0%nat) DEFAULT_TIMESLICE false,
        set_next_major_frame demo_init (MILLISECS 15),
        mk_statics 0 (MILLISECS 15) None).
Proof.
  assert (H1 : num_schedule_entries demo_init < 1) by by_evaluation.
  assert (H2 : 0 <= sched_index statics_init) by by_evaluation.
  assert (H3 : 0 <= MILLISECS 5) by by_evaluation.
  assert (H4 : MILLISECS 5 + DEFAULT_TIMESLICE <= INT64_MAX) by by_evaluation.
  repeat (split; [assumption|]).
  exact (do_schedule_empty_timetable demo_host demo_init statics_init
           (MILLISECS 5) true H1 H2 H3 H4).
Defined.

Lemma immediate_takeover_witness :
  wf_priv demo_max_services demo_max_domains demo_with_guests = true /\
  wf_sysctl demo_max_services demo_max_domains schedule_S1 = true /\
  demo_set demo_with_guests schedule_S1 0 = (0, demo_S1_installed) /\
  0 <= 0 /\
  0 + Sysctl.major_frame schedule_S1 <= INT64_MAX /\
  0 < MILLISECS 5 /\
  exists s0 e0,
    Sysctl.sched_entries schedule_S1 !! 0%nat = Some s0 /\
    schedule demo_S1_installed !! 0%nat = Some e0 /\
    service_id e0 = Sysctl.service_id s0 /\
    runtime e0 = Sysctl.runtime s0 /\
    num_providers e0 = Sysctl.num_providers s0 /\
    (forall (j : nat) sp,
        (j < Z.to_nat (Sysctl.num_providers s0))%nat ->
        Sysctl.service_providers s0 !! j = Some sp ->
        providers e0 !! j =
        Some (mk_provider (Sysctl.dom_handle sp) (Sysctl.vcpu_id sp)
                (find_vcpu demo_host demo_S1_installed
                           (Sysctl.dom_handle sp) (Sysctl.vcpu_id sp)))) /\
    do_schedule_select demo_host demo_S1_installed demo_in_entry_1
                       (MILLISECS 5) =
    Done (set_next_major_frame demo_S1_installed
            (0 + Sysctl.major_frame schedule_S1),
          mk_statics 0 (wrap_s64 (0 + Sysctl.runtime s0)) (Some 0%nat),
          providers_candidate demo_host e0) /\
    (MILLISECS 5 < 0 + Sysctl.runtime s0 <= INT64_MAX ->
     MILLISECS 5 < 0 + Sysctl.major_frame schedule_S1 ->
     exists r,
       a653sched_do_schedule demo_host demo_S1_installed demo_in_entry_1
                             (MILLISECS 5) false =
       Done (r,
             set_next_major_frame demo_S1_installed
               (0 + Sysctl.major_frame schedule_S1),
             mk_statics 0 (0 + Sysctl.runtime s0) (Some 0%nat)) /\
       time r = 0 + Sysctl.runtime s0 - MILLISECS 5 /\
       migrated r = false /\
       exists v, task r = Some v).
Proof.
  assert (H1 : wf_priv demo_max_services demo_max_domains demo_with_guests
               = true) by by_evaluation.
  assert (H2 : wf_sysctl demo_max_services demo_max_domains schedule_S1
               = true) by by_evaluation.
  assert (H3 : arinc653_sched_set demo_max_services demo_max_domains
                 demo_host demo_with_guests schedule_S1 0
               = (0, demo_S1_installed)) by by_evaluation.
  assert (H4 : 0 <= 0) by by_evaluation.
  assert (H5 : 0 + Sysctl.major_frame schedule_S1 <= INT64_MAX)
    by by_evaluation.
  assert (H6 : 0 < MILLISECS 5) by by_evaluation.
  repeat (split; [assumption|]).
  exact (immediate_takeover demo_max_services demo_max_domains demo_host
           demo_with_guests schedule_S1 0 demo_S1_installed demo_in_entry_1
           (MILLISECS 5) false H1 H2 H3 H4 H5 H6).
Defined.

Lemma minor_frame_advance_past_last_entry_witness :
  0 <= sched_index demo_in_entry_1 < num_schedule_entries demo_in_frame /\
  num_schedule_entries demo_in_frame
  <= Z.of_nat (length (schedule demo_in_frame)) /\
  positive_runtimes demo_in_frame = true /\
  INT64_MIN <= next_switch_time demo_in_entry_1 /\
  0 <= MILLISECS 22 /\
  MILLISECS 22 < next_major_frame demo_in_frame /\
  next_major_frame demo_in_frame <= INT64_MAX /\
  last_switch_time demo_in_frame demo_in_entry_1 <= MILLISECS 22 /\
  match schedule demo_in_frame
        !! Z.to_nat (num_schedule_entries demo_in_frame) with
  | Some e =>
      do_schedule_select demo_host demo_in_frame demo_in_entry_1
                         (MILLISECS 22) =
      Done (demo_in_frame,
            mk_statics (num_schedule_entries demo_in_frame)
              (wrap_s64 (last_switch_time demo_in_frame demo_in_entry_1
                         + runtime e))
              (Some (Z.to_nat (num_schedule_entries demo_in_frame))),
            providers_candidate demo_host e) /\
      a653sched_do_schedule demo_host demo_in_frame demo_in_entry_1
                            (MILLISECS 22) false =
      Done (mk_task_slice
              (Some (IDLETASK demo_host (smp_processor_id demo_host)))
              (next_major_frame demo_in_frame - MILLISECS 22) false,
            demo_in_frame,
            mk_statics (num_schedule_entries demo_in_frame)
                       (next_major_frame demo_in_frame)
                       (Some (Z.to_nat (num_schedule_entries demo_in_frame))))
  | None =>
      Z.to_nat (num_schedule_entries demo_in_frame)
      = length (schedule demo_in_frame) /\
      do_schedule_select demo_host demo_in_frame demo_in_entry_1
                         (MILLISECS 22)
      = Fault (out_of_bounds (Z.to_nat (num_schedule_entries demo_in_frame)))
      /\
      a653sched_do_schedule demo_host demo_in_frame demo_in_entry_1
                            (MILLISECS 22) false
      = Fault (out_of_bounds (Z.to_nat (num_schedule_entries demo_in_frame)))
  end.
Proof.
  assert (H1 : 0 <= sched_index demo_in_entry_1
               < num_schedule_entries demo_in_frame)
    by (split; by_evaluation).
  assert (H2 : num_schedule_entries demo_in_frame
               <= Z.of_nat (length (schedule demo_in_frame)))
    by by_evaluation.
  assert (H3 : positive_runtimes demo_in_frame = true) by by_evaluation.
  assert (H4 : INT64_MIN <= next_switch_time demo_in_entry_1)
    by by_evaluation.
  assert (H5 : 0 <= MILLISECS 22) by by_evaluation.
  assert (H6 : MILLISECS 22 < next_major_frame demo_in_frame)
    by by_evaluation.
  assert (H7 : next_major_frame demo_in_frame <= INT64_MAX) by by_evaluation.
  assert (H8 : last_switch_time demo_in_frame demo_in_entry_1
               <= MILLISECS 22) by by_evaluation.
  repeat (split; [assumption|]).
  exact (minor_frame_advance_past_last_entry demo_host demo_in_frame
           demo_in_entry_1 (MILLISECS 22) false H1 H2 H3 H4 H5 H6 H7 H8).
Defined.

(** On the small system the slot read past the last entry is the unused
    slot 2: the selector finds nothing there and the idle VCPU runs for the
    8 ms left in the frame. *)
Lemma advance_reads_unused_slot :
  num_schedule_entries demo_in_frame = 2 /\
  do_schedule_select demo_host demo_in_frame demo_in_entry_1 (MILLISECS 22)
  = Done (demo_in_frame, mk_statics 2 (MILLISECS 20) (Some 2%nat), None) /\
  a653sched_do_schedule demo_host demo_in_frame demo_in_entry_1
                        (MILLISECS 22) false
  = Done (mk_task_slice (Some 0%nat) (MILLISECS 8) false, demo_in_frame,
          mk_statics 2 (MILLISECS 30) (Some 2%nat)).
Proof.
  repeat split; vm_compute; reflexivity.
Qed.

(** With an array of exactly two slots, both in use, the same call reads
    [schedule[2]], which lies past the end of the array. *)
Lemma advance_reads_past_full_array :
  num_schedule_entries demo_full_in_frame = 2 /\
  length (schedule demo_full_in_frame) = 2%nat /\
  a653sched_do_schedule demo_host demo_full_in_frame demo_in_entry_1
                        (MILLISECS 22) false
  = Fault (out_of_bounds 2).
Proof.
  repeat split; vm_compute; reflexivity.
Qed.

(** ** The loop's bound and the scenarios of the specification *)

(** The number of turns given to [advance_loop] is enough: when it
    returns, the condition of the [while] is false. *)
Lemma advance_loop_exit (fuel : nat) prv now st st' :
  (Z.to_nat (num_schedule_entries prv - sched_index st) <= fuel)%nat ->
  advance_loop fuel prv now st = Done st' ->
  (now >=? next_switch_time st')
  && (sched_index st' <? num_schedule_entries prv) = false.
Proof.
  revert st. induction fuel as [|fuel IH]; intros st Hfuel Hloop.
  - simpl in Hloop.
    destruct ((now >=? next_switch_time st)
              && (sched_index st <? num_schedule_entries prv)) eqn:Hc;
      injection Hloop as <-; [|exact Hc].
    apply andb_true_iff in Hc as [_ Hc]. apply Z.ltb_lt in Hc. lia.
  - simpl in Hloop.
    destruct ((now >=? next_switch_time st)
              && (sched_index st <? num_schedule_entries prv)) eqn:Hc.
    + destruct (schedule prv !! Z.to_nat (sched_index st + 1)) as [e|];
        [|discriminate].
      apply IH in Hloop; [exact Hloop|]. simpl.
      apply andb_true_iff in Hc as [_ Hc]. apply Z.ltb_lt in Hc. lia.
    + injection Hloop as <-. exact Hc.
Qed.

(** Scenario 1: S1 installed at time 0; calls at 0, 5, 10, 15, 20 and
    25 ms run D1, D1, D2, D2, idle, idle, and the cycle restarts at
    30 ms. *)
Lemma scenario_1_trace :
  dispatch_trace demo_host demo_S1_installed statics_init
                 [0; 5; 10; 15; 20; 25; 30] =
  [Done (Some 1%nat, MILLISECS 10); Done (Some 1%nat, MILLISECS 5);
   Done (Some 2%nat, MILLISECS 10); Done (Some 2%nat, MILLISECS 5);
   Done (Some 0%nat, MILLISECS 10); Done (Some 0%nat, MILLISECS 5);
   Done (Some 1%nat, MILLISECS 10)].
Proof. vm_compute. reflexivity. Qed.

(** Scenario 2, the part after D2 has been marked unhealthy: its slot
    goes to the idle VCPU. *)
Lemma scenario_2_unhealthy_provider :
  a653sched_adjust_domain demo_host 2%nat
    (Domctl.mk_op SCHEDOP_putinfo (Domctl.mk_arinc653 (-1) false))
  = Done (0, demo_host_D2_unhealthy,
          Domctl.mk_op SCHEDOP_putinfo (Domctl.mk_arinc653 (-1) false)) /\
  dispatch_trace demo_host_D2_unhealthy demo_in_frame
                 (mk_statics 0 (MILLISECS 10) (Some 0%nat))
                 [15; 20; 25] =
  [Done (Some 0%nat, MILLISECS 5); Done (Some 0%nat, MILLISECS 10);
   Done (Some 0%nat, MILLISECS 5)].
Proof. split; vm_compute; reflexivity. Qed.

(** * Further properties of the code *)

(** ** More facts about the array loops *)

Lemma for_first_lookup_inv {A} (n : nat) (f : A -> A) (l : list A) i x :
  (i < n)%nat -> for_first n f l !! i = Some x ->
  exists y, l !! i = Some y /\ x = f y.
Proof.
  intros Hi Hx.
  assert (Hlen : (i < length l)%nat).
  { rewrite <- (for_first_length n f l). eapply lookup_lt_Some. exact Hx. }
  destruct (lookup_lt_is_Some_2 l i Hlen) as [y Hy].
  exists y. split; [exact Hy|].
  rewrite (for_first_lookup_lt n f l i y Hi Hy) in Hx. congruence.
Qed.

Lemma for_first_compose {A} (n : nat) (f g : A -> A) (l : list A) :
  for_first n f (for_first n g l) = for_first n (fun x => f (g x)) l.
Proof.
  revert l. induction n as [|n IH]; intros [|x l]; simpl; try reflexivity.
  rewrite IH. reflexivity.
Qed.

Lemma for_first_ext {A} (n : nat) (f g : A -> A) (l : list A) :
  (forall x, f x = g x) -> for_first n f l = for_first n g l.
Proof.
  intros Hfg. revert l.
  induction n as [|n IH]; intros [|x l]; simpl; try reflexivity.
  rewrite Hfg, IH. reflexivity.
Qed.


(** ** The registry lookup *)

Lemma find_vcpu_in_first (H : host) (l : list avcpu_ptr)
    (handle : xen_domain_handle_t) (id : Z) :
  match find_vcpu_in H l handle id with
  | Some v =>
      exists (k : nat) a,
        l !! k = Some a /\ avcpu_vc H a = v /\
        registry_match H a handle id = true /\
        forall (k' : nat) b, (k' < k)%nat -> l !! k' = Some b ->
                             registry_match H b handle id = false
  | None =>
      forall (k : nat) b, l !! k = Some b ->
                          registry_match H b handle id = false
  end.
Proof.
  induction l as [|a rest IH].
  - simpl. intros k b Hb. destruct k; discriminate.
  - simpl. fold (registry_match H a handle id).
    destruct (registry_match H a handle id) eqn:Hm.
    + exists 0%nat, a. repeat split; auto. intros k' b Hk'. lia.
    + destruct (find_vcpu_in H rest handle id) as [v|].
      * destruct IH as (k & b & Hk & Hv & Hb & Hbefore).
        exists (S k), b. repeat split; auto.
        intros [|k'] c Hk' Hc; simpl in Hc.
        -- congruence.
        -- apply (Hbefore k'); [lia | exact Hc].
      * intros [|k] b Hb; simpl in Hb.
        -- congruence.
        -- apply (IH k). exact Hb.
Qed.

(** X1. [find_vcpu] returns the VCPU of the first registry record, in
    list order (most recently inserted first), whose domain handle
    compares equal to the given handle and whose VCPU number is the given
    one; it returns null exactly when no record matches. *)
Theorem find_vcpu_first_match (H : host) (prv : a653sched_priv_t)
    (handle : xen_domain_handle_t) (id : Z) :
  match find_vcpu H prv handle id with
  | Some v =>
      exists (k : nat) a,
        vcpu_list prv !! k = Some a /\ avcpu_vc H a = v /\
        registry_match H a handle id = true /\
        forall (k' : nat) b, (k' < k)%nat -> vcpu_list prv !! k' = Some b ->
                             registry_match H b handle id = false
  | None =>
      forall (k : nat) b, vcpu_list prv !! k = Some b ->
                          registry_match H b handle id = false
  end.
Proof. unfold find_vcpu. apply find_vcpu_in_first. Qed.

(** ** References after a registry rescan *)

Lemma update_references_live (H : host) (prv : a653sched_priv_t) :
  references_live H (update_schedule_vcpus H prv).
Proof.
  intros i j e p Hi He Hj Hp. simpl in *.
  apply for_first_lookup_inv in He as (e0 & He0 & ->); [|exact Hi].
  simpl in Hj, Hp.
  apply for_first_lookup_inv in Hp as (p0 & Hp0 & ->); [|exact Hj].
  simpl. unfold find_vcpu.
  pose proof (find_vcpu_in_first H (vcpu_list prv) (dom_handle p0)
                (vcpu_id p0)) as Hfind.
  destruct (find_vcpu_in H (vcpu_list prv) (dom_handle p0) (vcpu_id p0)).
  - destruct Hfind as (k & a & Hk & Hv & Hm & _). eauto.
  - exact Hfind.
Qed.

Lemma references_live_same_tables (H : host) prv prv' :
  schedule prv' = schedule prv ->
  num_schedule_entries prv' = num_schedule_entries prv ->
  vcpu_list prv' = vcpu_list prv ->
  references_live H prv -> references_live H prv'.
Proof.
  unfold references_live. intros -> -> -> Hlive. exact Hlive.
Qed.

(** X2. After each operation that rescans the registry (a successful
    schedule install, a VCPU insertion, a VCPU removal) every reference in
    a valid provider slot is up to date: non-null references are VCPUs of
    registry records matching the slot's handle and VCPU number, and a
    null reference means no record matches. *)
Theorem registry_operations_resolve_references
    max_s max_d (H : host) prv prv' s t v :
  arinc653_sched_set max_s max_d H prv s t = (0, prv') \/
  a653sched_insert_vcpu max_s H prv v = Done prv' \/
  a653sched_remove_vcpu H prv v = Done prv' ->
  references_live H prv'.
Proof.
  intros [Hset | [Hins | Hrem]].
  - apply sched_set_success in Hset as (_ & _ & _ & _ & ->).
    eapply references_live_same_tables;
      [| | | apply (update_references_live H
                      (mk_priv (for_first2
                                  (Z.to_nat (Sysctl.num_sched_entries s))
                                  copy_entry (schedule prv)
                                  (Sysctl.sched_entries s))
                               (Sysctl.num_sched_entries s)
                               (Sysctl.major_frame s)
                               (next_major_frame prv) (vcpu_list prv)))];
      reflexivity.
  - unfold a653sched_insert_vcpu in Hins.
    destruct (is_idle_vcpu H v); [discriminate|].
    destruct (vcpu_sched_priv H v); [|discriminate].
    injection Hins as <-. apply update_references_live.
  - unfold a653sched_remove_vcpu in Hrem.
    destruct (is_idle_vcpu H v); [discriminate|].
    destruct (vcpu_sched_priv H v); [|discriminate].
    injection Hrem as <-. apply update_references_live.
Qed.

Lemma registry_operations_resolve_references_witness :
  (arinc653_sched_set demo_max_services demo_max_domains demo_host
     demo_with_guests schedule_S1 0 = (0, demo_S1_installed) \/
   a653sched_insert_vcpu demo_max_services demo_host demo_with_guests 3%nat
   = Done demo_S1_installed \/
   a653sched_remove_vcpu demo_host demo_with_guests 3%nat
   = Done demo_S1_installed) /\
  references_live demo_host demo_S1_installed.
Proof.
  assert (H1 : arinc653_sched_set demo_max_services demo_max_domains
                 demo_host demo_with_guests schedule_S1 0
               = (0, demo_S1_installed)) by by_evaluation.
  split; [left; exact H1|].
  exact (registry_operations_resolve_references demo_max_services
           demo_max_domains demo_host demo_with_guests demo_S1_installed
           schedule_S1 0 3%nat (or_introl H1)).
Defined.

Lemma resolve_provider_again (H : host) prv prv' p :
  vcpu_list prv' = vcpu_list prv ->
  resolve_provider H prv' (resolve_provider H prv p) = resolve_provider H prv p.
Proof.
  intros Hl. unfold resolve_provider, find_vcpu. simpl. rewrite Hl.
  reflexivity.
Qed.

Lemma resolve_entry_again (H : host) prv prv' e :
  vcpu_list prv' = vcpu_list prv ->
  resolve_entry H prv' (resolve_entry H prv e) = resolve_entry H prv e.
Proof.
  intros Hl. unfold resolve_entry. simpl. f_equal.
  rewrite for_first_compose. apply for_first_ext.
  intros p. apply resolve_provider_again. exact Hl.
Qed.

(** X3. Rescanning the registry twice is the same as rescanning it
    once. *)
Theorem update_schedule_vcpus_idempotent (H : host) prv :
  update_schedule_vcpus H (update_schedule_vcpus H prv)
  = update_schedule_vcpus H prv.
Proof.
  unfold update_schedule_vcpus at 1. simpl.
  rewrite for_first_compose.
  rewrite (for_first_ext _ _ (resolve_entry H prv)); [reflexivity|].
  intros e. apply resolve_entry_again. reflexivity.
Qed.

(** ** Insertion and removal of VCPUs *)




Lemma resolve_entry_same_list (H : host) prv prv' e :
  vcpu_list prv' = vcpu_list prv ->
  resolve_entry H prv' e = resolve_entry H prv e.
Proof.
  intros Hl. unfold resolve_entry. f_equal. apply for_first_ext.
  intros p. unfold resolve_provider, find_vcpu. rewrite Hl. reflexivity.
Qed.

Lemma resolve_entry_over (H : host) prv prv' e :
  resolve_entry H prv' (resolve_entry H prv e) = resolve_entry H prv' e.
Proof.
  unfold resolve_entry. simpl. f_equal.
  rewrite for_first_compose. apply for_first_ext. reflexivity.
Qed.

Lemma insert_vcpu_without_slot_result max_s (H : host) prv v svc :
  is_idle_vcpu H v = false ->
  vcpu_sched_priv H v = Some svc ->
  domain_domain_id H (vcpu_domain H v) <> 0
  \/ max_s <= num_schedule_entries prv ->
  a653sched_insert_vcpu max_s H prv v =
  Done (update_schedule_vcpus H
          (mk_priv (schedule prv) (num_schedule_entries prv)
                   (major_frame prv) (next_major_frame prv)
                   (svc :: vcpu_list prv))).
Proof.
  intros Hidle Hsvc Hno. unfold a653sched_insert_vcpu.
  rewrite Hidle, Hsvc.
  destruct (Z.eqb_spec (domain_domain_id H (vcpu_domain H v)) 0) as [H0|H0];
    [|reflexivity].
  destruct (Z.ltb_spec (num_schedule_entries prv) max_s); [lia|reflexivity].
Qed.



Lemma memcmp_refl (n : nat) (a : list Z) : memcmp a a n = 0.
Proof.
  revert a. induction n as [|n IH]; intros [|x a]; simpl; try reflexivity.
  rewrite Z.eqb_refl. apply IH.
Qed.

Lemma insert_vcpu_result max_s (H : host) prv v svc prv' :
  a653sched_insert_vcpu max_s H prv v = Done prv' ->
  vcpu_sched_priv H v = Some svc ->
  exists sched n mf,
    prv' = update_schedule_vcpus H
             (mk_priv sched n mf (next_major_frame prv)
                      (svc :: vcpu_list prv)).
Proof.
  intros Hins Hsvc. unfold a653sched_insert_vcpu in Hins.
  destruct (is_idle_vcpu H v); [discriminate|].
  rewrite Hsvc in Hins. injection Hins as <-.
  destruct (domain_domain_id H (vcpu_domain H v) =? 0);
    [destruct (num_schedule_entries prv <? max_s)|];
    do 3 eexists; reflexivity.
Qed.

(** X5. Insert, then look up: once a VCPU is inserted (its record
    pointing back at it), every valid provider slot that names the VCPU's
    domain handle and VCPU number refers to that VCPU; the newest record
    shadows any older record with the same handle and number. *)
Theorem insert_vcpu_resolves_its_slots max_s (H : host) prv v svc prv' :
  a653sched_insert_vcpu max_s H prv v = Done prv' ->
  vcpu_sched_priv H v = Some svc ->
  avcpu_vc H svc = v ->
  forall (i j : nat) e p,
    (i < Z.to_nat (num_schedule_entries prv'))%nat ->
    schedule prv' !! i = Some e ->
    (j < Z.to_nat (num_providers e))%nat ->
    providers e !! j = Some p ->
    dom_handle p = domain_handle H (vcpu_domain H v) ->
    vcpu_id p = vcpu_vcpu_id H v ->
    vc p = Some v.
Proof.
  intros Hins Hsvc Hvc i j e p Hi He Hj Hp Hh Hid.
  destruct (insert_vcpu_result _ _ _ _ _ _ Hins Hsvc)
    as (sched & n & mf & ->).
  simpl in Hi, He.
  apply for_first_lookup_inv in He as (e0 & He0 & ->); [|exact Hi].
  simpl in Hj, Hp.
  apply for_first_lookup_inv in Hp as (p0 & Hp0 & ->); [|exact Hj].
  simpl in Hh, Hid. simpl. unfold find_vcpu. simpl.
  rewrite Hvc, Hh, Hid. unfold dom_handle_cmp.
  rewrite memcmp_refl, !Z.eqb_refl. reflexivity.
Qed.

Lemma insert_vcpu_resolves_its_slots_witness :
  a653sched_insert_vcpu demo_max_services demo_host demo_S1_no_guests 1%nat
  = Done demo_S1_D1_joined /\
  vcpu_sched_priv demo_host 1%nat = Some 1%nat /\
  avcpu_vc demo_host 1%nat = 1%nat /\
  (0 < Z.to_nat (num_schedule_entries demo_S1_D1_joined))%nat /\
  schedule demo_S1_D1_joined !! 0%nat = Some demo_joined_entry_0 /\
  (0 < Z.to_nat (num_providers demo_joined_entry_0))%nat /\
  providers demo_joined_entry_0 !! 0%nat = Some demo_joined_provider_0 /\
  dom_handle demo_joined_provider_0
  = domain_handle demo_host (vcpu_domain demo_host 1%nat) /\
  vcpu_id demo_joined_provider_0 = vcpu_vcpu_id demo_host 1%nat /\
  vc demo_joined_provider_0 = Some 1%nat.
Proof.
  assert (H1 : a653sched_insert_vcpu demo_max_services demo_host
                 demo_S1_no_guests 1%nat = Done demo_S1_D1_joined)
    by by_evaluation.
  assert (H2 : vcpu_sched_priv demo_host 1%nat = Some 1%nat)
    by by_evaluation.
  assert (H3 : avcpu_vc demo_host 1%nat = 1%nat) by by_evaluation.
  assert (H4 : (0 < Z.to_nat (num_schedule_entries demo_S1_D1_joined))%nat)
    by (vm_compute; lia).
  assert (H5 : schedule demo_S1_D1_joined !! 0%nat
               = Some demo_joined_entry_0) by by_evaluation.
  assert (H6 : (0 < Z.to_nat (num_providers demo_joined_entry_0))%nat)
    by (vm_compute; lia).
  assert (H7 : providers demo_joined_entry_0 !! 0%nat
               = Some demo_joined_provider_0) by by_evaluation.
  assert (H8 : dom_handle demo_joined_provider_0
               = domain_handle demo_host (vcpu_domain demo_host 1%nat))
    by by_evaluation.
  assert (H9 : vcpu_id demo_joined_provider_0
               = vcpu_vcpu_id demo_host 1%nat) by by_evaluation.
  repeat (split; [assumption|]).
  exact (insert_vcpu_resolves_its_slots demo_max_services demo_host
           demo_S1_no_guests 1%nat 1%nat demo_S1_D1_joined H1 H2 H3
           0%nat 0%nat demo_joined_entry_0 demo_joined_provider_0
           H4 H5 H6 H7 H8 H9).
Defined.

Lemma remove_vcpu_result (H : host) prv v svc :
  is_idle_vcpu H v = false ->
  vcpu_sched_priv H v = Some svc ->
  a653sched_remove_vcpu H prv v =
  Done (update_schedule_vcpus H
          (mk_priv (schedule prv) (num_schedule_entries prv)
                   (major_frame prv) (next_major_frame prv)
                   (filter (fun a => a <> svc) (vcpu_list prv)))).
Proof.
  intros Hidle Hsvc. unfold a653sched_remove_vcpu.
  rewrite Hidle, Hsvc. reflexivity.
Qed.



Lemma filter_all_different (svc : avcpu_ptr) (l : list avcpu_ptr) :
  (forall (k : nat) a, l !! k = Some a -> a <> svc) ->
  filter (fun a => a <> svc) l = l.
Proof.
  induction l as [|x l IH]; intros Hall; [reflexivity|].
  rewrite filter_cons_True by (apply (Hall 0%nat); reflexivity).
  f_equal. apply IH. intros k a Hk. apply (Hall (S k)). exact Hk.
Qed.

(** X7. Insert, then remove: for a VCPU that gets no timetable slot and
    whose record is not yet in the registry, inserting it and removing it
    again gives back the instance one started from, provided the
    references of that instance were up to date. *)
Theorem insert_then_remove_vcpu max_s (H : host) prv v svc :
  is_idle_vcpu H v = false ->
  vcpu_sched_priv H v = Some svc ->
  domain_domain_id H (vcpu_domain H v) <> 0
  \/ max_s <= num_schedule_entries prv ->
  (forall (k : nat) a, vcpu_list prv !! k = Some a -> a <> svc) ->
  update_schedule_vcpus H prv = prv ->
  exists prv1,
    a653sched_insert_vcpu max_s H prv v = Done prv1 /\
    a653sched_remove_vcpu H prv1 v = Done prv.
Proof.
  intros Hidle Hsvc Hno Hfresh Hupd. eexists.
  split; [apply insert_vcpu_without_slot_result; eassumption|].
  rewrite (remove_vcpu_result H _ v svc Hidle Hsvc). f_equal.
  etransitivity; [|exact Hupd].
  unfold update_schedule_vcpus.
  cbn [schedule num_schedule_entries major_frame next_major_frame vcpu_list].
  rewrite filter_cons_False by (intros Hne; apply Hne; reflexivity).
  rewrite (filter_all_different svc (vcpu_list prv) Hfresh).
  rewrite for_first_compose.
  rewrite (for_first_ext _ _ (resolve_entry H prv)); [reflexivity|].
  intros e. rewrite resolve_entry_over.
  apply resolve_entry_same_list. reflexivity.
Qed.

Lemma insert_then_remove_vcpu_witness :
  is_idle_vcpu demo_host 1%nat = false /\
  vcpu_sched_priv demo_host 1%nat = Some 1%nat /\
  (domain_domain_id demo_host (vcpu_domain demo_host 1%nat) <> 0
   \/ demo_max_services <= num_schedule_entries demo_S1_no_guests) /\
  (forall (k : nat) a,
      vcpu_list demo_S1_no_guests !! k = Some a -> a <> 1%nat) /\
  update_schedule_vcpus demo_host demo_S1_no_guests = demo_S1_no_guests /\
  exists prv1,
    a653sched_insert_vcpu demo_max_services demo_host demo_S1_no_guests
                          1%nat = Done prv1 /\
    a653sched_remove_vcpu demo_host prv1 1%nat = Done demo_S1_no_guests.
Proof.
  assert (H1 : is_idle_vcpu demo_host 1%nat = false) by by_evaluation.
  assert (H2 : vcpu_sched_priv demo_host 1%nat = Some 1%nat)
    by by_evaluation.
  assert (H3 : domain_domain_id demo_host (vcpu_domain demo_host 1%nat) <> 0
               \/ demo_max_services
                  <= num_schedule_entries demo_S1_no_guests)
    by (left; by_evaluation).
  assert (H4 : forall (k : nat) a,
             vcpu_list demo_S1_no_guests !! k = Some a -> a <> 1%nat).
  { intros k a Hk. vm_compute in Hk. destruct k; discriminate. }
  assert (H5 : update_schedule_vcpus demo_host demo_S1_no_guests
               = demo_S1_no_guests) by by_evaluation.
  repeat (split; [assumption|]).
  exact (insert_then_remove_vcpu demo_max_services demo_host
           demo_S1_no_guests 1%nat 1%nat H1 H2 H3 H4 H5).
Defined.

(** ** An invariant of all reachable instances *)

Lemma forallb_lookup {A} (g : A -> bool) (l : list A) :
  forallb g l = true <->
  forall (i : nat) x, l !! i = Some x -> g x = true.
Proof.
  induction l as [|y l IH]; simpl.
  - split; [intros _ i x Hx; destruct i; discriminate | reflexivity].
  - rewrite andb_true_iff, IH. split.
    + intros [Hy Hl] [|i] x Hx; simpl in Hx; [congruence | eauto].
    + intros Hall. split; [apply (Hall 0%nat); reflexivity|].
      intros i x Hx. apply (Hall (S i)). exact Hx.
Qed.

Lemma forallb_for_first {A} (g : A -> bool) (f : A -> A) (n : nat) l :
  (forall x, g (f x) = g x) ->
  forallb g (for_first n f l) = forallb g l.
Proof.
  intros Hgf. revert l.
  induction n as [|n IH]; intros [|x l]; simpl; try reflexivity.
  rewrite Hgf, IH. reflexivity.
Qed.

Lemma forallb_for_first2 {A B} (g : A -> bool) (f : A -> B -> A)
    (n : nat) dst src :
  (forall d s, g (f d s) = g d) ->
  forallb g (for_first2 n f dst src) = forallb g dst.
Proof.
  intros Hgf. revert dst src.
  induction n as [|n IH]; intros [|d dst] [|s src]; simpl; try reflexivity.
  rewrite Hgf, IH. reflexivity.
Qed.

Lemma forallb_take_for_first {A} (g : A -> bool) (f : A -> A)
    (n m : nat) l :
  (forall x, g (f x) = g x) ->
  forallb g (take m (for_first n f l)) = forallb g (take m l).
Proof.
  intros Hgf. revert n m.
  induction l as [|x l IH]; intros [|n] [|m]; simpl; try reflexivity.
  rewrite Hgf, IH. reflexivity.
Qed.

Lemma timetable_inv_same_tables max_s max_d prv prv' :
  schedule prv' = schedule prv ->
  num_schedule_entries prv' = num_schedule_entries prv ->
  timetable_inv max_s max_d prv' = timetable_inv max_s max_d prv.
Proof.
  unfold timetable_inv, wf_priv. intros -> ->. reflexivity.
Qed.

Lemma timetable_inv_update max_s max_d (H : host) prv :
  timetable_inv max_s max_d (update_schedule_vcpus H prv)
  = timetable_inv max_s max_d prv.
Proof.
  unfold timetable_inv, wf_priv, update_schedule_vcpus. simpl.
  rewrite for_first_length.
  rewrite forallb_for_first
    by (intros e; unfold resolve_entry; simpl;
        rewrite for_first_length; reflexivity).
  rewrite forallb_take_for_first by reflexivity.
  reflexivity.
Qed.

Lemma timetable_inv_elim max_s max_d prv :
  timetable_inv max_s max_d prv = true ->
  length (schedule prv) = Z.to_nat max_s /\
  (forall (i : nat) e, schedule prv !! i = Some e ->
                       length (providers e) = Z.to_nat max_d) /\
  0 <= num_schedule_entries prv <= max_s /\
  (forall (i : nat) e,
      (i < Z.to_nat (num_schedule_entries prv))%nat ->
      schedule prv !! i = Some e -> stored_entry_ok max_d e = true).
Proof.
  unfold timetable_inv, wf_priv. intros Hinv.
  apply andb_true_iff in Hinv as [Hinv Hok].
  apply andb_true_iff in Hinv as [Hinv Hmax].
  apply andb_true_iff in Hinv as [Hinv Hmin].
  apply andb_true_iff in Hinv as [Hlen Hprov].
  apply Nat.eqb_eq in Hlen. apply Z.leb_le in Hmin, Hmax.
  split; [exact Hlen|]. split; [|split; [lia|]].
  - intros i e He. apply Nat.eqb_eq.
    exact (proj1 (forallb_lookup _ _) Hprov i e He).
  - intros i e Hi He.
    apply (proj1 (forallb_lookup _ _) Hok i e).
    apply lookup_take_Some. auto.
Qed.

Lemma timetable_inv_intro max_s max_d prv :
  length (schedule prv) = Z.to_nat max_s ->
  (forall (i : nat) e, schedule prv !! i = Some e ->
                       length (providers e) = Z.to_nat max_d) ->
  0 <= num_schedule_entries prv <= max_s ->
  (forall (i : nat) e,
      (i < Z.to_nat (num_schedule_entries prv))%nat ->
      schedule prv !! i = Some e -> stored_entry_ok max_d e = true) ->
  timetable_inv max_s max_d prv = true.
Proof.
  intros Hlen Hprov Hn Hok. unfold timetable_inv, wf_priv.
  repeat (apply andb_true_iff; split).
  - apply Nat.eqb_eq. exact Hlen.
  - apply forallb_lookup. intros i e He. apply Nat.eqb_eq. eauto.
  - apply Z.leb_le. lia.
  - apply Z.leb_le. lia.
  - apply forallb_lookup. intros i e He.
    apply lookup_take_Some in He as [He Hi]. eauto.
Qed.

Lemma timetable_inv_init max_s max_d :
  0 <= max_s ->
  timetable_inv max_s max_d (a653sched_init max_s max_d) = true.
Proof.
  intros Hs. apply timetable_inv_intro; simpl.
  - apply length_replicate.
  - intros i e He. apply lookup_replicate in He as [-> _].
    apply length_replicate.
  - lia.
  - intros i e Hi. lia.
Qed.

Lemma timetable_inv_set max_s max_d (H : host) prv s t :
  timetable_inv max_s max_d prv = true ->
  wf_sysctl max_s max_d s = true ->
  timetable_inv max_s max_d
    (snd (arinc653_sched_set max_s max_d H prv s t)) = true.
Proof.
  intros Hinv Hwfs.
  destruct (Z.eq_dec (fst (arinc653_sched_set max_s max_d H prv s t)) 0)
    as [Hrc|Hrc]; [|rewrite sched_set_fail_unchanged; assumption].
  destruct (arinc653_sched_set max_s max_d H prv s t) as [rc prv'] eqn:Hset.
  simpl in Hrc. subst rc. simpl.
  apply sched_set_success in Hset
    as (Hmf & Hn & Hbad & (total & Htotal & _) & ->).
  set (n := Z.to_nat (Sysctl.num_sched_entries s)) in *.
  set (copied := mk_priv (for_first2 n copy_entry (schedule prv)
                                     (Sysctl.sched_entries s))
                         (Sysctl.num_sched_entries s) (Sysctl.major_frame s)
                         (next_major_frame prv) (vcpu_list prv)).
  rewrite (timetable_inv_same_tables max_s max_d
             (update_schedule_vcpus H copied)) by reflexivity.
  rewrite timetable_inv_update.
  apply timetable_inv_elim in Hinv as (Hlen & Hprov & _ & _).
  apply timetable_inv_intro; simpl.
  - rewrite for_first2_length. exact Hlen.
  - intros i e He.
    apply for_first2_lookup_inv in He
      as (d & Hd & [-> | (src & _ & ->)]).
    + eauto.
    + simpl. rewrite for_first2_length. eauto.
  - lia.
  - intros i e Hi He.
    assert (His : (i < Z.to_nat max_s)%nat) by (subst n; lia).
    destruct (lookup_lt_is_Some_2 (schedule prv) i) as [d Hd]; [lia|].
    destruct (wf_sysctl_slot _ _ _ i Hwfs His) as (si & Hsi & _).
    rewrite (for_first2_lookup_lt _ _ _ _ _ d si Hi Hd Hsi) in He.
    injection He as <-.
    pose proof (existsb_take_false _ _ _ _ _ Hbad Hi Hsi) as Hnp.
    unfold bad_num_providers in Hnp.
    apply orb_false_elim in Hnp as [Hnp1 Hnp2].
    apply Z.ltb_ge in Hnp1. rewrite Z.gtb_ltb in Hnp2.
    apply Z.ltb_ge in Hnp2.
    assert (Hrt : 0 < Sysctl.runtime si).
    { apply (total_runtime_loop_positive _ _ _ i si Htotal).
      apply lookup_take_Some. auto. }
    unfold stored_entry_ok, copy_entry. simpl.
    repeat (apply andb_true_iff; split);
      [apply Z.ltb_lt | apply Z.leb_le | apply Z.leb_le]; lia.
Qed.

Lemma timetable_inv_insert max_s max_d (H : host) prv v prv' :
  1 <= max_d ->
  timetable_inv max_s max_d prv = true ->
  a653sched_insert_vcpu max_s H prv v = Done prv' ->
  timetable_inv max_s max_d prv' = true.
Proof.
  intros Hd Hinv Hins. unfold a653sched_insert_vcpu in Hins.
  destruct (is_idle_vcpu H v); [discriminate|].
  destruct (vcpu_sched_priv H v) as [svc|]; [|discriminate].
  injection Hins as <-.
  rewrite timetable_inv_update.
  destruct (domain_domain_id H (vcpu_domain H v) =? 0);
    [|rewrite <- Hinv; apply timetable_inv_same_tables; reflexivity].
  destruct (Z.ltb_spec (num_schedule_entries prv) max_s) as [Hfree|Hfull];
    [|rewrite <- Hinv; apply timetable_inv_same_tables; reflexivity].
  apply timetable_inv_elim in Hinv as (Hlen & Hprov & Hn & Hok).
  apply timetable_inv_intro; simpl.
  - rewrite length_alter. exact Hlen.
  - intros i e He.
    destruct (Nat.eq_dec (Z.to_nat (num_schedule_entries prv)) i) as [<-|Hne].
    + rewrite list_lookup_alter_eq in He.
      destruct (schedule prv !! Z.to_nat (num_schedule_entries prv))
        as [e0|] eqn:He0; [|discriminate].
      injection He as <-. unfold dom0_entry. simpl.
      rewrite length_alter. eauto.
    + rewrite list_lookup_alter_ne in He by exact Hne. eauto.
  - lia.
  - intros i e Hi He.
    destruct (Nat.eq_dec (Z.to_nat (num_schedule_entries prv)) i) as [<-|Hne].
    + rewrite list_lookup_alter_eq in He.
      destruct (schedule prv !! Z.to_nat (num_schedule_entries prv))
        as [e0|] eqn:He0; [|discriminate].
      injection He as <-. unfold stored_entry_ok, dom0_entry. simpl.
      apply Z.leb_le. lia.
    + rewrite list_lookup_alter_ne in He by exact Hne.
      apply (Hok i e); [lia | exact He].
Qed.

Lemma timetable_inv_remove max_s max_d (H : host) prv v prv' :
  timetable_inv max_s max_d prv = true ->
  a653sched_remove_vcpu H prv v = Done prv' ->
  timetable_inv max_s max_d prv' = true.
Proof.
  intros Hinv Hrem. unfold a653sched_remove_vcpu in Hrem.
  destruct (is_idle_vcpu H v); [discriminate|].
  destruct (vcpu_sched_priv H v) as [svc|]; [|discriminate].
  injection Hrem as <-.
  rewrite timetable_inv_update, <- Hinv.
  apply timetable_inv_same_tables; reflexivity.
Qed.

Lemma do_schedule_select_tables (H : host) prv st now prv1 st1 cand :
  do_schedule_select H prv st now = Done (prv1, st1, cand) ->
  prv1 = set_next_major_frame prv (next_major_frame prv1).
Proof.
  unfold do_schedule_select. intros Hsel.
  destruct (num_schedule_entries prv <? 1).
  { injection Hsel as <- _ _. reflexivity. }
  destruct (now >=? next_major_frame prv).
  { destruct (schedule prv !! 0%nat); [|discriminate].
    injection Hsel as <- _ _. reflexivity. }
  destruct (advance_loop _ prv now st) as [st2|]; [|discriminate].
  destruct (entry st2) as [i|]; [|discriminate].
  destruct (schedule prv !! i); [|discriminate].
  injection Hsel as <- _ _. destruct prv. reflexivity.
Qed.

Lemma do_schedule_finish_tables (H : host) prv st cand now tasklet r prv' st' :
  do_schedule_finish H prv st cand now tasklet = Done (r, prv', st') ->
  prv' = prv.
Proof.
  unfold do_schedule_finish.
  match goal with
  | |- context [if can_run H ?nt then _ else Some ?i] =>
      destruct (runnable_or_idle H nt i) as [v ->]
  end.
  destruct (now >=? next_major_frame prv); [discriminate|].
  match goal with
  | |- context [if ?c then Fault _ else _] => destruct c
  end; [discriminate|].
  intros Hdone. injection Hdone as _ <- _. reflexivity.
Qed.

Lemma do_schedule_tables (H : host) prv st now tasklet r prv' st' :
  a653sched_do_schedule H prv st now tasklet = Done (r, prv', st') ->
  prv' = set_next_major_frame prv (next_major_frame prv').
Proof.
  unfold a653sched_do_schedule. intros Hdo.
  destruct (do_schedule_select H prv st now) as [[[prv1 st1] cand]|] eqn:Hsel;
    [|discriminate].
  apply do_schedule_finish_tables in Hdo. subst prv'.
  eapply do_schedule_select_tables. exact Hsel.
Qed.

(** X8. Every instance reached from [a653sched_init] by installs of
    well-formed control structures, VCPU insertions and removals and
    dispatcher calls keeps its arrays at their declared sizes, its entry
    count between 0 and the number of entry slots, and, in every valid
    entry, a positive runtime and a provider count between 1 and the
    number of provider slots (invariant I2). *)
Theorem reachable_timetable_inv max_s max_d prv :
  0 <= max_s -> 1 <= max_d ->
  reachable max_s max_d prv ->
  timetable_inv max_s max_d prv = true.
Proof.
  intros Hs Hd Hreach.
  induction Hreach as [ | H prv s t _ IH Hwf | H prv v prv' _ IH Hins
                      | H prv v prv' _ IH Hrem
                      | H prv st now tasklet r prv' st' _ IH Hdo ].
  - apply timetable_inv_init. exact Hs.
  - apply timetable_inv_set; assumption.
  - eapply timetable_inv_insert; eassumption.
  - eapply timetable_inv_remove; eassumption.
  - rewrite (do_schedule_tables _ _ _ _ _ _ _ _ Hdo), <- IH.
    apply timetable_inv_same_tables; reflexivity.
Qed.

Lemma reachable_timetable_inv_witness :
  0 <= demo_max_services /\ 1 <= demo_max_domains /\
  reachable demo_max_services demo_max_domains demo_S1_no_guests /\
  timetable_inv demo_max_services demo_max_domains demo_S1_no_guests = true.
Proof.
  assert (H1 : 0 <= demo_max_services) by by_evaluation.
  assert (H2 : 1 <= demo_max_domains) by by_evaluation.
  assert (H3 : reachable demo_max_services demo_max_domains
                         demo_S1_no_guests).
  { apply (reach_set demo_max_services demo_max_domains demo_host
                     demo_init schedule_S1 0).
    - apply reach_init.
    - by_evaluation. }
  repeat (split; [assumption|]).
  exact (reachable_timetable_inv demo_max_services demo_max_domains
           demo_S1_no_guests H1 H2 H3).
Defined.

(** ** What the dispatcher returns and what it leaves alone *)







(** X10. A dispatcher call that returns has changed nothing of the
    instance but [next_major_frame]: the schedule array with its cached
    references, the entry count, the major frame and the registry are the
    ones it was given. *)
Theorem do_schedule_changes_only_next_major_frame
    (H : host) prv st now tasklet r prv' st' :
  a653sched_do_schedule H prv st now tasklet = Done (r, prv', st') ->
  schedule prv' = schedule prv /\
  num_schedule_entries prv' = num_schedule_entries prv /\
  major_frame prv' = major_frame prv /\
  vcpu_list prv' = vcpu_list prv.
Proof.
  intros Hdo. rewrite (do_schedule_tables _ _ _ _ _ _ _ _ Hdo).
  repeat split; reflexivity.
Qed.

Lemma do_schedule_changes_only_next_major_frame_witness :
  a653sched_do_schedule demo_host demo_S1_installed statics_init 0 false
  = Done (mk_task_slice (Some 1%nat) (MILLISECS 10) false, demo_in_frame,
          mk_statics 0 (MILLISECS 10) (Some 0%nat)) /\
  schedule demo_in_frame = schedule demo_S1_installed /\
  num_schedule_entries demo_in_frame
  = num_schedule_entries demo_S1_installed /\
  major_frame demo_in_frame = major_frame demo_S1_installed /\
  vcpu_list demo_in_frame = vcpu_list demo_S1_installed.
Proof.
  assert (H1 : a653sched_do_schedule demo_host demo_S1_installed
                 statics_init 0 false
               = Done (mk_task_slice (Some 1%nat) (MILLISECS 10) false,
                       demo_in_frame,
                       mk_statics 0 (MILLISECS 10) (Some 0%nat)))
    by by_evaluation.
  split; [exact H1|].
  exact (do_schedule_changes_only_next_major_frame demo_host
           demo_S1_installed statics_init 0 false _ _ _ H1).
Defined.

(** ** The entry the dispatcher lands in *)

Lemma advance_loop_stops (fuel : nat) prv now st :
  now < next_switch_time st -> advance_loop fuel prv now st = Done st.
Proof.
  intros Hlt. destruct fuel; simpl;
    rewrite (geb_false now (next_switch_time st)) by lia; reflexivity.
Qed.

Lemma advance_loop_lands (prv : a653sched_priv_t) (now : Z) (k : nat) :
  forall (st : dispatch_statics) (fuel : nat),
    (k <= fuel)%nat ->
    0 <= sched_index st ->
    entry st = Some (Z.to_nat (sched_index st)) ->
    sched_index st + Z.of_nat k < num_schedule_entries prv ->
    num_schedule_entries prv <= Z.of_nat (length (schedule prv)) ->
    positive_runtimes prv = true ->
    INT64_MIN <= next_switch_time st ->
    window_end prv st k <= INT64_MAX ->
    ((0 < k)%nat -> window_end prv st (k - 1) <= now) ->
    now < window_end prv st k ->
    advance_loop fuel prv now st =
    Done (mk_statics (sched_index st + Z.of_nat k) (window_end prv st k)
                     (Some (Z.to_nat (sched_index st + Z.of_nat k)))).
Proof.
  induction k as [|k IH];
    intros st fuel Hfuel Hidx Hentry Hk Hlen Hpos Hmin Hmax Hpast Hnow.
  - unfold window_end in *. simpl in Hnow |- *.
    rewrite advance_loop_stops by lia.
    destruct st as [idx nst ent]. simpl in *. subst ent.
    rewrite !Z.add_0_r. reflexivity.
  - destruct fuel as [|fuel]; [lia|].
    unfold window_end in *.
    set (i := Z.to_nat (sched_index st + 1)) in *.
    assert (Hi : (i < length (schedule prv))%nat) by (subst i; lia).
    destruct (lookup_lt_is_Some_2 _ _ Hi) as [e' He'].
    assert (He'pos : 0 < runtime e').
    { apply (positive_runtimes_slot prv i e' Hpos); [subst i; lia|exact He']. }
    rewrite (drop_S _ _ _ He') in Hmax, Hpast, Hnow |- *.
    simpl take in Hmax, Hnow |- *. simpl sum_runtimes in Hmax, Hnow |- *.
    assert (Hsums : forall m : nat, (m <= k)%nat ->
               0 <= sum_runtimes (take m (drop (S i) (schedule prv)))).
    { intros m Hm. apply sum_runtimes_nonneg, Forall_forall. intros e Hin.
      apply list_elem_of_lookup in Hin as [j Hj].
      apply lookup_take_Some in Hj as [Hj Hjm].
      rewrite lookup_drop in Hj.
      apply (positive_runtimes_slot prv (S i + j) e Hpos); [|exact Hj].
      subst i. lia. }
    assert (Hnst : next_switch_time st <= now).
    { specialize (Hpast ltac:(lia)).
      replace (S k - 1)%nat with k in Hpast by lia.
      destruct k as [|k'].
      - simpl in Hpast. lia.
      - simpl take in Hpast. simpl sum_runtimes in Hpast.
        specialize (Hsums k' ltac:(lia)). lia. }
    change (advance_loop (S fuel) prv now st) with
      (if (now >=? next_switch_time st)
          && (sched_index st <? num_schedule_entries prv)
       then
         match schedule prv !! Z.to_nat (sched_index st + 1) with
         | None => Fault (out_of_bounds (Z.to_nat (sched_index st + 1)))
         | Some e =>
             advance_loop fuel prv now
               (mk_statics (sched_index st + 1)
                  (wrap_s64 (next_switch_time st + runtime e))
                  (Some (Z.to_nat (sched_index st + 1))))
         end
       else Done st).
    rewrite (geb_true now (next_switch_time st)) by lia.
    assert (Hlt : (sched_index st <? num_schedule_entries prv) = true)
      by (apply Z.ltb_lt; lia).
    rewrite Hlt. simpl andb. cbv iota. fold i. rewrite He'.
    pose proof (Hsums k ltac:(lia)) as Hk0.
    rewrite wrap_s64_id by (unfold in_s64, INT64_MIN, INT64_MAX in *; lia).
    rewrite (IH _ fuel); unfold window_end;
      cbn [sched_index next_switch_time entry];
      replace (Z.to_nat (sched_index st + 1 + 1)) with (S i)
        by (subst i; lia);
      try lia; try assumption; try reflexivity.
    + do 2 f_equal; [lia | lia | f_equal; lia].
    + intros Hk'. specialize (Hpast ltac:(lia)).
      replace (S k - 1)%nat with k in Hpast by lia.
      destruct k as [|k']; [lia|].
      simpl take in Hpast. simpl sum_runtimes in Hpast.
      replace (S k' - 1)%nat with k' by lia. lia.
Qed.

(** X11. Inside a major frame the dispatcher visits the entries in
    declared order and lands in the entry whose window holds [now]: if
    the saved state stands at a valid entry (with the cached pointer on
    it) and [now] lies at or after the end of the window [k - 1] places
    on and before the end of the window [k] places on, that entry still
    being valid, then [sched_index] moves on by [k], [next_switch_time]
    becomes the end of that window, the provider is selected from that
    entry, and the call returns the rest of the window as its slice
    ([k] = 0: the call stays in the current entry). *)
Theorem do_schedule_lands_in_window (H : host) prv st now tasklet (k : nat) :
  0 <= sched_index st ->
  entry st = Some (Z.to_nat (sched_index st)) ->
  sched_index st + Z.of_nat k < num_schedule_entries prv ->
  num_schedule_entries prv <= Z.of_nat (length (schedule prv)) ->
  positive_runtimes prv = true ->
  0 <= now -> now < next_major_frame prv ->
  INT64_MIN <= next_switch_time st ->
  window_end prv st k <= INT64_MAX ->
  ((0 < k)%nat -> window_end prv st (k - 1) <= now) ->
  now < window_end prv st k ->
  exists e r,
    schedule prv !! Z.to_nat (sched_index st + Z.of_nat k) = Some e /\
    do_schedule_select H prv st now =
    Done (prv,
          mk_statics (sched_index st + Z.of_nat k) (window_end prv st k)
                     (Some (Z.to_nat (sched_index st + Z.of_nat k))),
          providers_candidate H e) /\
    a653sched_do_schedule H prv st now tasklet =
    Done (r, prv,
          mk_statics (sched_index st + Z.of_nat k) (window_end prv st k)
                     (Some (Z.to_nat (sched_index st + Z.of_nat k)))) /\
    time r = window_end prv st k - now /\
    migrated r = false.
Proof.
  intros Hidx Hentry Hk Hlen Hpos Hnow0 Hframe Hmin Hmax Hpast Hnow.
  destruct (lookup_lt_is_Some_2 (schedule prv)
              (Z.to_nat (sched_index st + Z.of_nat k))) as [e He]; [lia|].
  assert (Hsel :
    do_schedule_select H prv st now =
    Done (prv,
          mk_statics (sched_index st + Z.of_nat k) (window_end prv st k)
                     (Some (Z.to_nat (sched_index st + Z.of_nat k))),
          providers_candidate H e)).
  { unfold do_schedule_select.
    assert (Hne : (num_schedule_entries prv <? 1) = false)
      by (apply Z.ltb_ge; lia).
    rewrite Hne, (geb_false now (next_major_frame prv)) by lia.
    rewrite (advance_loop_lands prv now k st) by (assumption || lia).
    cbn [entry]. rewrite He. reflexivity. }
  destruct (do_schedule_finish_in_entry H prv
              (mk_statics (sched_index st + Z.of_nat k)
                          (window_end prv st k)
                          (Some (Z.to_nat (sched_index st + Z.of_nat k))))
              (providers_candidate H e) now tasklet)
    as (r & Hfin & Htime & Hmig & _); cbn [sched_index next_switch_time];
    try lia.
  exists e, r. split; [exact He|]. split; [exact Hsel|].
  split; [|split; assumption].
  unfold a653sched_do_schedule. rewrite Hsel. exact Hfin.
Qed.

Lemma do_schedule_lands_in_window_witness :
  0 <= sched_index (mk_statics 0 (MILLISECS 10) (Some 0%nat)) /\
  entry (mk_statics 0 (MILLISECS 10) (Some 0%nat))
  = Some (Z.to_nat (sched_index (mk_statics 0 (MILLISECS 10) (Some 0%nat))))
  /\
  sched_index (mk_statics 0 (MILLISECS 10) (Some 0%nat)) + Z.of_nat 1
  < num_schedule_entries demo_in_frame /\
  num_schedule_entries demo_in_frame
  <= Z.of_nat (length (schedule demo_in_frame)) /\
  positive_runtimes demo_in_frame = true /\
  0 <= MILLISECS 15 /\
  MILLISECS 15 < next_major_frame demo_in_frame /\
  INT64_MIN <= next_switch_time (mk_statics 0 (MILLISECS 10) (Some 0%nat)) /\
  window_end demo_in_frame (mk_statics 0 (MILLISECS 10) (Some 0%nat)) 1
  <= INT64_MAX /\
  ((0 < 1)%nat ->
   window_end demo_in_frame (mk_statics 0 (MILLISECS 10) (Some 0%nat))
              (1 - 1) <= MILLISECS 15) /\
  MILLISECS 15
  < window_end demo_in_frame (mk_statics 0 (MILLISECS 10) (Some 0%nat)) 1 /\
  exists e r,
    schedule demo_in_frame
    !! Z.to_nat (sched_index (mk_statics 0 (MILLISECS 10) (Some 0%nat))
                 + Z.of_nat 1) = Some e /\
    do_schedule_select demo_host demo_in_frame
      (mk_statics 0 (MILLISECS 10) (Some 0%nat)) (MILLISECS 15) =
    Done (demo_in_frame,
          mk_statics
            (sched_index (mk_statics 0 (MILLISECS 10) (Some 0%nat))
             + Z.of_nat 1)
            (window_end demo_in_frame
               (mk_statics 0 (MILLISECS 10) (Some 0%nat)) 1)
            (Some (Z.to_nat
                     (sched_index (mk_statics 0 (MILLISECS 10) (Some 0%nat))
                      + Z.of_nat 1))),
          providers_candidate demo_host e) /\
    a653sched_do_schedule demo_host demo_in_frame
      (mk_statics 0 (MILLISECS 10) (Some 0%nat)) (MILLISECS 15) false =
    Done (r, demo_in_frame,
          mk_statics
            (sched_index (mk_statics 0 (MILLISECS 10) (Some 0%nat))
             + Z.of_nat 1)
            (window_end demo_in_frame
               (mk_statics 0 (MILLISECS 10) (Some 0%nat)) 1)
            (Some (Z.to_nat
                     (sched_index (mk_statics 0 (MILLISECS 10) (Some 0%nat))
                      + Z.of_nat 1)))) /\
    time r
    = window_end demo_in_frame (mk_statics 0 (MILLISECS 10) (Some 0%nat)) 1
      - MILLISECS 15 /\
    migrated r = false.
Proof.
  set (st := mk_statics 0 (MILLISECS 10) (Some 0%nat)).
  assert (H1 : 0 <= sched_index st) by by_evaluation.
  assert (H2 : entry st = Some (Z.to_nat (sched_index st))) by by_evaluation.
  assert (H3 : sched_index st + Z.of_nat 1
               < num_schedule_entries demo_in_frame) by by_evaluation.
  assert (H4 : num_schedule_entries demo_in_frame
               <= Z.of_nat (length (schedule demo_in_frame)))
    by by_evaluation.
  assert (H5 : positive_runtimes demo_in_frame = true) by by_evaluation.
  assert (H6 : 0 <= MILLISECS 15) by by_evaluation.
  assert (H7 : MILLISECS 15 < next_major_frame demo_in_frame)
    by by_evaluation.
  assert (H8 : INT64_MIN <= next_switch_time st) by by_evaluation.
  assert (H9 : window_end demo_in_frame st 1 <= INT64_MAX) by by_evaluation.
  assert (H10 : (0 < 1)%nat ->
                window_end demo_in_frame st (1 - 1) <= MILLISECS 15)
    by (intros _; by_evaluation).
  assert (H11 : MILLISECS 15 < window_end demo_in_frame st 1)
    by by_evaluation.
  repeat (split; [assumption|]).
  exact (do_schedule_lands_in_window demo_host demo_in_frame st
           (MILLISECS 15) false 1 H1 H2 H3 H4 H5 H6 H7 H8 H9 H10 H11).
Defined.

(** ** The per-domain record: adjust, create, destroy *)

Lemma providers_scan_without_domain (H H1 : host) (d : domain_ptr)
    (ps : list sched_providers_t) :
  (forall v, vcpu_domain H1 v = vcpu_domain H v) ->
  (forall d', d' <> d -> domain_sched_priv H1 d' = domain_sched_priv H d') ->
  match domain_sched_priv H1 d with
  | Some r => healthy r = false
  | None => True
  end ->
  (forall p, In p ps -> provider_in_domain H d p = false ->
             provider_qualifies H1 p = provider_qualifies H p) /\
  providers_scan H1 ps =
  providers_scan H
    (List.filter (fun p => negb (provider_in_domain H d p)) ps).
Proof.
  intros Hdom Hother Hbad.
  assert (Hsame : forall p, provider_in_domain H d p = false ->
                            provider_qualifies H1 p = provider_qualifies H p).
  { intros p Hout. unfold provider_qualifies, provider_in_domain in *.
    destruct (vc p) as [v|]; [|reflexivity].
    rewrite Hdom, Hother; [reflexivity|].
    apply Nat.eqb_neq. exact Hout. }
  assert (Hin : forall p, provider_in_domain H d p = true ->
                          provider_qualifies H1 p = false).
  { intros p Hp. unfold provider_qualifies, provider_in_domain in *.
    destruct (vc p) as [v|]; [|discriminate].
    apply Nat.eqb_eq in Hp. rewrite Hdom, Hp.
    destruct (domain_sched_priv H1 d); auto. }
  split; [auto|].
  induction ps as [|p ps IH]; [reflexivity|].
  rewrite providers_scan_step. simpl List.filter.
  destruct (provider_in_domain H d p) eqn:Hp; simpl negb; cbv iota.
  - rewrite (Hin p Hp). exact IH.
  - rewrite providers_scan_step, (Hsame p Hp).
    destruct (provider_qualifies H p); [reflexivity|exact IH].
Qed.

Lemma set_domain_sched_priv_other (H : host) (d : domain_ptr) sdom d' :
  d' <> d ->
  domain_sched_priv (set_domain_sched_priv H d sdom) d'
  = domain_sched_priv H d'.
Proof.
  intros Hne. simpl. destruct (Nat.eqb_spec d' d); [contradiction|reflexivity].
Qed.

Lemma clear_domain_sched_priv_other (H : host) (d : domain_ptr) d' :
  d' <> d ->
  domain_sched_priv (clear_domain_sched_priv H d) d' = domain_sched_priv H d'.
Proof.
  intros Hne. simpl. destruct (Nat.eqb_spec d' d); [contradiction|reflexivity].
Qed.

(** X12. Put, then get: after PUTINFO on a domain with a record, GETINFO
    on that domain reports the [healthy] flag that was put and, as parent,
    the low 16 bits of the parent that was put, or the old parent when the
    request carried -1; [primary] is kept in the latter case and otherwise
    tells whether the new parent is the domain itself.  The records of
    other domains are not touched. *)
Theorem adjust_domain_put_then_get (H : host) (d : domain_ptr) sdom req any :
  DOM_PRIV H (Some d) = Some sdom ->
  let new_parent :=
    if Domctl.parent req =? -1 then parent sdom
    else wrap_u16 (Domctl.parent req) in
  let new_primary :=
    if Domctl.parent req =? -1 then primary sdom
    else new_parent =? domain_domain_id H d in
  exists H1,
    a653sched_adjust_domain H d (Domctl.mk_op SCHEDOP_putinfo req)
    = Done (0, H1, Domctl.mk_op SCHEDOP_putinfo req) /\
    domain_sched_priv H1 d
    = Some (mk_sdom new_parent new_primary (Domctl.healthy req)) /\
    (forall d', d' <> d -> domain_sched_priv H1 d' = domain_sched_priv H d') /\
    a653sched_adjust_domain H1 d (Domctl.mk_op SCHEDOP_getinfo any)
    = Done (0, H1,
            Domctl.mk_op SCHEDOP_getinfo
              (Domctl.mk_arinc653 new_parent (Domctl.healthy req))).
Proof.
  intros Hsdom new_parent new_primary.
  unfold a653sched_adjust_domain at 1. cbn [Domctl.cmd Domctl.arinc653].
  rewrite Hsdom. eexists. split; [reflexivity|].
  assert (Hrec :
    domain_sched_priv
      (set_domain_sched_priv H d
         (mk_sdom
            (parent (if negb (Domctl.parent req =? -1)
                     then mk_sdom (wrap_u16 (Domctl.parent req))
                            (wrap_u16 (Domctl.parent req)
                             =? domain_domain_id H d) (healthy sdom)
                     else sdom))
            (primary (if negb (Domctl.parent req =? -1)
                      then mk_sdom (wrap_u16 (Domctl.parent req))
                             (wrap_u16 (Domctl.parent req)
                              =? domain_domain_id H d) (healthy sdom)
                      else sdom))
            (Domctl.healthy req))) d
    = Some (mk_sdom new_parent new_primary (Domctl.healthy req))).
  { simpl. rewrite Nat.eqb_refl. subst new_primary new_parent.
    destruct (Domctl.parent req =? -1); reflexivity. }
  split; [exact Hrec|]. split.
  - intros d' Hne. simpl.
    destruct (Nat.eqb_spec d' d); [contradiction|reflexivity].
  - unfold a653sched_adjust_domain. cbn [Domctl.cmd Domctl.arinc653].
    unfold DOM_PRIV. rewrite Hrec. reflexivity.
Qed.

Lemma adjust_domain_put_then_get_witness :
  DOM_PRIV demo_host (Some 2%nat) = Some (mk_sdom 2 true true) /\
  exists H1,
    a653sched_adjust_domain demo_host 2%nat
      (Domctl.mk_op SCHEDOP_putinfo (Domctl.mk_arinc653 65537 false))
    = Done (0, H1,
            Domctl.mk_op SCHEDOP_putinfo (Domctl.mk_arinc653 65537 false)) /\
    domain_sched_priv H1 2%nat = Some (mk_sdom 1 false false) /\
    (forall d', d' <> 2%nat ->
                domain_sched_priv H1 d' = domain_sched_priv demo_host d') /\
    a653sched_adjust_domain H1 2%nat
      (Domctl.mk_op SCHEDOP_getinfo (Domctl.mk_arinc653 0 true))
    = Done (0, H1,
            Domctl.mk_op SCHEDOP_getinfo (Domctl.mk_arinc653 1 false)).
Proof.
  assert (H1 : DOM_PRIV demo_host (Some 2%nat) = Some (mk_sdom 2 true true))
    by by_evaluation.
  split; [exact H1|].
  exact (adjust_domain_put_then_get demo_host 2%nat (mk_sdom 2 true true)
           (Domctl.mk_arinc653 65537 false) (Domctl.mk_arinc653 0 true) H1).
Defined.

(** X13. Failover: once PUTINFO has marked a domain unhealthy, the
    provider selector behaves on every entry as if the providers of that
    domain were not listed: it returns the first qualifying provider among
    the others, in declared order, judged as before the change. *)
Theorem unhealthy_domain_is_skipped (H : host) (d : domain_ptr) sdom req :
  DOM_PRIV H (Some d) = Some sdom ->
  Domctl.healthy req = false ->
  exists H1,
    a653sched_adjust_domain H d (Domctl.mk_op SCHEDOP_putinfo req)
    = Done (0, H1, Domctl.mk_op SCHEDOP_putinfo req) /\
    forall e,
      providers_candidate H1 e = providers_scan H (providers_outside H d e).
Proof.
  intros Hsdom Hreq.
  unfold a653sched_adjust_domain. cbn [Domctl.cmd Domctl.arinc653].
  rewrite Hsdom. eexists. split; [reflexivity|].
  intros e. unfold providers_candidate, providers_outside.
  match goal with
  | |- providers_scan ?H1 ?ps = _ =>
      apply (proj2 (providers_scan_without_domain H H1 d ps
                      (fun v => eq_refl)
                      (set_domain_sched_priv_other H d _)
                      ltac:(simpl; rewrite Nat.eqb_refl; exact Hreq)))
  end.
Qed.

Lemma unhealthy_domain_is_skipped_witness :
  DOM_PRIV demo_host (Some 2%nat) = Some (mk_sdom 2 true true) /\
  Domctl.healthy (Domctl.mk_arinc653 (-1) false) = false /\
  exists H1,
    a653sched_adjust_domain demo_host 2%nat
      (Domctl.mk_op SCHEDOP_putinfo (Domctl.mk_arinc653 (-1) false))
    = Done (0, H1,
            Domctl.mk_op SCHEDOP_putinfo (Domctl.mk_arinc653 (-1) false)) /\
    forall e,
      providers_candidate H1 e
      = providers_scan demo_host (providers_outside demo_host 2%nat e).
Proof.
  assert (H1 : DOM_PRIV demo_host (Some 2%nat) = Some (mk_sdom 2 true true))
    by by_evaluation.
  assert (H2 : Domctl.healthy (Domctl.mk_arinc653 (-1) false) = false)
    by reflexivity.
  repeat (split; [assumption|]).
  exact (unhealthy_domain_is_skipped demo_host 2%nat (mk_sdom 2 true true)
           (Domctl.mk_arinc653 (-1) false) H1 H2).
Defined.

(** X14. After [a653sched_destroy_domain] the provider selector never
    returns a provider of the destroyed domain: on every entry it behaves
    as if that domain's providers were not listed. *)
Theorem destroyed_domain_is_skipped (H : host) (d : domain_ptr) e :
  providers_candidate (a653sched_destroy_domain H d) e
  = providers_scan H (providers_outside H d e).
Proof.
  unfold providers_candidate, providers_outside.
  apply (proj2 (providers_scan_without_domain H
                  (a653sched_destroy_domain H d) d _
                  (fun v => eq_refl)
                  (clear_domain_sched_priv_other H d)
                  ltac:(simpl; rewrite Nat.eqb_refl; exact I))).
Qed.

(** X15. A domain record created by [a653sched_init_domain] has the
    domain as its own parent and is primary and healthy: GETINFO reports
    the domain's id and [healthy = true], and a provider whose resolved
    VCPU belongs to the domain passes the selector's three tests.  When
    the allocation fails the call returns [-ENOMEM] and attaches
    nothing. *)
Theorem init_domain_defaults (H : host) (d : domain_ptr) any p v :
  vc p = Some v -> vcpu_domain H v = d ->
  let H1 := snd (a653sched_init_domain H d true) in
  fst (a653sched_init_domain H d true) = 0 /\
  domain_sched_priv H1 d = Some (mk_sdom (domain_domain_id H d) true true) /\
  a653sched_adjust_domain H1 d (Domctl.mk_op SCHEDOP_getinfo any)
  = Done (0, H1,
          Domctl.mk_op SCHEDOP_getinfo
            (Domctl.mk_arinc653 (domain_domain_id H d) true)) /\
  provider_qualifies H1 p = true /\
  a653sched_init_domain H d false = (- ENOMEM, H).
Proof.
  intros Hvc Hd H1. subst H1. simpl.
  assert (Hrec : (if Nat.eqb d d
                  then Some (a653sched_alloc_domdata (domain_domain_id H d))
                  else domain_sched_priv H d)
                 = Some (mk_sdom (domain_domain_id H d) true true))
    by (rewrite Nat.eqb_refl; reflexivity).
  split; [reflexivity|]. split; [exact Hrec|]. split.
  - unfold a653sched_adjust_domain. cbn [Domctl.cmd]. unfold DOM_PRIV.
    simpl. rewrite Hrec. reflexivity.
  - split; [|reflexivity].
    unfold provider_qualifies. rewrite Hvc. simpl. rewrite Hd, Hrec.
    reflexivity.
Qed.

Lemma init_domain_defaults_witness :
  vc (mk_provider handle_D1 0 (Some 1%nat)) = Some 1%nat /\
  vcpu_domain demo_host 1%nat = 1%nat /\
  fst (a653sched_init_domain demo_host 1%nat true) = 0 /\
  domain_sched_priv (snd (a653sched_init_domain demo_host 1%nat true)) 1%nat
  = Some (mk_sdom (domain_domain_id demo_host 1%nat) true true) /\
  a653sched_adjust_domain (snd (a653sched_init_domain demo_host 1%nat true))
    1%nat (Domctl.mk_op SCHEDOP_getinfo (Domctl.mk_arinc653 0 false))
  = Done (0, snd (a653sched_init_domain demo_host 1%nat true),
          Domctl.mk_op SCHEDOP_getinfo
            (Domctl.mk_arinc653 (domain_domain_id demo_host 1%nat) true)) /\
  provider_qualifies (snd (a653sched_init_domain demo_host 1%nat true))
    (mk_provider handle_D1 0 (Some 1%nat)) = true /\
  a653sched_init_domain demo_host 1%nat false = (- ENOMEM, demo_host).
Proof.
  assert (H1 : vc (mk_provider handle_D1 0 (Some 1%nat)) = Some 1%nat)
    by reflexivity.
  assert (H2 : vcpu_domain demo_host 1%nat = 1%nat) by reflexivity.
  repeat (split; [assumption|]).
  exact (init_domain_defaults demo_host 1%nat (Domctl.mk_arinc653 0 false)
           (mk_provider handle_D1 0 (Some 1%nat)) 1%nat H1 H2).
Defined.

(** ** The global adjust operation *)


Lemma wf_sysctl_all_ones max_s max_d :
  wf_sysctl max_s max_d (all_ones_schedule max_s max_d) = true.
Proof.
  unfold wf_sysctl, all_ones_schedule. simpl.
  rewrite length_replicate, Nat.eqb_refl. simpl.
  apply forallb_lookup. intros i x Hx.
  apply lookup_replicate in Hx as [-> _]. simpl.
  rewrite length_replicate. apply Nat.eqb_refl.
Qed.

(** X17. Put, then get, through the global adjust operation: after a
    PUTINFO that returned 0, a GETINFO whose copy-out succeeds returns 0,
    leaves the instance alone and hands back the entry count and the major
    frame of the schedule that was put and, for each of its entries, the
    runtime and the handle and VCPU number of each of its providers. *)
Theorem adjust_global_put_then_get
    max_s max_d (H : host) prv s t prv' t' from_guest :
  wf_priv max_s max_d prv = true ->
  wf_sysctl max_s max_d s = true ->
  a653sched_adjust_global max_s max_d H prv SCHEDOP_putinfo (Some s) true t
  = (0, prv', None) ->
  exists out,
    a653sched_adjust_global max_s max_d H prv' SCHEDOP_getinfo from_guest
                            true t'
    = (0, prv', Some out) /\
    Sysctl.num_sched_entries out = Sysctl.num_sched_entries s /\
    Sysctl.major_frame out = Sysctl.major_frame s /\
    forall (i : nat) si,
      (i < Z.to_nat (Sysctl.num_sched_entries s))%nat ->
      Sysctl.sched_entries s !! i = Some si ->
      exists oi,
        Sysctl.sched_entries out !! i = Some oi /\
        Sysctl.runtime oi = Sysctl.runtime si /\
        forall (j : nat),
          (j < Z.to_nat (Sysctl.num_providers si))%nat ->
          Sysctl.service_providers oi !! j = Sysctl.service_providers si !! j.
Proof.
  intros Hwfp Hwfs Hput.
  unfold a653sched_adjust_global in Hput.
  destruct (arinc653_sched_set max_s max_d H prv s t) as [rc p] eqn:Hset.
  injection Hput as -> ->.
  destruct (sched_get_after_set max_s max_d H prv s t prv'
              (all_ones_schedule max_s max_d) Hwfp Hwfs
              (wf_sysctl_all_ones max_s max_d) Hset)
    as (_ & Hnum & Hmf & Hentries).
  exists (snd (arinc653_sched_get prv' (all_ones_schedule max_s max_d))).
  split; [reflexivity|]. auto.
Qed.

Lemma adjust_global_put_then_get_witness :
  wf_priv demo_max_services demo_max_domains demo_with_guests = true /\
  wf_sysctl demo_max_services demo_max_domains schedule_S1 = true /\
  a653sched_adjust_global demo_max_services demo_max_domains demo_host
    demo_with_guests SCHEDOP_putinfo (Some schedule_S1) true 0
  = (0, demo_S1_installed, None) /\
  exists out,
    a653sched_adjust_global demo_max_services demo_max_domains demo_host
      demo_S1_installed SCHEDOP_getinfo None true (MILLISECS 3)
    = (0, demo_S1_installed, Some out) /\
    Sysctl.num_sched_entries out = Sysctl.num_sched_entries schedule_S1 /\
    Sysctl.major_frame out = Sysctl.major_frame schedule_S1 /\
    forall (i : nat) si,
      (i < Z.to_nat (Sysctl.num_sched_entries schedule_S1))%nat ->
      Sysctl.sched_entries schedule_S1 !! i = Some si ->
      exists oi,
        Sysctl.sched_entries out !! i = Some oi /\
        Sysctl.runtime oi = Sysctl.runtime si /\
        forall (j : nat),
          (j < Z.to_nat (Sysctl.num_providers si))%nat ->
          Sysctl.service_providers oi !! j = Sysctl.service_providers si !! j.
Proof.
  assert (H1 : wf_priv demo_max_services demo_max_domains demo_with_guests
               = true) by by_evaluation.
  assert (H2 : wf_sysctl demo_max_services demo_max_domains schedule_S1
               = true) by by_evaluation.
  assert (H3 : a653sched_adjust_global demo_max_services demo_max_domains
                 demo_host demo_with_guests SCHEDOP_putinfo
                 (Some schedule_S1) true 0
               = (0, demo_S1_installed, None)) by by_evaluation.
  repeat (split; [assumption|]).
  exact (adjust_global_put_then_get demo_max_services demo_max_domains
           demo_host demo_with_guests schedule_S1 0 demo_S1_installed
           (MILLISECS 3) None H1 H2 H3).
Defined.

(** ** Sleep and wake *)

Lemma providers_scan_same_domains (H H1 : host) (ps : list sched_providers_t) :
  (forall v, vcpu_domain H1 v = vcpu_domain H v) ->
  (forall d, domain_sched_priv H1 d = domain_sched_priv H d) ->
  providers_scan H1 ps = providers_scan H ps.
Proof.
  intros Hdom Hpriv. induction ps as [|p ps IH]; [reflexivity|].
  rewrite !providers_scan_step, IH. unfold provider_qualifies.
  destruct (vc p); [|reflexivity]. rewrite Hdom, Hpriv. reflexivity.
Qed.

Lemma do_schedule_select_same_domains (H H1 : host) prv st now :
  (forall v, vcpu_domain H1 v = vcpu_domain H v) ->
  (forall d, domain_sched_priv H1 d = domain_sched_priv H d) ->
  do_schedule_select H1 prv st now = do_schedule_select H prv st now.
Proof.
  intros Hdom Hpriv. unfold do_schedule_select, providers_candidate.
  destruct (num_schedule_entries prv <? 1); [reflexivity|].
  destruct (now >=? next_major_frame prv).
  - destruct (schedule prv !! 0%nat); [|reflexivity].
    rewrite (providers_scan_same_domains H H1) by assumption. reflexivity.
  - destruct (advance_loop _ prv now st) as [st2|]; [|reflexivity].
    destruct (entry st2) as [i|]; [|reflexivity].
    destruct (schedule prv !! i); [|reflexivity].
    rewrite (providers_scan_same_domains H H1) by assumption. reflexivity.
Qed.

Lemma do_schedule_finish_idle (H : host) prv st p v now :
  vc p = Some v ->
  can_run H (Some v) = false ->
  sched_index st < num_schedule_entries prv ->
  now < next_major_frame prv ->
  0 < next_switch_time st - now <= INT64_MAX ->
  do_schedule_finish H prv st (Some p) now false =
  Done (mk_task_slice (Some (IDLETASK H (smp_processor_id H)))
                      (next_switch_time st - now) false, prv, st).
Proof.
  intros Hvc Hrun Hidx Hframe Hslice. unfold do_schedule_finish.
  rewrite (geb_false (sched_index st) (num_schedule_entries prv)) by lia.
  rewrite Hvc, Hrun.
  rewrite (geb_false now (next_major_frame prv)) by lia.
  match goal with
  | |- context [if ?c then ?i else ?i] =>
      replace (if c then i else i) with i by (destruct c; reflexivity)
  end.
  rewrite wrap_s64_id by (unfold in_s64, INT64_MIN, INT64_MAX in *; lia).
  assert (Hpos : (next_switch_time st - now <=? 0) = false)
    by (apply Z.leb_gt; lia).
  rewrite Hpos. reflexivity.
Qed.

Lemma do_schedule_finish_runs (H : host) prv st p v now :
  vc p = Some v ->
  can_run H (Some v) = true ->
  vcpu_processor H v = smp_processor_id H ->
  sched_index st < num_schedule_entries prv ->
  now < next_major_frame prv ->
  0 < next_switch_time st - now <= INT64_MAX ->
  do_schedule_finish H prv st (Some p) now false =
  Done (mk_task_slice (Some v) (next_switch_time st - now) false, prv, st).
Proof.
  intros Hvc Hrun Hcpu Hidx Hframe Hslice. unfold do_schedule_finish.
  rewrite (geb_false (sched_index st) (num_schedule_entries prv)) by lia.
  rewrite Hvc, Hrun.
  rewrite (geb_false now (next_major_frame prv)) by lia.
  rewrite Hcpu, Z.eqb_refl, andb_false_r.
  rewrite wrap_s64_id by (unfold in_s64, INT64_MIN, INT64_MAX in *; lia).
  assert (Hpos : (next_switch_time st - now <=? 0) = false)
    by (apply Z.leb_gt; lia).
  rewrite Hpos. reflexivity.
Qed.

(** X18. Sleep and wake decide whether the selected VCPU runs.  Take a
    dispatcher call whose branch logic lands inside the timetable, before
    the end of the frame and of the entry's window, and selects a provider
    whose VCPU has a scheduler record, is runnable and sits on the current
    CPU.  After [a653sched_vcpu_sleep] on that VCPU the call (without
    tasklet work) returns the idle VCPU; after [a653sched_vcpu_wake] it
    returns that VCPU; the frame state and the slice are the same in both
    cases. *)
Theorem wake_runs_selected_vcpu (H : host) curr prv st now prv1 st1 p v a :
  do_schedule_select H prv st now = Done (prv1, st1, Some p) ->
  vc p = Some v ->
  AVCPU H v = Some a ->
  vcpu_runnable H v = true ->
  vcpu_processor H v = smp_processor_id H ->
  sched_index st1 < num_schedule_entries prv1 ->
  now < next_major_frame prv1 ->
  0 < next_switch_time st1 - now <= INT64_MAX ->
  a653sched_do_schedule (fst (a653sched_vcpu_sleep H curr v)) prv st now false
  = Done (mk_task_slice (Some (IDLETASK H (smp_processor_id H)))
                        (next_switch_time st1 - now) false, prv1, st1) /\
  a653sched_do_schedule (fst (a653sched_vcpu_wake H v)) prv st now false
  = Done (mk_task_slice (Some v) (next_switch_time st1 - now) false,
          prv1, st1).
Proof.
  intros Hsel Hvc Ha Hrunnable Hcpu Hidx Hframe Hslice.
  unfold a653sched_vcpu_sleep, a653sched_vcpu_wake. rewrite Ha.
  cbn [fst]. unfold a653sched_do_schedule.
  rewrite (do_schedule_select_same_domains H (set_avcpu_awake H a false)),
          (do_schedule_select_same_domains H (set_avcpu_awake H a true))
    by reflexivity.
  rewrite Hsel. split.
  - apply (do_schedule_finish_idle (set_avcpu_awake H a false)
             prv1 st1 p v now); try assumption.
    simpl. unfold AVCPU in Ha. rewrite Ha, Nat.eqb_refl. reflexivity.
  - apply (do_schedule_finish_runs (set_avcpu_awake H a true)
             prv1 st1 p v now); try assumption.
    simpl. unfold AVCPU in Ha. rewrite Ha, Nat.eqb_refl. exact Hrunnable.
Qed.

Lemma wake_runs_selected_vcpu_witness :
  do_schedule_select demo_host demo_in_frame
    (mk_statics 0 (MILLISECS 10) (Some 0%nat)) (MILLISECS 5)
  = Done (demo_in_frame, mk_statics 0 (MILLISECS 10) (Some 0%nat),
          Some (mk_provider handle_D1 0 (Some 1%nat))) /\
  vc (mk_provider handle_D1 0 (Some 1%nat)) = Some 1%nat /\
  AVCPU demo_host 1%nat = Some 1%nat /\
  vcpu_runnable demo_host 1%nat = true /\
  vcpu_processor demo_host 1%nat = smp_processor_id demo_host /\
  sched_index (mk_statics 0 (MILLISECS 10) (Some 0%nat))
  < num_schedule_entries demo_in_frame /\
  MILLISECS 5 < next_major_frame demo_in_frame /\
  0 < next_switch_time (mk_statics 0 (MILLISECS 10) (Some 0%nat))
      - MILLISECS 5 <= INT64_MAX /\
  a653sched_do_schedule
    (fst (a653sched_vcpu_sleep demo_host (fun _ => Some 1%nat) 1%nat))
    demo_in_frame (mk_statics 0 (MILLISECS 10) (Some 0%nat)) (MILLISECS 5)
    false
  = Done (mk_task_slice
            (Some (IDLETASK demo_host (smp_processor_id demo_host)))
            (next_switch_time (mk_statics 0 (MILLISECS 10) (Some 0%nat))
             - MILLISECS 5) false,
          demo_in_frame, mk_statics 0 (MILLISECS 10) (Some 0%nat)) /\
  a653sched_do_schedule (fst (a653sched_vcpu_wake demo_host 1%nat))
    demo_in_frame (mk_statics 0 (MILLISECS 10) (Some 0%nat)) (MILLISECS 5)
    false
  = Done (mk_task_slice (Some 1%nat)
            (next_switch_time (mk_statics 0 (MILLISECS 10) (Some 0%nat))
             - MILLISECS 5) false,
          demo_in_frame, mk_statics 0 (MILLISECS 10) (Some 0%nat)).
Proof.
  set (st := mk_statics 0 (MILLISECS 10) (Some 0%nat)).
  set (p := mk_provider handle_D1 0 (Some 1%nat)).
  assert (H1 : do_schedule_select demo_host demo_in_frame st (MILLISECS 5)
               = Done (demo_in_frame, st, Some p)) by by_evaluation.
  assert (H2 : vc p = Some 1%nat) by reflexivity.
  assert (H3 : AVCPU demo_host 1%nat = Some 1%nat) by reflexivity.
  assert (H4 : vcpu_runnable demo_host 1%nat = true) by reflexivity.
  assert (H5 : vcpu_processor demo_host 1%nat = smp_processor_id demo_host)
    by reflexivity.
  assert (H6 : sched_index st < num_schedule_entries demo_in_frame)
    by by_evaluation.
  assert (H7 : MILLISECS 5 < next_major_frame demo_in_frame)
    by by_evaluation.
  assert (H8 : 0 < next_switch_time st - MILLISECS 5 <= INT64_MAX)
    by (split; by_evaluation).
  repeat (split; [assumption|]).
  exact (wake_runs_selected_vcpu demo_host (fun _ => Some 1%nat)
           demo_in_frame st (MILLISECS 5) demo_in_frame st p 1%nat 1%nat
           H1 H2 H3 H4 H5 H6 H7 H8).
Defined.

(** X19. Wake and sleep compose as flag writes: waking twice is waking
    once, sleeping twice is sleeping once, and of a sleep and a wake the
    later one wins; only the record of the VCPU named is written.  Wake
    always raises the scheduling soft interrupt on the VCPU's processor;
    sleep raises it exactly when the VCPU is the one running there. *)
Theorem sleep_wake_compose (H : host) (curr : Z -> option vcpu_ptr)
    (v : vcpu_ptr) :
  let wake h := fst (a653sched_vcpu_wake h v) in
  let sleep h := fst (a653sched_vcpu_sleep h curr v) in
  (forall a, avcpu_awake (wake (wake H)) a = avcpu_awake (wake H) a) /\
  (forall a, avcpu_awake (sleep (sleep H)) a = avcpu_awake (sleep H) a) /\
  (forall a, avcpu_awake (wake (sleep H)) a = avcpu_awake (wake H) a) /\
  (forall a, avcpu_awake (sleep (wake H)) a = avcpu_awake (sleep H) a) /\
  (forall a, AVCPU H v = Some a ->
             avcpu_awake (wake H) a = true /\
             avcpu_awake (sleep H) a = false) /\
  (forall a, AVCPU H v <> Some a ->
             avcpu_awake (wake H) a = avcpu_awake H a /\
             avcpu_awake (sleep H) a = avcpu_awake H a) /\
  snd (a653sched_vcpu_wake H v) = Some (vcpu_processor H v) /\
  (snd (a653sched_vcpu_sleep H curr v) = Some (vcpu_processor H v) <->
   curr (vcpu_processor H v) = Some v) /\
  (snd (a653sched_vcpu_sleep H curr v) = None <->
   curr (vcpu_processor H v) <> Some v).
Proof.
  intros wake sleep. subst wake sleep.
  unfold a653sched_vcpu_wake, a653sched_vcpu_sleep, AVCPU. cbn [fst snd].
  destruct (vcpu_sched_priv H v) as [a0|] eqn:Ha;
    cbn [vcpu_sched_priv set_avcpu_awake]; rewrite ?Ha;
    cbn [avcpu_awake set_avcpu_awake];
    repeat split; intros;
    repeat match goal with
           | |- context [Nat.eqb ?x ?y] => destruct (Nat.eqb_spec x y)
           | Hc : context [Nat.eqb ?x ?y] |- _ => destruct (Nat.eqb_spec x y)
           | |- context [curr ?c] => destruct (curr c) eqn:?
           | Hc : context [match curr ?c with _ => _ end] |- _ =>
               destruct (curr c) eqn:?
           end;
    subst; try reflexivity; try discriminate; try congruence.
Qed.

(** ** The choice of a CPU *)

(** X20. [a653sched_pick_cpu] keeps the VCPU on its processor when that
    processor is in the domain's CPU mask, and also when the mask is empty
    ([cpumask_first] at or past [nr_cpu_ids]); otherwise it returns the
    first CPU of the mask.  So whenever the mask holds a CPU, the CPU
    picked is in the mask.  The host's [cpumask_first] is taken to return
    a CPU of the mask whenever it returns a number below [nr_cpu_ids]. *)
Theorem pick_cpu_in_mask (cpumask : Type) (cpumask_first : cpumask -> Z)
    (cpumask_test_cpu : Z -> cpumask -> bool) (nr_cpu_ids : Z)
    (H : host) (online : cpumask) (v : vcpu_ptr) :
  (forall m, cpumask_first m < nr_cpu_ids ->
             cpumask_test_cpu (cpumask_first m) m = true) ->
  let cpu := a653sched_pick_cpu cpumask cpumask_first cpumask_test_cpu
                                nr_cpu_ids H online v in
  (cpumask_test_cpu (vcpu_processor H v) online = true ->
   cpu = vcpu_processor H v) /\
  (nr_cpu_ids <= cpumask_first online -> cpu = vcpu_processor H v) /\
  (cpumask_test_cpu (vcpu_processor H v) online = false ->
   cpumask_first online < nr_cpu_ids -> cpu = cpumask_first online) /\
  (cpumask_first online < nr_cpu_ids -> cpumask_test_cpu cpu online = true).
Proof.
  intros Hfirst cpu. subst cpu. unfold a653sched_pick_cpu.
  destruct (cpumask_test_cpu (vcpu_processor H v) online) eqn:Htest;
    simpl orb.
  - repeat split; auto; discriminate.
  - destruct (Z.leb_spec nr_cpu_ids (cpumask_first online)) as [Hge|Hlt].
    + rewrite geb_true by lia. repeat split; auto; try discriminate; lia.
    + rewrite geb_false by lia. repeat split; auto; try discriminate; lia.
Qed.

Lemma pick_cpu_in_mask_witness :
  (forall m : Z, (fun m => m) m < 4 ->
                 (fun c m => c =? m) ((fun m => m) m) m = true) /\
  (((fun c m => c =? m) (vcpu_processor demo_host 1%nat) 2 = true ->
    a653sched_pick_cpu Z (fun m => m) (fun c m => c =? m) 4 demo_host 2
                       1%nat
    = vcpu_processor demo_host 1%nat) /\
   (4 <= (fun m : Z => m) 2 ->
    a653sched_pick_cpu Z (fun m => m) (fun c m => c =? m) 4 demo_host 2
                       1%nat
    = vcpu_processor demo_host 1%nat) /\
   ((fun c m => c =? m) (vcpu_processor demo_host 1%nat) 2 = false ->
    (fun m : Z => m) 2 < 4 ->
    a653sched_pick_cpu Z (fun m => m) (fun c m => c =? m) 4 demo_host 2
                       1%nat
    = (fun m : Z => m) 2) /\
   ((fun m : Z => m) 2 < 4 ->
    (fun c m => c =? m)
      (a653sched_pick_cpu Z (fun m => m) (fun c m => c =? m) 4 demo_host 2
                          1%nat) 2 = true)).
Proof.
  assert (H1 : forall m : Z, (fun m => m) m < 4 ->
                             (fun c m => c =? m) ((fun m => m) m) m = true)
    by (intros m _; apply Z.eqb_refl).
  split; [exact H1|].
  exact (pick_cpu_in_mask Z (fun m => m) (fun c m => c =? m) 4 demo_host 2
           1%nat H1).
Defined.

(** ** The installed timetable, entry by entry *)

(** X23. A successful install copies the whole candidate: the entry
    count, the major frame and, into each of the first [num_sched_entries]
    slots, the candidate entry's service id, runtime, provider count and
    each provider's handle and VCPU number, with the reference looked up
    in the registry; [next_major_frame] becomes the install time; the
    registry and the slots past the entry count are not touched. *)
Theorem sched_set_installs_every_entry max_s max_d (H : host) prv s t prv' :
  wf_priv max_s max_d prv = true ->
  wf_sysctl max_s max_d s = true ->
  arinc653_sched_set max_s max_d H prv s t = (0, prv') ->
  num_schedule_entries prv' = Sysctl.num_sched_entries s /\
  major_frame prv' = Sysctl.major_frame s /\
  next_major_frame prv' = t /\
  vcpu_list prv' = vcpu_list prv /\
  (forall (i : nat) si,
      (i < Z.to_nat (Sysctl.num_sched_entries s))%nat ->
      Sysctl.sched_entries s !! i = Some si ->
      exists ei,
        schedule prv' !! i = Some ei /\
        service_id ei = Sysctl.service_id si /\
        runtime ei = Sysctl.runtime si /\
        num_providers ei = Sysctl.num_providers si /\
        forall (j : nat) sp,
          (j < Z.to_nat (Sysctl.num_providers si))%nat ->
          Sysctl.service_providers si !! j = Some sp ->
          providers ei !! j =
          Some (mk_provider (Sysctl.dom_handle sp) (Sysctl.vcpu_id sp)
                  (find_vcpu H prv' (Sysctl.dom_handle sp)
                             (Sysctl.vcpu_id sp)))) /\
  (forall i : nat,
      (Z.to_nat (Sysctl.num_sched_entries s) <= i)%nat ->
      schedule prv' !! i = schedule prv !! i).
Proof.
  intros Hwfp Hwfs Hset.
  apply sched_set_success in Hset as (Hmf & Hn & Hbad & _ & ->).
  set (n := Z.to_nat (Sysctl.num_sched_entries s)) in *.
  cbn [schedule num_schedule_entries major_frame next_major_frame vcpu_list].
  do 4 (split; [reflexivity|]). split.
  - intros i si Hi Hsi.
    assert (His : (i < Z.to_nat max_s)%nat) by (subst n; lia).
    destruct (wf_priv_slot _ _ _ i Hwfp His) as (d & Hd & Hdlen).
    pose proof (existsb_take_false _ _ _ _ _ Hbad Hi Hsi) as Hnp.
    unfold bad_num_providers in Hnp.
    apply orb_false_elim in Hnp as [Hnp1 Hnp2].
    apply Z.ltb_ge in Hnp1. rewrite Z.gtb_ltb in Hnp2.
    apply Z.ltb_ge in Hnp2.
    exists (resolve_entry H prv (copy_entry d si)). split.
    + apply for_first_lookup_lt; [exact Hi|].
      apply for_first2_lookup_lt; assumption.
    + do 3 (split; [reflexivity|]).
      intros j sp Hj Hsp.
      unfold resolve_entry, copy_entry. cbn [providers num_providers].
      destruct (lookup_lt_is_Some_2 (providers d) j) as [pd Hpd]; [lia|].
      rewrite (for_first_lookup_lt _ _ _ j (copy_provider pd sp)).
      * reflexivity.
      * exact Hj.
      * apply for_first2_lookup_lt; assumption.
  - intros i Hi.
    rewrite for_first_lookup_ge, for_first2_lookup_ge by exact Hi.
    reflexivity.
Qed.

Lemma sched_set_installs_every_entry_witness :
  wf_priv demo_max_services demo_max_domains demo_with_guests = true /\
  wf_sysctl demo_max_services demo_max_domains schedule_S1 = true /\
  arinc653_sched_set demo_max_services demo_max_domains demo_host
    demo_with_guests schedule_S1 0 = (0, demo_S1_installed) /\
  num_schedule_entries demo_S1_installed
  = Sysctl.num_sched_entries schedule_S1 /\
  major_frame demo_S1_installed = Sysctl.major_frame schedule_S1 /\
  next_major_frame demo_S1_installed = 0 /\
  vcpu_list demo_S1_installed = vcpu_list demo_with_guests /\
  (forall (i : nat) si,
      (i < Z.to_nat (Sysctl.num_sched_entries schedule_S1))%nat ->
      Sysctl.sched_entries schedule_S1 !! i = Some si ->
      exists ei,
        schedule demo_S1_installed !! i = Some ei /\
        service_id ei = Sysctl.service_id si /\
        runtime ei = Sysctl.runtime si /\
        num_providers ei = Sysctl.num_providers si /\
        forall (j : nat) sp,
          (j < Z.to_nat (Sysctl.num_providers si))%nat ->
          Sysctl.service_providers si !! j = Some sp ->
          providers ei !! j =
          Some (mk_provider (Sysctl.dom_handle sp) (Sysctl.vcpu_id sp)
                  (find_vcpu demo_host demo_S1_installed
                             (Sysctl.dom_handle sp) (Sysctl.vcpu_id sp)))) /\
  (forall i : nat,
      (Z.to_nat (Sysctl.num_sched_entries schedule_S1) <= i)%nat ->
      schedule demo_S1_installed !! i = schedule demo_with_guests !! i).
Proof.
  assert (H1 : wf_priv demo_max_services demo_max_domains demo_with_guests
               = true) by by_evaluation.
  assert (H2 : wf_sysctl demo_max_services demo_max_domains schedule_S1
               = true) by by_evaluation.
  assert (H3 : arinc653_sched_set demo_max_services demo_max_domains
                 demo_host demo_with_guests schedule_S1 0
               = (0, demo_S1_installed)) by by_evaluation.
  repeat (split; [assumption|]).
  exact (sched_set_installs_every_entry demo_max_services demo_max_domains
           demo_host demo_with_guests schedule_S1 0 demo_S1_installed
           H1 H2 H3).
Defined.

(** ** The earlier general facts at work on the small system *)

Lemma dom_handle_cmp_zero_iff_witness :
  wf_handle handle_D1 /\ wf_handle handle_D2 /\
  (dom_handle_cmp handle_D1 handle_D2 = 0 <-> handle_D1 = handle_D2).
Proof.
  assert (H1 : wf_handle handle_D1) by reflexivity.
  assert (H2 : wf_handle handle_D2) by reflexivity.
  repeat (split; [assumption|]).
  exact (dom_handle_cmp_zero_iff handle_D1 handle_D2 H1 H2).
Defined.

(** ** A rejected install *)

(** X22. A candidate that breaks a validation rule, and whose runtimes add
    up to a representable number, is rejected with [-EINVAL] and the
    instance is handed back as it was: timetable, entry count, major
    frame, next major frame and registry. *)
Theorem sched_set_rejects_without_update max_s max_d (H : host) prv s t :
  sysctl_sum_runtimes
    (take (Z.to_nat (Sysctl.num_sched_entries s)) (Sysctl.sched_entries s))
  <= INT64_MAX ->
  valid_schedule max_s max_d s = false ->
  arinc653_sched_set max_s max_d H prv s t = (- EINVAL, prv).
Proof.
  intros Hsum Hbad.
  pose proof (sched_set_validates max_s max_d H prv s t Hsum) as Hrc.
  rewrite Hbad in Hrc.
  pose proof (sched_set_fail_unchanged max_s max_d H prv s t) as Hsame.
  destruct (arinc653_sched_set max_s max_d H prv s t) as [rc prv'].
  cbn [fst snd] in *. subst rc.
  rewrite Hsame; [reflexivity|]. unfold EINVAL. lia.
Qed.

Lemma sched_set_rejects_without_update_witness :
  sysctl_sum_runtimes
    (take (Z.to_nat (Sysctl.num_sched_entries schedule_S1_short_frame))
          (Sysctl.sched_entries schedule_S1_short_frame)) <= INT64_MAX /\
  valid_schedule demo_max_services demo_max_domains schedule_S1_short_frame
  = false /\
  arinc653_sched_set demo_max_services demo_max_domains demo_host
    demo_S1_installed schedule_S1_short_frame (MILLISECS 5)
  = (- EINVAL, demo_S1_installed).
Proof.
  assert (H1 : sysctl_sum_runtimes
                 (take (Z.to_nat (Sysctl.num_sched_entries
                                    schedule_S1_short_frame))
                       (Sysctl.sched_entries schedule_S1_short_frame))
               <= INT64_MAX) by by_evaluation.
  assert (H2 : valid_schedule demo_max_services demo_max_domains
                 schedule_S1_short_frame = false) by by_evaluation.
  repeat (split; [assumption|]).
  exact (sched_set_rejects_without_update demo_max_services
           demo_max_domains demo_host demo_S1_installed
           schedule_S1_short_frame (MILLISECS 5) H1 H2).
Defined.
